(** * reading-tracker: the enrichment pipeline

    A shallow embedding of the book-data enrichment code of the
    reading-tracker application and the properties its specification
    states about it:

    - [lib/openbd.ts]        ISBN-registry adapter (OpenBD)
    - [lib/google-books.ts]  general-search adapter, genre
                             classification, ISBN merge engine
    - [lib/amazon.ts]        ASIN extraction from retailer URLs
    - [types/book.ts]        the record type
    - [lib/storage.ts]       the record store
    - the page component     the backfill scheduler ([backfillBookData],
                             an effect of the page that lists the books)

    Modelling conventions.

    - A TypeScript [string] is a Rocq [string]; non-ASCII text is kept
      as its UTF-8 bytes.  [.length] on a text that a source or the user
      provides (a date, in the merge and in the scheduler) is [JS.length],
      the number of UTF-16 code units; [trim] and [parseInt] know the
      white space of Unicode.  The registry adapter and the URL parser
      work on ISBNs, ASINs, subject codes and compact dates: there
      [length], [slice] and the white-space class are the byte-wise,
      ASCII ones, exact on the ASCII text these consist of.
      [String.prototype.toLowerCase] is a parameter.
    - A TypeScript [number] that the code only copies or tests for zero
      (page counts, rating, epoch milliseconds) is a [Z]; where the code
      can meet [NaN] ([parseInt], [Number]) the type is [JS.number].
    - [T | null], [T | undefined] and optional properties are [option T].
    - A plain object used as a dictionary is a finite map ([gmap]) or,
      where [Object.entries] order matters, an association list.  The
      registry's tables are looked up by keys of digits, own keys only;
      the category table is looked up by any text, and [Genre.object_get]
      also finds what the table inherits from [Object.prototype].
    - The records under the books key are [StoredBook]s: what
      [JSON.parse] returns, with the properties that an earlier version
      of the application did not write optional.  [getBooks] brings them
      to the [Book] of the interface.
    - An exception is an [Outcome]: [Ret v], [ThrowRateLimit] (the
      [RateLimitError] class) or [ThrowOther] (any other error).
    - [localStorage], the clock and the network are explicit: the
      scheduler is a function from a [State] to a [State], given a
      [Platform] that answers every [fetch]. *)

From Stdlib Require Import ZArith Ascii String List Bool Lia DecimalString.
From Stdlib Require DecimalPos.
From stdpp Require Import gmap strings list fin_maps.

Local Open Scope string_scope.
Local Open Scope Z_scope.

(* ================================================================== *)
(** ** JavaScript values used by the code *)
(* ================================================================== *)

Module JS.

(** Numbers: the integers the pipeline works with, and [NaN]. *)
Inductive number : Type :=
| Num (z : Z)
| NaN.

Definition add (a b : number) : number :=
  match a, b with Num x, Num y => Num (x + y) | _, _ => NaN end.

Definition sub (a b : number) : number :=
  match a, b with Num x, Num y => Num (x - y) | _, _ => NaN end.

Definition mul (a b : number) : number :=
  match a, b with Num x, Num y => Num (x * y) | _, _ => NaN end.

(** [a % b]: the remainder has the sign of the dividend. *)
Definition rem (a b : number) : number :=
  match a, b with
  | Num x, Num y => if y =? 0 then NaN else Num (Z.rem x y)
  | _, _ => NaN
  end.

(** [a < b]: every comparison with [NaN] is false. *)
Definition lt (a b : number) : bool :=
  match a, b with Num x, Num y => x <? y | _, _ => false end.

(** Truthiness of a number: [0] and [NaN] are falsy. *)
Definition truthy (a : number) : bool :=
  match a with Num z => negb (z =? 0) | NaN => false end.

(** [a || b] on numbers. *)
Definition or (a b : number) : number := if truthy a then a else b.

(** [String(n)] for an integer. *)
Definition string_of_Z (z : Z) : string :=
  NilZero.string_of_int (Z.to_int z).

(** Number to string, as in [base + check]. *)
Definition toString (a : number) : string :=
  match a with Num z => string_of_Z z | NaN => "NaN" end.

(** Truthiness of a string and of a nullable string. *)
Definition nonempty (s : string) : bool :=
  match s with EmptyString => false | String _ _ => true end.

Definition truthy_opt (o : option string) : bool :=
  match o with Some s => nonempty s | None => false end.

(** The UTF-16 code units that the character starting at byte [c]
    takes: none for a byte that continues a character, one for a byte
    that starts a character of up to three bytes, the two of a
    surrogate pair for a byte that starts a four-byte character. *)
Definition units (c : ascii) : nat :=
  let n := nat_of_ascii c in
  if (n <? 128)%nat then 1%nat
  else if (n <? 192)%nat then 0%nat
  else if (n <? 240)%nat then 1%nat
  else 2%nat.

(** [s.length]: the number of UTF-16 code units of the text. *)
Fixpoint length (s : string) : nat :=
  match s with
  | String c s' => (units c + length s')%nat
  | EmptyString => 0%nat
  end.

(** [s.slice(from, to)] for [0 <= from <= to]. *)
Definition slice (from to : nat) (s : string) : string :=
  String.substring from (to - from) s.

(** [s.slice(-n)]: the last [n] characters. *)
Definition slice_last (n : nat) (s : string) : string :=
  String.substring (String.length s - n) n s.

(** [s[i]]: a one-character string, or [undefined]. *)
Definition at_index (s : string) (i : nat) : option string :=
  match String.get i s with
  | Some c => Some (String c EmptyString)
  | None => None
  end.

Definition is_digit (c : ascii) : bool :=
  let n := nat_of_ascii c in (48 <=? n)%nat && (n <=? 57)%nat.

Definition digit_value (c : ascii) : Z := Z.of_nat (nat_of_ascii c) - 48.

(** Value of a hexadecimal digit, if [c] is one. *)
Definition hex_value (c : ascii) : option Z :=
  let n := nat_of_ascii c in
  if is_digit c then Some (digit_value c)
  else if (65 <=? n)%nat && (n <=? 70)%nat then Some (Z.of_nat n - 55)
  else if (97 <=? n)%nat && (n <=? 102)%nat then Some (Z.of_nat n - 87)
  else None.

Definition dec_value (c : ascii) : option Z :=
  if is_digit c then Some (digit_value c) else None.

(** The white space of one byte: TAB, LF, VT, FF, CR, SP. *)
Definition is_space (c : ascii) : bool :=
  let n := nat_of_ascii c in
  ((9 <=? n)%nat && (n <=? 13)%nat) || (n =? 32)%nat.

(** The white space of two bytes: U+00A0. *)
Definition is_space2 (c1 c2 : ascii) : bool :=
  (nat_of_ascii c1 =? 194)%nat && (nat_of_ascii c2 =? 160)%nat.

(** The white space of three bytes: U+1680, U+2000 to U+200A, U+2028,
    U+2029, U+202F, U+205F, U+3000 and U+FEFF. *)
Definition is_space3 (c1 c2 c3 : ascii) : bool :=
  let n1 := nat_of_ascii c1 in
  let n2 := nat_of_ascii c2 in
  let n3 := nat_of_ascii c3 in
  ((n1 =? 225) && (n2 =? 154) && (n3 =? 128))%nat
  || ((n1 =? 226) && (n2 =? 128)
      && (((128 <=? n3) && (n3 <=? 138)) || (n3 =? 168) || (n3 =? 169)
          || (n3 =? 175)))%nat
  || ((n1 =? 226) && (n2 =? 129) && (n3 =? 159))%nat
  || ((n1 =? 227) && (n2 =? 128) && (n3 =? 128))%nat
  || ((n1 =? 239) && (n2 =? 187) && (n3 =? 191))%nat.

(** [s.trimStart()], and the white space that [parseInt] skips: the
    characters of [WhiteSpace] and [LineTerminator], of one, two or
    three bytes. *)
Fixpoint trimStart (s : string) : string :=
  match s with
  | String c1 s1 =>
      if is_space c1 then trimStart s1
      else
        match s1 with
        | String c2 s2 =>
            if is_space2 c1 c2 then trimStart s2
            else
              match s2 with
              | String c3 s3 =>
                  if is_space3 c1 c2 c3 then trimStart s3 else s
              | EmptyString => s
              end
        | EmptyString => s
        end
  | EmptyString => EmptyString
  end.

(** [!s.trim()]: the string is empty or all white space. *)
Definition blank (s : string) : bool := negb (nonempty (trimStart s)).

(** The longest prefix of digits in the given radix, read as a number;
    [None] when there is no digit. *)
Fixpoint digits_prefix (value : ascii -> option Z) (radix : Z)
         (s : string) (acc : option Z) : option Z :=
  match s with
  | String c s' =>
      match value c with
      | Some d =>
          digits_prefix value radix s'
            (Some (match acc with Some a => a * radix + d | None => d end))
      | None => acc
      end
  | EmptyString => acc
  end.

(** [parseInt(s)] with no radix argument: skip leading white space,
    read an optional sign, an optional [0x]/[0X] prefix, and the
    longest run of digits; [NaN] when that run is empty.  The digits
    are read as the integer they denote; the code has the nearest
    double, the same number below 2^53. *)
Definition parseInt_unsigned (s : string) : option Z :=
  match s with
  | String "0" (String "x" s') => digits_prefix hex_value 16 s' None
  | String "0" (String "X" s') => digits_prefix hex_value 16 s' None
  | _ => digits_prefix dec_value 10 s None
  end.

Definition parseInt (s : string) : number :=
  let s := trimStart s in
  let '(sign, s) :=
    match s with
    | String "-" s' => (-1, s')
    | String "+" s' => (1, s')
    | _ => (1, s)
    end in
  match parseInt_unsigned s with
  | Some n => Num (sign * n)
  | None => NaN
  end.

(** [parseInt(x)] where [x] may be [undefined]. *)
Definition parseInt_opt (o : option string) : number :=
  match o with Some s => parseInt s | None => NaN end.

End JS.

(** Whether a nullable value or an optional property is there. *)
Definition present {A : Type} (o : option A) : bool :=
  match o with Some _ => true | None => false end.

(** What a call can do besides returning: throw the rate-limit error
    or throw anything else. *)
Inductive Outcome (A : Type) : Type :=
| Ret (a : A)
| ThrowRateLimit
| ThrowOther.
Arguments Ret {A} a.
Arguments ThrowRateLimit {A}.
Arguments ThrowOther {A}.

(* ================================================================== *)
(** ** The provider-normalized result ([GoogleBookResult]) *)
(* ================================================================== *)

Record GoogleBookResult : Type := mkResult {
  r_id : string;
  r_title : string;
  r_authors : list string;
  r_categories : list string;
  r_publishedDate : string;
  r_pageCount : Z;
  r_thumbnail : option string;
  r_description : option string
}.

(* ================================================================== *)
(** ** openbd.ts: ISBN-10 to ISBN-13 *)
(* ================================================================== *)

Module OpenBD.

(** *** ISBN-10 to ISBN-13 *)

(** The loop of [isbn10to13]:
    [for (i = 0; i < 12; i++) sum += parseInt(base[i]) * (i % 2 === 0 ? 1 : 3)]. *)
Definition weight (i : nat) : Z := if Nat.even i then 1 else 3.

Definition checksum_step (base : string) (sum : JS.number) (i : nat) : JS.number :=
  JS.add sum (JS.mul (JS.parseInt_opt (JS.at_index base i)) (JS.Num (weight i))).

Definition checksum_sum (base : string) : JS.number :=
  fold_left (checksum_step base) (seq 0 12) (JS.Num 0).

Definition isbn10to13 (isbn10 : string) : string :=
  let base := "978" ++ JS.slice 0 9 isbn10 in
  let sum := checksum_sum base in
  let check := JS.rem (JS.sub (JS.Num 10) (JS.rem sum (JS.Num 10))) (JS.Num 10) in
  base ++ JS.toString check.

(** *** The check digit as the standard defines it *)

(** The digit at position [i] of a string of digits. *)
Definition digit_at (s : string) (i : nat) : Z :=
  match String.get i s with
  | Some c => JS.digit_value c
  | None => 0
  end.

(** The weighted digit sum of the first [n] characters: weight 1 at
    even positions (counted from 0), weight 3 at odd positions. *)
Fixpoint weighted_sum (s : string) (n : nat) : Z :=
  match n with
  | O => 0
  | S k => weighted_sum s k + weight k * digit_at s k
  end.

Definition all_digits (s : string) : bool :=
  forallb JS.is_digit (list_ascii_of_string s).

(** The character of the digit [d]. *)
Definition digit_char (d : Z) : ascii := ascii_of_nat (48 + Z.to_nat d).

(** The ISBN-13 checksum identity. *)
Definition isbn13_checksum (s : string) : Prop :=
  String.length s = 13%nat /\ all_digits s = true
  /\ weighted_sum s 13 mod 10 = 0.

End OpenBD.

(* ================================================================== *)
(** ** google-books.ts: genre classification *)
(* ================================================================== *)

(** The own property [key] of an object literal used as a dictionary. *)
Fixpoint table_get (table : list (string * string)) (key : string) : option string :=
  match table with
  | [] => None
  | (k, v) :: rest => if String.eqb k key then Some v else table_get rest key
  end.

(** [s.includes(sub)] *)
Fixpoint includes (s sub : string) : bool :=
  String.prefix sub s ||
  match s with
  | String _ s' => includes s' sub
  | EmptyString => false
  end.

Module Genre.

(** The table, in declaration order ([Object.entries] yields string
    keys in insertion order). *)
Definition CATEGORY_MAP : list (string * string) :=
  [ ("Fiction", "文学・評論");
    ("Literary Fiction", "文学・評論");
    ("Literature", "文学・評論");
    ("Literary Criticism", "文学・評論");
    ("Poetry", "文学・評論");
    ("Drama", "文学・評論");
    ("Philosophy", "人文・思想");
    ("Psychology", "人文・思想");
    ("Religion", "人文・思想");
    ("Self-Help", "人文・思想");
    ("Body, Mind & Spirit", "人文・思想");
    ("Social Science", "社会・政治・法律");
    ("Political Science", "社会・政治・法律");
    ("Law", "社会・政治・法律");
    ("True Crime", "社会・政治・法律");
    ("Nonfiction", "ノンフィクション");
    ("Biography & Autobiography", "ノンフィクション");
    ("History", "歴史・地理");
    ("Travel", "旅行ガイド・マップ");
    ("Business & Economics", "ビジネス・経済");
    ("Business", "ビジネス・経済");
    ("Economics", "ビジネス・経済");
    ("Science", "科学・テクノロジー");
    ("Technology & Engineering", "科学・テクノロジー");
    ("Mathematics", "科学・テクノロジー");
    ("Nature", "科学・テクノロジー");
    ("Medical", "医学・薬学・看護学・歯科学");
    ("Health & Fitness", "暮らし・健康・子育て");
    ("Computers", "コンピュータ・IT");
    ("Art", "アート・建築・デザイン");
    ("Architecture", "アート・建築・デザイン");
    ("Design", "アート・建築・デザイン");
    ("Photography", "アート・建築・デザイン");
    ("Music", "楽譜・スコア・音楽書");
    ("Performing Arts", "エンターテイメント");
    ("Crafts & Hobbies", "趣味・実用");
    ("Cooking", "趣味・実用");
    ("Gardening", "趣味・実用");
    ("Games & Activities", "趣味・実用");
    ("Humor", "趣味・実用");
    ("Pets", "趣味・実用");
    ("Sports & Recreation", "スポーツ・アウトドア");
    ("Education", "教育・学参・受験");
    ("Study Aids", "資格・検定・就職");
    ("Language Arts & Disciplines", "語学・辞事典・年鑑");
    ("Foreign Language Study", "英語学習");
    ("Juvenile Fiction", "絵本・児童書");
    ("Juvenile Nonfiction", "絵本・児童書");
    ("Comics & Graphic Novels", "コミック");
    ("Young Adult Fiction", "ライトノベル");
    ("Young Adult Nonfiction", "ライトノベル");
    ("Family & Relationships", "暮らし・健康・子育て");
    ("House & Home", "暮らし・健康・子育て");
    ("Reference", "語学・辞事典・年鑑");
    ("Antiques & Collectibles", "古書・希少本") ].

(** The properties that every object literal inherits from
    [Object.prototype].  Each of them is a function, [__proto__] is the
    prototype object: all of them truthy, none of them a string. *)
Definition PROTOTYPE_NAMES : list string :=
  [ "constructor"; "hasOwnProperty"; "isPrototypeOf"; "propertyIsEnumerable";
    "toLocaleString"; "toString"; "valueOf"; "__proto__";
    "__defineGetter__"; "__defineSetter__"; "__lookupGetter__";
    "__lookupSetter__" ].

Definition inherits (key : string) : bool :=
  existsb (String.eqb key) PROTOTYPE_NAMES.

(** A value that the code takes for a genre: a text, or what the
    lookup found under an inherited name. *)
Inductive Mapped : Type :=
| Text (s : string)
| Inherited (name : string).

(** [table[key]]: the own property, else the inherited one, else
    [undefined]. *)
Definition object_get (table : list (string * string)) (key : string)
  : option Mapped :=
  match table_get table key with
  | Some v => Some (Text v)
  | None => if inherits key then Some (Inherited key) else None
  end.

(** What is left of a genre in a stored record.  [JSON.stringify]
    writes a text as it is and leaves a property whose value is a
    function out: the record is then read back without [genre], which
    the code treats like the empty text ([!book.genre],
    [book.genre && ...]).  The prototype object, found under
    [__proto__], is written as [{}]: such a record is no [Book] any
    more, and a later [getBooks] fails on it with a [TypeError], which
    [StoredBook] does not represent; the record is given no genre here.
    What is proved of a run whose patches carry that object holds of
    this reading only. *)
Definition stored (m : Mapped) : string :=
  match m with
  | Text s => s
  | Inherited _ => EmptyString
  end.

Section Classifier.

(** [String.prototype.toLowerCase] *)
Variable toLowerCase : string -> string.

(** The inner loop:
    [for (const [key, value] of Object.entries(CATEGORY_MAP))
       if (cat.toLowerCase().includes(key.toLowerCase())) return value;] *)
Fixpoint partial_match (entries : list (string * string)) (cat : string)
  : option string :=
  match entries with
  | [] => None
  | (key, value) :: rest =>
      if includes (toLowerCase cat) (toLowerCase key) then Some value
      else partial_match rest cat
  end.

(** [if (CATEGORY_MAP[cat]) return CATEGORY_MAP[cat];] *)
Definition exact_match (cat : string) : option Mapped :=
  match object_get CATEGORY_MAP cat with
  | Some (Text v) => if JS.nonempty v then Some (Text v) else None
  | Some (Inherited name) => Some (Inherited name)
  | None => None
  end.

(** The outer loop; [Some g] is [return g] from inside it. *)
Fixpoint category_loop (categories : list string) : option Mapped :=
  match categories with
  | [] => None
  | cat :: rest =>
      match exact_match cat with
      | Some mapped => Some mapped
      | None =>
          match partial_match CATEGORY_MAP cat with
          | Some value => Some (Text value)
          | None => category_loop rest
          end
      end
  end.

Definition mapCategoryToGenre (categories : list string) : Mapped :=
  match category_loop categories with
  | Some genre => genre
  | None => Text (match categories with c :: _ => c | [] => EmptyString end)
  end.

(** *** The classification as the specification words it *)

(** Exact, case-sensitive match of a label against the table. *)
Definition spec_exact_label (cat : string) : option string :=
  snd <$> List.find (fun kv => String.eqb (fst kv) cat) CATEGORY_MAP.

(** Case-insensitive substring match against the table's keys,
    tested in declaration order, first hit wins. *)
Definition spec_substring_label (cat : string) : option string :=
  snd <$> List.find
            (fun kv => includes (toLowerCase cat) (toLowerCase (fst kv)))
            CATEGORY_MAP.

(** One category: exact match first, else the substring match. *)
Definition spec_label_of (cat : string) : option string :=
  match spec_exact_label cat with
  | Some l => Some l
  | None => spec_substring_label cat
  end.

(** The first category that matches determines the label; with no
    match at all, the first input category, or the empty string. *)
Definition spec_classify (categories : list string) : string :=
  match omap spec_label_of categories with
  | l :: _ => l
  | [] => List.hd EmptyString categories
  end.

End Classifier.

(** ASCII lower-casing, the instance used in examples. *)
Definition ascii_lower (c : ascii) : ascii :=
  let n := nat_of_ascii c in
  if (65 <=? n)%nat && (n <=? 90)%nat then ascii_of_nat (n + 32) else c.

Fixpoint ascii_toLowerCase (s : string) : string :=
  match s with
  | String c s' => String (ascii_lower c) (ascii_toLowerCase s')
  | EmptyString => EmptyString
  end.

End Genre.

(* ================================================================== *)
(** ** The network *)
(* ================================================================== *)

(** What [await fetch(url)] followed by [res.json()] can give: the
    promise rejects (network error), or there is a response with a
    status; [json] is [None] when [res.json()] rejects because the body
    is not JSON.  [res.ok] is the standard 200..299 test. *)
Inductive Fetched (B : Type) : Type :=
| NetworkError
| Response (status : Z) (json : option B).
Arguments NetworkError {B}.
Arguments Response {B} status json.

Definition ok (status : Z) : bool := (200 <=? status) && (status <=? 299).

(* ================================================================== *)
(** ** openbd.ts: the response and the lookup *)
(* ================================================================== *)

Module OpenBDApi.
Import OpenBD.

Record OpenBDSummary : Type := {
  isbn : option string;
  title : option string;
  author : option string;
  publisher : option string;
  pubdate : option string;
  cover : option string;
  volume : option string;
  series : option string
}.

Record OpenBDExtent : Type := {
  ExtentType : string;
  ExtentValue : string;
  ExtentUnit : string
}.

Record OpenBDTextContent : Type := {
  TextType : string;
  Text : option string
}.

Record OpenBDSubject : Type := {
  SubjectSchemeIdentifier : string;
  SubjectCode : string;
  SubjectHeadingText : option string
}.

Record DescriptiveDetail : Type := {
  Extent : option (list OpenBDExtent);
  Subject : option (list OpenBDSubject)
}.

Record CollateralDetail : Type := {
  TextContent : option (list OpenBDTextContent)
}.

Record Onix : Type := {
  descriptiveDetail : option DescriptiveDetail;
  collateralDetail : option CollateralDetail
}.

(** One element of the response array.  [summary] is [None] for a
    partial element that has no summary block; reading [summary.title]
    of such an element is a [TypeError]. *)
Record OpenBDResponse : Type := {
  summary : option OpenBDSummary;
  onix : option Onix;
  genrecodetrc : option Z
}.

(** The decoded body: [null], or an array whose elements may be [null]. *)
Definition Body : Type := option (list (option OpenBDResponse)).

Definition CCODE_GENRE_MAP : list (string * string) :=
  [ ("10", "人文・思想"); ("11", "人文・思想"); ("12", "人文・思想");
    ("14", "人文・思想"); ("15", "人文・思想"); ("16", "人文・思想");
    ("20", "歴史・地理"); ("21", "歴史・地理"); ("22", "歴史・地理");
    ("23", "歴史・地理"); ("26", "旅行ガイド・マップ");
    ("30", "社会・政治・法律"); ("31", "社会・政治・法律");
    ("32", "社会・政治・法律"); ("36", "社会・政治・法律");
    ("33", "ビジネス・経済"); ("34", "ビジネス・経済");
    ("37", "教育・学参・受験");
    ("40", "科学・テクノロジー"); ("41", "科学・テクノロジー");
    ("42", "科学・テクノロジー"); ("43", "科学・テクノロジー");
    ("44", "科学・テクノロジー"); ("45", "科学・テクノロジー");
    ("47", "医学・薬学・看護学・歯科学"); ("49", "医学・薬学・看護学・歯科学");
    ("50", "科学・テクノロジー"); ("51", "科学・テクノロジー");
    ("52", "科学・テクノロジー"); ("53", "科学・テクノロジー");
    ("54", "科学・テクノロジー");
    ("55", "コンピュータ・IT");
    ("58", "暮らし・健康・子育て"); ("59", "暮らし・健康・子育て");
    ("60", "ビジネス・経済"); ("61", "ビジネス・経済");
    ("63", "ビジネス・経済");
    ("70", "アート・建築・デザイン"); ("71", "アート・建築・デザイン");
    ("72", "アート・建築・デザイン"); ("73", "アート・建築・デザイン");
    ("74", "アート・建築・デザイン"); ("75", "アート・建築・デザイン");
    ("76", "楽譜・スコア・音楽書");
    ("77", "エンターテイメント");
    ("78", "スポーツ・アウトドア");
    ("79", "コミック");
    ("80", "語学・辞事典・年鑑"); ("81", "語学・辞事典・年鑑");
    ("82", "英語学習"); ("83", "英語学習"); ("84", "英語学習");
    ("85", "英語学習"); ("86", "英語学習"); ("87", "英語学習");
    ("88", "英語学習"); ("89", "英語学習");
    ("90", "文学・評論"); ("91", "文学・評論"); ("92", "文学・評論");
    ("93", "文学・評論"); ("95", "文学・評論"); ("97", "文学・評論");
    ("98", "絵本・児童書") ].

Fixpoint genreFromCCode (subjects : list OpenBDSubject) : string :=
  match subjects with
  | [] => EmptyString
  | sub :: rest =>
      if String.eqb (SubjectSchemeIdentifier sub) "78"
         && JS.nonempty (SubjectCode sub)
         && (4 <=? String.length (SubjectCode sub))%nat
      then
        match table_get CCODE_GENRE_MAP (JS.slice_last 2 (SubjectCode sub)) with
        | Some g => if JS.nonempty g then g else genreFromCCode rest
        | None => genreFromCCode rest
        end
      else genreFromCCode rest
  end.

(** [isbn.replace(/[-\s]/g, ...)]: hyphens and white space are removed. *)
Fixpoint cleanIsbn (s : string) : string :=
  match s with
  | String c s' =>
      if Ascii.eqb c "-" || JS.is_space c then cleanIsbn s'
      else String c (cleanIsbn s')
  | EmptyString => EmptyString
  end.

(** The 13-digit key of the request. *)
Definition isbn13_of (isbn : string) : string :=
  let clean := cleanIsbn isbn in
  if (String.length clean =? 10)%nat then isbn10to13 clean else clean.

(** [text.replace(/<[^>]*>/g, ...)]: tags are removed.  A [<] opens a tag when a [>]
    follows somewhere; the tag ends at the first [>]. *)
Fixpoint has_gt (s : string) : bool :=
  match s with
  | String c s' => Ascii.eqb c ">" || has_gt s'
  | EmptyString => false
  end.

Fixpoint strip (inside : bool) (s : string) : string :=
  match s with
  | String c s' =>
      if inside then strip (negb (Ascii.eqb c ">")) s'
      else if Ascii.eqb c "<" && has_gt s' then strip true s'
      else String c (strip false s')
  | EmptyString => EmptyString
  end.

Definition stripTags (s : string) : string := strip false s.

(** ["YYYYMMDD"] to ["YYYY-MM-DD"], ["YYYYMM"] to ["YYYY-MM"]. *)
Definition formatPubdate (pubdate : option string) : string :=
  match pubdate with
  | Some pd =>
      if JS.nonempty pd then
        if (String.length pd =? 8)%nat then
          JS.slice 0 4 pd ++ "-" ++ JS.slice 4 6 pd ++ "-" ++ JS.slice 6 8 pd
        else if (String.length pd =? 6)%nat then
          JS.slice 0 4 pd ++ "-" ++ JS.slice 4 6 pd
        else pd
      else EmptyString
  | None => EmptyString
  end.

(** [n || 0] for the page count. *)
Definition or_zero (n : JS.number) : Z :=
  match JS.or n (JS.Num 0) with JS.Num z => z | JS.NaN => 0 end.

(** [book.onix?.DescriptiveDetail?.Extent ?? []] and its siblings. *)
Definition extentsOf (book : OpenBDResponse) : list OpenBDExtent :=
  match onix book with
  | Some o =>
      match descriptiveDetail o with
      | Some d => match Extent d with Some l => l | None => [] end
      | None => []
      end
  | None => []
  end.

Definition subjectsOf (book : OpenBDResponse) : list OpenBDSubject :=
  match onix book with
  | Some o =>
      match descriptiveDetail o with
      | Some d => match Subject d with Some l => l | None => [] end
      | None => []
      end
  | None => []
  end.

Definition textsOf (book : OpenBDResponse) : list OpenBDTextContent :=
  match onix book with
  | Some o =>
      match collateralDetail o with
      | Some c => match TextContent c with Some l => l | None => [] end
      | None => []
      end
  | None => []
  end.

(** The part of [searchByIsbnOpenBD] after [const book = data[0]]. *)
Definition resultOfBook (isbn13 : string) (book : OpenBDResponse)
  : Outcome (option GoogleBookResult) :=
  match summary book return Outcome (option GoogleBookResult) with
  | None => ThrowOther
  | Some summary =>
      if negb (JS.truthy_opt (title summary)) then Ret None
      else
        let extents := extentsOf book in
        let pageExtent :=
          List.find (fun e => String.eqb (ExtentType e) "11") extents in
        let pageCount :=
          match pageExtent with
          | Some e => or_zero (JS.parseInt (ExtentValue e))
          | None => 0
          end in
        let texts := textsOf book in
        let descText :=
          match List.find (fun t => String.eqb (TextType t) "03") texts with
          | Some t => Some t
          | None => List.find (fun t => String.eqb (TextType t) "02") texts
          end in
        let description :=
          match descText with
          | Some t => match Text t with Some x => Some (stripTags x) | None => None end
          | None => None
          end in
        let publishedDate := formatPubdate (pubdate summary) in
        let subjects := subjectsOf book in
        let genre := genreFromCCode subjects in
        let categories := if JS.nonempty genre then [genre] else [] in
        Ret (Some
          {| r_id := "openbd-" ++ isbn13;
             r_title := default EmptyString (title summary);
             r_authors :=
               if JS.truthy_opt (author summary)
               then [default EmptyString (author summary)] else [];
             r_categories := categories;
             r_publishedDate := publishedDate;
             r_pageCount := pageCount;
             r_thumbnail :=
               if JS.truthy_opt (cover summary) then cover summary else None;
             r_description := description |})
  end.

(** [searchByIsbnOpenBD(isbn)], given the answer to its one request. *)
Definition searchByIsbnOpenBD (fetch : string -> Fetched Body) (isbn : string)
  : Outcome (option GoogleBookResult) :=
  let isbn13 := isbn13_of isbn in
  match fetch isbn13 with
  | NetworkError => ThrowOther
  | Response status json =>
      if negb (ok status) then Ret None
      else
        match json with
        | None => ThrowOther
        | Some None => Ret None
        | Some (Some []) => Ret None
        | Some (Some (None :: _)) => Ret None
        | Some (Some (Some book :: _)) => resultOfBook isbn13 book
        end
  end.

(** *** The responses that carry no usable record *)

(** A partial element: valid JSON, but without its summary block. *)
Definition partialElement : OpenBDResponse :=
  {| summary := None; onix := None; genrecodetrc := None |}.

(** A non-success status, a [null] or empty array, a [null] first
    element, or a first element whose summary has no title. *)
Definition lacksRecord (res : Fetched Body) : bool :=
  match res with
  | NetworkError => false
  | Response status json =>
      negb (ok status)
      || match json with
         | None => false
         | Some None => true
         | Some (Some []) => true
         | Some (Some (None :: _)) => true
         | Some (Some (Some book :: _)) =>
             match summary book with
             | Some s => negb (JS.truthy_opt (title s))
             | None => false
             end
         end
  end.

(** No response at all; or, with a success status, a body that is not
    JSON or a first element without its summary block. *)
Definition broken (res : Fetched Body) : bool :=
  match res with
  | NetworkError => true
  | Response status json =>
      ok status
      && match json with
         | None => true
         | Some (Some (Some book :: _)) => negb (present (summary book))
         | _ => false
         end
  end.

End OpenBDApi.

(* ================================================================== *)
(** ** google-books.ts: the general-search adapter and the merge *)
(* ================================================================== *)

Module GoogleBooks.

Record ImageLinks : Type := {
  smallThumbnail : option string;
  thumbnail : option string
}.

Record VolumeInfo : Type := {
  title : option string;
  authors : option (list string);
  categories : option (list string);
  publishedDate : option string;
  pageCount : option Z;
  description : option string;
  imageLinks : option ImageLinks
}.

Record VolumeItem : Type := {
  id : string;
  volumeInfo : VolumeInfo
}.

(** The decoded body of a volumes response: [data.items] may be absent. *)
Record Body : Type := { items : option (list VolumeItem) }.

(** [a ?? b] *)
Definition nullish {A : Type} (a : option A) (b : A) : A :=
  match a with Some x => x | None => b end.

Definition mapVolumeToResult (item : VolumeItem) : GoogleBookResult :=
  let info := volumeInfo item in
  {| r_id := id item;
     r_title := nullish (title info) EmptyString;
     r_authors := nullish (authors info) [];
     r_categories := nullish (categories info) [];
     r_publishedDate := nullish (publishedDate info) EmptyString;
     r_pageCount := nullish (pageCount info) 0;
     r_thumbnail :=
       match imageLinks info with
       | Some links =>
           match thumbnail links with
           | Some t => Some t
           | None => smallThumbnail links
           end
       | None => None
       end;
     r_description := description info |}.

(** [searchBooks(query)], given the answer to its request; no request
    is made for a blank query. *)
Definition searchBooks (fetch : string -> Fetched Body) (query : string)
  : Outcome (list GoogleBookResult) :=
  if JS.blank query then Ret []
  else
    match fetch query with
    | NetworkError => ThrowOther
    | Response status json =>
        if status =? 429 then ThrowRateLimit
        else if negb (ok status) then Ret []
        else
          match json with
          | None => ThrowOther
          | Some data =>
              match items data with
              | None => Ret []
              | Some l => Ret (map mapVolumeToResult l)
              end
          end
    end.

(** What [googlePromise] settles to in [searchByIsbn]:
    a result, [null], or the marker ["RATE_LIMITED"]. *)
Inductive GoogleRaw : Type :=
| Found (r : GoogleBookResult)
| Null
| RATE_LIMITED.

(** The [.then] callback of [googlePromise]. *)
Definition googleThen (res : Fetched Body) : Outcome (option GoogleBookResult) :=
  match res with
  | NetworkError => ThrowOther
  | Response status json =>
      if status =? 429 then ThrowRateLimit
      else if negb (ok status) then Ret None
      else
        match json with
        | None => ThrowOther
        | Some data =>
            match items data with
            | None => Ret None
            | Some [] => Ret None
            | Some (item :: _) => Ret (Some (mapVolumeToResult item))
            end
        end
  end.

(** The [.catch] handler of [googlePromise]. *)
Definition googleCatch (o : Outcome (option GoogleBookResult)) : GoogleRaw :=
  match o with
  | Ret (Some r) => Found r
  | Ret None => Null
  | ThrowRateLimit => RATE_LIMITED
  | ThrowOther => Null
  end.

Definition googlePromise (res : Fetched Body) : GoogleRaw :=
  googleCatch (googleThen res).

(** [openBDPromise]: any failure of the registry lookup becomes [null]. *)
Definition openBDPromise (o : Outcome (option GoogleBookResult))
  : option GoogleBookResult :=
  match o with
  | Ret r => r
  | ThrowRateLimit => None
  | ThrowOther => None
  end.

(** Assignments to one property of the registry result. *)
Definition set_thumbnail (o : GoogleBookResult) (v : option string) :=
  {| r_id := r_id o; r_title := r_title o; r_authors := r_authors o;
     r_categories := r_categories o; r_publishedDate := r_publishedDate o;
     r_pageCount := r_pageCount o; r_thumbnail := v;
     r_description := r_description o |}.

Definition set_description (o : GoogleBookResult) (v : option string) :=
  {| r_id := r_id o; r_title := r_title o; r_authors := r_authors o;
     r_categories := r_categories o; r_publishedDate := r_publishedDate o;
     r_pageCount := r_pageCount o; r_thumbnail := r_thumbnail o;
     r_description := v |}.

Definition set_pageCount (o : GoogleBookResult) (v : Z) :=
  {| r_id := r_id o; r_title := r_title o; r_authors := r_authors o;
     r_categories := r_categories o; r_publishedDate := r_publishedDate o;
     r_pageCount := v; r_thumbnail := r_thumbnail o;
     r_description := r_description o |}.

Definition set_publishedDate (o : GoogleBookResult) (v : string) :=
  {| r_id := r_id o; r_title := r_title o; r_authors := r_authors o;
     r_categories := r_categories o; r_publishedDate := v;
     r_pageCount := r_pageCount o; r_thumbnail := r_thumbnail o;
     r_description := r_description o |}.

Definition set_categories (o : GoogleBookResult) (v : list string) :=
  {| r_id := r_id o; r_title := r_title o; r_authors := r_authors o;
     r_categories := v; r_publishedDate := r_publishedDate o;
     r_pageCount := r_pageCount o; r_thumbnail := r_thumbnail o;
     r_description := r_description o |}.

(** The five conditional assignments of the merge, on the registry
    result [o] with the search result [g] at hand. *)
Definition supplement (o g : GoogleBookResult) : GoogleBookResult :=
  let o :=
    if negb (JS.truthy_opt (r_thumbnail o)) && JS.truthy_opt (r_thumbnail g)
    then set_thumbnail o (r_thumbnail g) else o in
  let o :=
    if negb (JS.truthy_opt (r_description o)) && JS.truthy_opt (r_description g)
    then set_description o (r_description g) else o in
  let o :=
    if (r_pageCount o =? 0) && negb (r_pageCount g =? 0)
    then set_pageCount o (r_pageCount g) else o in
  let o :=
    if (negb (JS.nonempty (r_publishedDate o))
        || (JS.length (r_publishedDate o) <=? 4)%nat)
       && JS.nonempty (r_publishedDate g)
    then set_publishedDate o (r_publishedDate g) else o in
  if (List.length (r_categories o) =? 0)%nat
     && (0 <? List.length (r_categories g))%nat
  then set_categories o (r_categories g) else o.

(** One field of the merged record [merged], given whether the base
    lacks the field ([missing]) and whether the other record has it
    ([available]): the base value stays unless it is missing and the
    other is available, and then the other value is taken. *)
Definition fills {A : Type} (missing available : bool) (base other merged : A)
  : Prop :=
  (missing = false -> merged = base)
  /\ (available = false -> merged = base)
  /\ (missing = true -> available = true -> merged = other).

(** [searchByIsbn] after [await Promise.all([...])]. *)
Definition settle (openBDResult : option GoogleBookResult) (googleRaw : GoogleRaw)
  : Outcome (option GoogleBookResult) :=
  let googleResult :=
    match googleRaw with Found r => Some r | Null => None | RATE_LIMITED => None end in
  match openBDResult with
  | Some o =>
      match googleResult with
      | Some g => Ret (Some (supplement o g))
      | None => Ret (Some o)
      end
  | None =>
      match googleRaw with
      | RATE_LIMITED => ThrowRateLimit
      | _ => Ret googleResult
      end
  end.

(** [searchByIsbn(isbn)], given the answers to its two requests. *)
Definition searchByIsbn
           (fetchOpenBD : string -> Fetched OpenBDApi.Body)
           (fetchVolumes : string -> Fetched Body)
           (isbn : string) : Outcome (option GoogleBookResult) :=
  settle (openBDPromise (OpenBDApi.searchByIsbnOpenBD fetchOpenBD isbn))
         (googlePromise (fetchVolumes isbn)).

End GoogleBooks.

(* ================================================================== *)
(** ** amazon.ts: the identifier in a retailer URL *)
(* ================================================================== *)

Module Amazon.

Definition is_upper (c : ascii) : bool :=
  let n := nat_of_ascii c in (65 <=? n)%nat && (n <=? 90)%nat.

Definition is_lower (c : ascii) : bool :=
  let n := nat_of_ascii c in (97 <=? n)%nat && (n <=? 122)%nat.

(** [[A-Z0-9]] under the [i] flag. *)
Definition is_alnum (c : ascii) : bool :=
  JS.is_digit c || is_upper c || is_lower c.

Definition upper (c : ascii) : ascii :=
  if is_lower c then ascii_of_nat (nat_of_ascii c - 32) else c.

(** Match the literal [p] at the start of [s], ignoring case; the
    rest of [s] on success. *)
Fixpoint literal_ci (p s : string) : option string :=
  match p with
  | EmptyString => Some s
  | String a p' =>
      match s with
      | String b s' =>
          if Ascii.eqb (upper a) (upper b) then literal_ci p' s' else None
      | EmptyString => None
      end
  end.

Fixpoint all_alnum (s : string) : bool :=
  match s with
  | String c s' => is_alnum c && all_alnum s'
  | EmptyString => true
  end.

(** [([A-Z0-9]{10})] at the start of [s]. *)
Definition capture10 (s : string) : option string :=
  let g := String.substring 0 10 s in
  if (String.length g =? 10)%nat && all_alnum g then Some g else None.

(** The alternatives of the pattern, tried in order at one position. *)
Fixpoint alternatives (alts : list string) (s : string) : option string :=
  match alts with
  | [] => None
  | p :: rest =>
      match literal_ci p s with
      | Some s' =>
          match capture10 s' with
          | Some g => Some g
          | None => alternatives rest s
          end
      | None => alternatives rest s
      end
  end.

(** [url.match(/(?:\/dp\/|\/gp\/product\/|\/product\/|\/ASIN\/)([A-Z0-9]{10})/i)]:
    the capture of the leftmost match, or [null]. *)
Fixpoint extractAsin (url : string) : option string :=
  match alternatives ["/dp/"; "/gp/product/"; "/product/"; "/ASIN/"] url with
  | Some g => Some g
  | None =>
      match url with
      | String _ url' => extractAsin url'
      | EmptyString => None
      end
  end.

(** [/^\d/.test(asin)] *)
Definition isLikelyIsbn (asin : string) : bool :=
  match asin with
  | String c _ => JS.is_digit c
  | EmptyString => false
  end.

End Amazon.

(* ================================================================== *)
(** ** types/book.ts and storage.ts: the record store *)
(* ================================================================== *)

Inductive ReadingStatus : Type := tsundoku | reading | finished | wishlist.

Definition GENRE_OPTIONS : list string :=
  [ "文学・評論"; "人文・思想"; "社会・政治・法律"; "ノンフィクション";
    "歴史・地理"; "ビジネス・経済"; "投資・金融・会社経営";
    "科学・テクノロジー"; "医学・薬学・看護学・歯科学"; "コンピュータ・IT";
    "アート・建築・デザイン"; "趣味・実用"; "スポーツ・アウトドア";
    "資格・検定・就職"; "暮らし・健康・子育て"; "旅行ガイド・マップ";
    "語学・辞事典・年鑑"; "英語学習"; "教育・学参・受験"; "絵本・児童書";
    "コミック"; "ライトノベル"; "ボーイズラブ"; "タレント写真集";
    "ゲーム攻略本"; "エンターテイメント"; "新書・文庫・ノベルス"; "雑誌";
    "楽譜・スコア・音楽書"; "カレンダー・手帳"; "ポスター"; "古本";
    "古書・希少本" ].

Record Book : Type := mkBook {
  id : string;
  title : string;
  author : string;
  genre : string;
  publishedDate : string;
  status : ReadingStatus;
  pageCount : Z;
  rating : Z;
  memo : string;
  description : string;
  thumbnail : option string;
  purchaseUrl : string;
  finishedDate : option string;
  createdAt : string;
  updatedAt : string
}.

(** [Partial<Book>]: every key may be present or not. *)
Record BookPatch : Type := mkPatch {
  p_id : option string;
  p_title : option string;
  p_author : option string;
  p_genre : option string;
  p_publishedDate : option string;
  p_status : option ReadingStatus;
  p_pageCount : option Z;
  p_rating : option Z;
  p_memo : option string;
  p_description : option string;
  p_thumbnail : option (option string);
  p_purchaseUrl : option string;
  p_finishedDate : option (option string);
  p_createdAt : option string;
  p_updatedAt : option string
}.

(** [{}] *)
Definition emptyPatch : BookPatch :=
  mkPatch None None None None None None None None None None None None None None None.

(** [Object.keys(updates).length > 0] *)
Definition hasKeys (u : BookPatch) : bool :=
  present (p_id u) || present (p_title u) || present (p_author u)
  || present (p_genre u) || present (p_publishedDate u)
  || present (p_status u) || present (p_pageCount u)
  || present (p_rating u) || present (p_memo u)
  || present (p_description u) || present (p_thumbnail u)
  || present (p_purchaseUrl u) || present (p_finishedDate u)
  || present (p_createdAt u) || present (p_updatedAt u).

(** [{...book, ...updates, updatedAt: stamp}] *)
Definition applyPatch (book : Book) (updates : BookPatch) (stamp : string) : Book :=
  {| id := default (id book) (p_id updates);
     title := default (title book) (p_title updates);
     author := default (author book) (p_author updates);
     genre := default (genre book) (p_genre updates);
     publishedDate := default (publishedDate book) (p_publishedDate updates);
     status := default (status book) (p_status updates);
     pageCount := default (pageCount book) (p_pageCount updates);
     rating := default (rating book) (p_rating updates);
     memo := default (memo book) (p_memo updates);
     description := default (description book) (p_description updates);
     thumbnail := default (thumbnail book) (p_thumbnail updates);
     purchaseUrl := default (purchaseUrl book) (p_purchaseUrl updates);
     finishedDate := default (finishedDate book) (p_finishedDate updates);
     createdAt := default (createdAt book) (p_createdAt updates);
     updatedAt := stamp |}.

Definition set_genre (book : Book) (g : string) : Book :=
  {| id := id book; title := title book; author := author book; genre := g;
     publishedDate := publishedDate book; status := status book;
     pageCount := pageCount book; rating := rating book; memo := memo book;
     description := description book; thumbnail := thumbnail book;
     purchaseUrl := purchaseUrl book; finishedDate := finishedDate book;
     createdAt := createdAt book; updatedAt := updatedAt book |}.

(** *** The records in storage *)

(** The status of a stored record: one of the interface, or the
    ["unread"] that an earlier version of the application wrote. *)
Inductive StoredStatus : Type :=
| Unread
| Status (s : ReadingStatus).

(** The keys [publishedDate] and [publishedYear] of a stored record: a
    date (a year that such a record may still carry is read by
    nothing); or no date and a year, null or a text; or neither.  A
    year kept as a number is not represented. *)
Inductive StoredDate : Type :=
| Date (d : string)
| YearOnly (y : option string)
| NoDate.

(** A record as [JSON.parse] returns it from storage.  What
    [getBooks] tests for [undefined] is optional here: a record written
    by an earlier version of the application may lack it. *)
Record StoredBook : Type := mkStored {
  s_id : string;
  s_title : string;
  s_author : string;
  s_genre : string;
  s_published : StoredDate;
  s_status : StoredStatus;
  s_pageCount : option Z;
  s_rating : Z;
  s_memo : string;
  s_description : option string;
  s_thumbnail : option (option string);
  s_purchaseUrl : option string;
  s_finishedDate : option string;
  s_createdAt : string;
  s_updatedAt : string
}.

(** What [JSON.stringify] writes for a [Book]. *)
Definition plain (b : Book) : StoredBook :=
  {| s_id := id b; s_title := title b; s_author := author b;
     s_genre := genre b; s_published := Date (publishedDate b);
     s_status := Status (status b); s_pageCount := Some (pageCount b);
     s_rating := rating b; s_memo := memo b;
     s_description := Some (description b);
     s_thumbnail := Some (thumbnail b);
     s_purchaseUrl := Some (purchaseUrl b);
     s_finishedDate := finishedDate b;
     s_createdAt := createdAt b; s_updatedAt := updatedAt b |}.

Coercion plain : Book >-> StoredBook.

(* ================================================================== *)
(** ** The platform and the state of a run *)
(* ================================================================== *)

(** The requests the pipeline sends, by endpoint and key. *)
Inductive Request : Type :=
| GetOpenBD (isbn13 : string)
| GetVolumesByIsbn (isbn : string)
| GetVolumes (query : string).

(** What a run does to the outside: requests, and calls of the
    store's patch operation. *)
Inductive Event : Type :=
| Requested (r : Request)
| UpdateBook (bookId : string) (updates : BookPatch).

(** What the browser and the network provide.  The answer to a request
    may depend on everything done so far; [elapsed] is the time an
    awaited lookup takes. *)
Record Platform : Type := {
  toLowerCase : string -> string;
  toISOString : Z -> string;
  fetchOpenBD : list Event -> string -> Fetched OpenBDApi.Body;
  fetchVolumesByIsbn : list Event -> string -> Fetched GoogleBooks.Body;
  fetchVolumes : list Event -> string -> Fetched GoogleBooks.Body;
  elapsed : list Event -> Z
}.

(** The text under [BACKFILL_KEY], as far as [backfillBookData] can tell
    texts apart: by truthiness and by [Number(text)].  The scheduler
    writes [String(Date.now())], an integer; texts that read as a
    fraction or an infinity are not represented. *)
Inductive StoredStamp : Type :=
| StampAbsent                       (* getItem gives null *)
| StampEmpty                        (* the empty text *)
| StampMillis (t : Z)               (* text reading as the integer t *)
| StampNotNumeric (raw : string).   (* non-empty text reading as NaN *)

(** The text under [NODATA_KEY], as far as [getNoDataSet] can tell texts
    apart: absent or empty, not JSON, or the JSON of a map. *)
Inductive StoredCache : Type :=
| CacheAbsent
| CacheNotJson (raw : string)
| CacheJson (m : gmap string Z).

(** [localStorage] (the three keys the scheduler touches; the value
    under the books key as [JSON.parse] returns it, [None] when there
    is no text or the empty one), the clock behind [Date.now()], and the
    trace of what the run has done. *)
Record State : Type := mkState {
  st_books : option (list StoredBook);
  st_lastRun : StoredStamp;
  st_noData : StoredCache;
  st_now : Z;
  st_trace : list Event
}.

Definition set_books (st : State) (v : option (list StoredBook)) : State :=
  mkState v (st_lastRun st) (st_noData st) (st_now st) (st_trace st).

Definition record (st : State) (evs : list Event) : State :=
  mkState (st_books st) (st_lastRun st) (st_noData st) (st_now st)
          (st_trace st ++ evs).

Definition advance (st : State) (dt : Z) : State :=
  mkState (st_books st) (st_lastRun st) (st_noData st) (st_now st + dt)
          (st_trace st).

Module Storage.

Definition inb (x : string) (l : list string) : bool :=
  existsb (String.eqb x) l.

(** [localStorage.setItem(STORAGE_KEY, JSON.stringify(books))] *)
Definition saveBooks (books : list Book) (st : State) : State :=
  set_books st (Some (plain <$> books)).

(** The record brought to the shape of the interface: what the loop
    of [getBooks] does before the genre migration.  The status
    ["unread"] becomes ["tsundoku"]; a year without a date becomes the
    date, the empty text when it is null; an absent date, link,
    description become the empty text, an absent cover null, an absent
    page count 0. *)
Definition current (raw : StoredBook) : Book :=
  {| id := s_id raw; title := s_title raw; author := s_author raw;
     genre := s_genre raw;
     publishedDate :=
       match s_published raw with
       | Date d => d
       | YearOnly y => default EmptyString y
       | NoDate => EmptyString
       end;
     status := match s_status raw with Unread => tsundoku | Status s => s end;
     pageCount := default 0 (s_pageCount raw);
     rating := s_rating raw; memo := s_memo raw;
     description := default EmptyString (s_description raw);
     thumbnail := default None (s_thumbnail raw);
     purchaseUrl := default EmptyString (s_purchaseUrl raw);
     finishedDate := s_finishedDate raw;
     createdAt := s_createdAt raw; updatedAt := s_updatedAt raw |}.

(** Whether that set [migrated]. *)
Definition outdated (raw : StoredBook) : bool :=
  match s_status raw with Unread => true | Status _ => false end
  || match s_published raw with Date _ => false | _ => true end
  || negb (present (s_purchaseUrl raw))
  || negb (present (s_thumbnail raw))
  || negb (present (s_description raw))
  || negb (present (s_pageCount raw)).

(** The genre migration, the last step of the loop. *)
Definition migrateGenre (P : Platform) (book : Book) : Book * bool :=
  if JS.nonempty (genre book) && negb (inb (genre book) GENRE_OPTIONS) then
    match Genre.mapCategoryToGenre (toLowerCase P) [genre book] with
    | Genre.Text mapped =>
        if inb mapped GENRE_OPTIONS then (set_genre book mapped, true)
        else (book, false)
    | Genre.Inherited _ => (book, false)
    end
  else (book, false).

(** The body of the loop of [getBooks] for one record. *)
Definition migrateBook (P : Platform) (raw : StoredBook) : Book * bool :=
  let '(book, migrated) := migrateGenre P (current raw) in
  (book, outdated raw || migrated).

Fixpoint migrate (P : Platform) (data : list StoredBook) : list Book * bool :=
  match data with
  | [] => ([], false)
  | raw :: rest =>
      let '(book', m1) := migrateBook P raw in
      let '(rest', m2) := migrate P rest in
      (book' :: rest', m1 || m2)
  end.

Definition getBooks (P : Platform) (st : State) : list Book * State :=
  match st_books st with
  | None => ([], st)
  | Some data =>
      let '(books, migrated) := migrate P data in
      (books, if migrated then saveBooks books st else st)
  end.

(** [books.findIndex((b) => b.id === id)] *)
Fixpoint findIndex (bookId : string) (books : list Book) : option nat :=
  match books with
  | [] => None
  | b :: rest =>
      if String.eqb (id b) bookId then Some 0%nat
      else S <$> findIndex bookId rest
  end.

Definition updateBook (P : Platform) (bookId : string) (updates : BookPatch)
           (st : State) : State :=
  let st := record st [UpdateBook bookId updates] in
  let '(books, st) := getBooks P st in
  match findIndex bookId books with
  | None => st
  | Some index =>
      saveBooks (alter (fun b => applyPatch b updates (toISOString P (st_now st)))
                       index books) st
  end.

End Storage.

(* ================================================================== *)
(** ** The page component: the backfill scheduler *)
(* ================================================================== *)

Module Scheduler.
Import Storage.

Definition ONE_DAY : Z := 24 * 60 * 60 * 1000.
Definition SEVEN_DAYS : Z := 7 * ONE_DAY.
Definition MAX_GOOGLE_PER_SESSION : nat := 30.

Definition getNoDataSet (st : State) : gmap string Z :=
  match st_noData st with
  | CacheJson m => m
  | CacheAbsent => ∅
  | CacheNotJson _ => ∅
  end.

(** [noData[bookId] = Date.now()] *)
Definition markNoData (now : Z) (noData : gmap string Z) (bookId : string)
  : gmap string Z :=
  <[bookId := now]> noData.

(** [ts != null && Date.now() - ts < SEVEN_DAYS] *)
Definition shouldSkip (now : Z) (noData : gmap string Z) (bookId : string) : bool :=
  match noData !! bookId with
  | Some ts => now - ts <? SEVEN_DAYS
  | None => false
  end.

Definition isMissingData (b : Book) : bool :=
  (pageCount b =? 0)
  || negb (JS.nonempty (publishedDate b))
  || (JS.nonempty (publishedDate b) && (JS.length (publishedDate b) <=? 4)%nat)
  || negb (JS.truthy_opt (thumbnail b))
  || negb (JS.nonempty (description b)).

(** [Number(lastRun)] and the truthiness of [lastRun]. *)
Definition Number (lastRun : StoredStamp) : JS.number :=
  match lastRun with
  | StampAbsent => JS.Num 0
  | StampEmpty => JS.Num 0
  | StampMillis t => JS.Num t
  | StampNotNumeric _ => JS.NaN
  end.

Definition truthyStamp (lastRun : StoredStamp) : bool :=
  match lastRun with
  | StampAbsent => false
  | StampEmpty => false
  | StampMillis _ => true
  | StampNotNumeric _ => true
  end.

(** [lastRun && Date.now() - Number(lastRun) < ONE_DAY] *)
Definition cooldown (st : State) : bool :=
  truthyStamp (st_lastRun st)
  && JS.lt (JS.sub (JS.Num (st_now st)) (Number (st_lastRun st))) (JS.Num ONE_DAY).

(** The purge loop:
    [for (const id of Object.keys(noData))
       if (Date.now() - noData[id] >= SEVEN_DAYS) delete noData[id];] *)
Definition purge (now : Z) (noData : gmap string Z) : gmap string Z :=
  map_fold (fun bookId ts acc =>
              if SEVEN_DAYS <=? now - ts then delete bookId acc else acc)
           noData noData.

(** The filter of Phase 1. *)
Definition needsIsbn (now : Z) (noData : gmap string Z) (b : Book) : bool :=
  if shouldSkip now noData (id b) then false
  else if negb (JS.nonempty (purchaseUrl b)) then false
  else
    match Amazon.extractAsin (purchaseUrl b) with
    | Some asin => if Amazon.isLikelyIsbn asin then isMissingData b else false
    | None => false
    end.

(** The filter of Phase 2. *)
Definition needsTitle (now : Z) (noData : gmap string Z) (b : Book) : bool :=
  JS.nonempty (title b) && isMissingData b && negb (shouldSkip now noData (id b)).

Definition needsIsbnLookup (now : Z) (noData : gmap string Z)
           (current : list Book) : list Book :=
  List.filter (needsIsbn now noData) current.

Definition needsGoogle (now : Z) (noData : gmap string Z)
           (afterPhase1 : list Book) : list Book :=
  take MAX_GOOGLE_PER_SESSION (List.filter (needsTitle now noData) afterPhase1).

(** The patch of Phase 1 (and, with the keys set in another order, of
    Phase 2): each key is set only when the book lacks the value and
    the result has it. *)
Definition updatesFor (P : Platform) (book : Book) (result : GoogleBookResult)
  : BookPatch :=
  {| p_id := None; p_title := None; p_author := None;
     p_genre :=
       if negb (JS.nonempty (genre book))
          && (0 <? List.length (r_categories result))%nat
       then Some (Genre.stored
                    (Genre.mapCategoryToGenre (toLowerCase P) (r_categories result)))
       else None;
     p_publishedDate :=
       if (negb (JS.nonempty (publishedDate book))
           || (JS.length (publishedDate book) <=? 4)%nat)
          && JS.nonempty (r_publishedDate result)
       then Some (r_publishedDate result) else None;
     p_status := None;
     p_pageCount :=
       if (pageCount book =? 0) && negb (r_pageCount result =? 0)
       then Some (r_pageCount result) else None;
     p_rating := None; p_memo := None;
     p_description :=
       if negb (JS.nonempty (description book))
          && JS.truthy_opt (r_description result)
       then r_description result else None;
     p_thumbnail :=
       if negb (JS.truthy_opt (thumbnail book))
          && JS.truthy_opt (r_thumbnail result)
       then Some (r_thumbnail result) else None;
     p_purchaseUrl := None; p_finishedDate := None;
     p_createdAt := None; p_updatedAt := None |}.

(** [await searchByIsbn(asin)]: the general-search request is sent
    first, the registry request once its module is loaded; the call
    resumes when both have settled. *)
Definition awaitSearchByIsbn (P : Platform) (st : State) (asin : string)
  : Outcome (option GoogleBookResult) * State :=
  let h := st_trace st in
  let res := GoogleBooks.searchByIsbn (fetchOpenBD P h) (fetchVolumesByIsbn P h) asin in
  let st := record st [Requested (GetVolumesByIsbn asin);
                       Requested (GetOpenBD (OpenBDApi.isbn13_of asin))] in
  (res, advance st (elapsed P (st_trace st))).

(** [await searchBooks(query)] *)
Definition awaitSearchBooks (P : Platform) (st : State) (query : string)
  : Outcome (list GoogleBookResult) * State :=
  let h := st_trace st in
  let res := GoogleBooks.searchBooks (fetchVolumes P h) query in
  if JS.blank query then (res, st)
  else
    let st := record st [Requested (GetVolumes query)] in
    (res, advance st (elapsed P (st_trace st))).

(** The loop of Phase 1 over [needsIsbnLookup]; the result is the
    state with the local variables [noData] and [updated]. *)
Fixpoint phase1 (P : Platform) (candidates : list Book) (st : State)
         (noData : gmap string Z) (updated : bool)
  : State * gmap string Z * bool :=
  match candidates with
  | [] => (st, noData, updated)
  | book :: rest =>
      match Amazon.extractAsin (purchaseUrl book) with
      | None =>
          (* [extractAsin(book.purchaseUrl)!]: the filter of Phase 1
             keeps only books for which this is not null *)
          phase1 P rest st noData updated
      | Some asin =>
          let '(res, st) := awaitSearchByIsbn P st asin in
          match res with
          | ThrowRateLimit => (st, noData, updated)
          | ThrowOther => phase1 P rest st noData updated
          | Ret None =>
              phase1 P rest st (markNoData (st_now st) noData (id book)) updated
          | Ret (Some result) =>
              let updates := updatesFor P book result in
              if hasKeys updates then
                phase1 P rest (updateBook P (id book) updates st) noData true
              else
                phase1 P rest st (markNoData (st_now st) noData (id book)) updated
          end
      end
  end.

(** [[book.title, book.author].filter(Boolean).join(" ")] *)
Definition queryOf (book : Book) : string :=
  match JS.nonempty (title book), JS.nonempty (author book) with
  | true, true => title book ++ " " ++ author book
  | true, false => title book
  | false, true => author book
  | false, false => EmptyString
  end.

(** [await new Promise((r) => setTimeout(r, 500))] *)
Definition pace (st : State) : State := advance st 500.

(** The loop of Phase 2 over [needsGoogle]. *)
Fixpoint phase2 (P : Platform) (candidates : list Book) (st : State)
         (noData : gmap string Z) (updated : bool)
  : State * gmap string Z * bool :=
  match candidates with
  | [] => (st, noData, updated)
  | book :: rest =>
      let '(res, st) := awaitSearchBooks P st (queryOf book) in
      match res with
      | ThrowRateLimit => (st, noData, updated)
      | ThrowOther => phase2 P rest st noData updated
      | Ret [] =>
          phase2 P rest (pace st) (markNoData (st_now st) noData (id book)) updated
      | Ret (r :: _) =>
          let updates := updatesFor P book r in
          if hasKeys updates then
            phase2 P rest (pace (updateBook P (id book) updates st)) noData true
          else
            phase2 P rest (pace st) (markNoData (st_now st) noData (id book)) updated
      end
  end.

(** The two [localStorage.setItem] calls that end a run. *)
Definition persist (st : State) (noData : gmap string Z) : State :=
  mkState (st_books st) (StampMillis (st_now st)) (CacheJson noData)
          (st_now st) (st_trace st).

(** The end of a run, with the result of Phase 2 at hand: persist,
    and reload the books if any was updated. *)
Definition finish (P : Platform) (r : State * gmap string Z * bool) : State :=
  let '(st, noData, updated) := r in
  let st := persist st noData in
  if updated then snd (getBooks P st) else st.

(** Everything after the cooldown check. *)
Definition run (P : Platform) (st : State) : State :=
  let '(current, st) := getBooks P st in
  let noData := purge (st_now st) (getNoDataSet st) in
  let '(st, noData, updated) :=
    phase1 P (needsIsbnLookup (st_now st) noData current) st noData false in
  let '(afterPhase1, st) := if updated then getBooks P st else (current, st) in
  finish P (phase2 P (needsGoogle (st_now st) noData afterPhase1) st noData updated).

Definition backfillBookData (P : Platform) (st : State) : State :=
  if cooldown st then st else run P st.

(** *** The stages of a run *)

(** The cache after the purge loop. *)
Definition purged (P : Platform) (st : State) : gmap string Z :=
  let st1 := snd (getBooks P st) in purge (st_now st1) (getNoDataSet st1).

(** [needsIsbnLookup], the list Phase 1 loops over. *)
Definition phase1Candidates (P : Platform) (st : State) : list Book :=
  needsIsbnLookup (st_now (snd (getBooks P st))) (purged P st) (fst (getBooks P st)).

(** The state, [noData] and [updated] when the loop of Phase 1 is left. *)
Definition afterPhase1 (P : Platform) (st : State) : State * gmap string Z * bool :=
  phase1 P (phase1Candidates P st) (snd (getBooks P st)) (purged P st) false.

(** [updated ? getBooks() : current] *)
Definition reread (P : Platform) (st : State) : list Book * State :=
  let r1 := afterPhase1 P st in
  if snd r1 then getBooks P (fst (fst r1)) else (fst (getBooks P st), fst (fst r1)).

(** [Date.now()] and [noData] when the filter of Phase 2 runs. *)
Definition phase2Time (P : Platform) (st : State) : Z := st_now (snd (reread P st)).

Definition phase2Cache (P : Platform) (st : State) : gmap string Z :=
  snd (fst (afterPhase1 P st)).

(** The records that pass the filter of Phase 2, and [needsGoogle],
    the first [MAX_GOOGLE_PER_SESSION] of them. *)
Definition phase2Eligible (P : Platform) (st : State) : list Book :=
  List.filter (needsTitle (phase2Time P st) (phase2Cache P st)) (fst (reread P st)).

Definition phase2Candidates (P : Platform) (st : State) : list Book :=
  take MAX_GOOGLE_PER_SESSION (phase2Eligible P st).

(** *** Vocabulary of the properties *)

(** The same storage and trace, seen at another time. *)
Definition atTime (st : State) (now : Z) : State :=
  mkState (st_books st) (st_lastRun st) (st_noData st) now (st_trace st).





(** Two versions of a record that agree on everything a run must not
    touch. *)
Definition sameFrame (b b' : Book) : Prop :=
  id b' = id b /\ title b' = title b /\ author b' = author b
  /\ status b' = status b /\ rating b' = rating b /\ memo b' = memo b
  /\ purchaseUrl b' = purchaseUrl b /\ finishedDate b' = finishedDate b
  /\ createdAt b' = createdAt b.

(** Two versions of a stored record that agree on everything a run
    must not touch, but for what the read path does to a record of an
    earlier version: the status ["unread"] becomes ["tsundoku"], an
    absent link the empty text. *)
Definition storedFrame (raw raw' : StoredBook) : Prop :=
  s_id raw' = s_id raw /\ s_title raw' = s_title raw
  /\ s_author raw' = s_author raw /\ s_rating raw' = s_rating raw
  /\ s_memo raw' = s_memo raw /\ s_finishedDate raw' = s_finishedDate raw
  /\ s_createdAt raw' = s_createdAt raw
  /\ (s_status raw' = s_status raw
      \/ (s_status raw = Unread /\ s_status raw' = Status tsundoku))
  /\ (s_purchaseUrl raw' = s_purchaseUrl raw
      \/ (s_purchaseUrl raw = None /\ s_purchaseUrl raw' = Some EmptyString)).



End Scheduler.

(* ================================================================== *)
(** ** Vocabulary for the registry adapter *)
(* ================================================================== *)

Module Markup.

(** A tag in the sense of [/<[^>]*>/]: a [<] with a [>] somewhere
    after it. *)
Fixpoint has_tag (s : string) : bool :=
  match s with
  | String c s' => (Ascii.eqb c "<" && OpenBDApi.has_gt s') || has_tag s'
  | EmptyString => false
  end.

(** No hyphen and no white space in a text. *)
Definition compact (s : string) : bool :=
  forallb (fun c => negb (Ascii.eqb c "-" || JS.is_space c))
          (list_ascii_of_string s).

End Markup.

(* ================================================================== *)
(** ** storage.ts: adding and deleting *)
(* ================================================================== *)

Module StorageOps.
Import Storage.

(** [Omit<Book, "id" | "createdAt" | "updatedAt">] *)
Record BookData : Type := mkData {
  d_title : string;
  d_author : string;
  d_genre : string;
  d_publishedDate : string;
  d_status : ReadingStatus;
  d_pageCount : Z;
  d_rating : Z;
  d_memo : string;
  d_description : string;
  d_thumbnail : option string;
  d_purchaseUrl : string;
  d_finishedDate : option string
}.

(** [addBook(book)]; [uuid] is what [crypto.randomUUID()] gives. *)
Definition addBook (P : Platform) (uuid : string) (book : BookData) (st : State)
  : Book * State :=
  let '(books, st) := getBooks P st in
  let now := toISOString P (st_now st) in
  let newBook :=
    {| id := uuid; title := d_title book; author := d_author book;
       genre := d_genre book; publishedDate := d_publishedDate book;
       status := d_status book; pageCount := d_pageCount book;
       rating := d_rating book; memo := d_memo book;
       description := d_description book; thumbnail := d_thumbnail book;
       purchaseUrl := d_purchaseUrl book; finishedDate := d_finishedDate book;
       createdAt := now; updatedAt := now |} in
  (newBook, saveBooks (newBook :: books) st).

(** [deleteBook(id)]: [false], and nothing saved, when no record goes. *)
Definition deleteBook (P : Platform) (bookId : string) (st : State) : bool * State :=
  let '(books, st) := getBooks P st in
  let filtered := List.filter (fun b => negb (String.eqb (id b) bookId)) books in
  if (List.length filtered =? List.length books)%nat then (false, st)
  else (true, saveBooks filtered st).

(** A book that the migration of the read path leaves as it is. *)
Definition settled (P : Platform) (b : Book) : Prop := migrateBook P b = (b, false).

End StorageOps.

(* ================================================================== *)
(** ** amazon.ts: the canonical product URL *)
(* ================================================================== *)

Module AmazonUrl.

(** [new URL(url).hostname]; [None] when the constructor throws. *)
Definition Hostname : Type := string -> option string.

(** [cleanAmazonUrl(url)]: [https://<host>/dp/<asin>], or the URL as it
    is when it has no identifier or does not parse. *)
Definition cleanAmazonUrl (hostname : Hostname) (url : string) : string :=
  match Amazon.extractAsin url with
  | None => url
  | Some asin =>
      match hostname url with
      | Some host => "https://" ++ host ++ "/dp/" ++ asin
      | None => url
      end
  end.

(** A text without [/], as every host name is. *)
Definition no_slash (s : string) : bool :=
  forallb (fun c => negb (Ascii.eqb c "/")) (list_ascii_of_string s).

End AmazonUrl.

(* ================================================================== *)
(** ** Vocabulary for the scheduler's requests and cache *)
(* ================================================================== *)

Module Budget.

(** A request of the title search of Phase 2. *)
Definition isTitleRequest (e : Event) : bool :=
  match e with
  | Requested (GetVolumes _) => true
  | _ => false
  end.

(** A request of the ISBN lookup of Phase 1, to either source. *)
Definition isIsbnRequest (e : Event) : bool :=
  match e with
  | Requested (GetVolumesByIsbn _) => true
  | Requested (GetOpenBD _) => true
  | _ => false
  end.

Definition count (p : Event -> bool) (tr : list Event) : nat :=
  List.length (List.filter p tr).

(** The records under the books key. *)
Definition stored (st : State) : list StoredBook := default [] (st_books st).


(** [b'] has every value that [b] has: the page count when it is not
    0, the date when it has more than four code units, the cover, the
    description and the genre when they are not empty. *)
Definition keeps (b b' : Book) : Prop :=
  (pageCount b <> 0 -> pageCount b' = pageCount b)
  /\ ((4 < JS.length (publishedDate b))%nat ->
      publishedDate b' = publishedDate b)
  /\ (JS.truthy_opt (thumbnail b) = true -> thumbnail b' = thumbnail b)
  /\ (JS.nonempty (description b) = true -> description b' = description b)
  /\ (JS.nonempty (genre b) = true -> genre b' = genre b).

End Budget.

(* ================================================================== *)
(** ** goals.ts *)
(* ================================================================== *)

Module Goals.

(** [parseInt(s, 10)]: skip leading white space, read an optional sign
    and the longest run of decimal digits; [NaN] when that run is
    empty. *)
Definition parseInt10 (s : string) : JS.number :=
  let s := JS.trimStart s in
  let '(sign, s) :=
    match s with
    | String "-" s' => (-1, s')
    | String "+" s' => (1, s')
    | _ => (1, s)
    end in
  match JS.digits_prefix JS.dec_value 10 s None with
  | Some n => JS.Num (sign * n)
  | None => JS.NaN
  end.

(** The number that a sequence of decimal digits reads as, after the
    digits that gave [acc]. *)
Fixpoint uint_value (d : Decimal.uint) (acc : Z) : Z :=
  match d with
  | Decimal.Nil => acc
  | Decimal.D0 d' => uint_value d' (acc * 10 + 0)
  | Decimal.D1 d' => uint_value d' (acc * 10 + 1)
  | Decimal.D2 d' => uint_value d' (acc * 10 + 2)
  | Decimal.D3 d' => uint_value d' (acc * 10 + 3)
  | Decimal.D4 d' => uint_value d' (acc * 10 + 4)
  | Decimal.D5 d' => uint_value d' (acc * 10 + 5)
  | Decimal.D6 d' => uint_value d' (acc * 10 + 6)
  | Decimal.D7 d' => uint_value d' (acc * 10 + 7)
  | Decimal.D8 d' => uint_value d' (acc * 10 + 8)
  | Decimal.D9 d' => uint_value d' (acc * 10 + 9)
  end.

(** The two keys of [localStorage] that goals.ts uses: the text under
    [GOAL_KEY], and the value under [JOURNAL_KEY] decoded as
    [string[]] ([None]: no text, or the empty one). *)
Record Prefs : Type := mkPrefs {
  goalText : option string;
  journal : option (list string)
}.

(** [val ? parseInt(val, 10) : 0] *)
Definition getYearlyGoal (prefs : Prefs) : JS.number :=
  match goalText prefs with
  | Some val => if JS.nonempty val then parseInt10 val else JS.Num 0
  | None => JS.Num 0
  end.

(** [localStorage.setItem(GOAL_KEY, String(goal))], for an integer
    [goal] that [String] writes in decimal. *)
Definition setYearlyGoal (goal : Z) (prefs : Prefs) : Prefs :=
  mkPrefs (Some (JS.string_of_Z goal)) (journal prefs).

(** [data ? JSON.parse(data) : []] *)
Definition getJournalDates (prefs : Prefs) : list string :=
  match journal prefs with
  | Some dates => dates
  | None => []
  end.

(** [dates.indexOf(date)]; [None] for [-1]. *)
Fixpoint indexOf (date : string) (dates : list string) : option nat :=
  match dates with
  | [] => None
  | d :: rest =>
      if String.eqb d date then Some 0%nat else S <$> indexOf date rest
  end.

(** [dates.splice(idx, 1)] *)
Fixpoint splice1 (idx : nat) (dates : list string) : list string :=
  match dates, idx with
  | [], _ => []
  | _ :: rest, O => rest
  | d :: rest, S idx' => d :: splice1 idx' rest
  end.

Definition toggleJournalDate (date : string) (prefs : Prefs)
  : list string * Prefs :=
  let dates := getJournalDates prefs in
  let dates :=
    match indexOf date dates with
    | Some idx => splice1 idx dates
    | None => (dates ++ [date])%list
    end in
  (dates, mkPrefs (goalText prefs) (Some dates)).

End Goals.

(* ================================================================== *)
(** ** Sample data *)
(* ================================================================== *)

Module Sample.

(** A registry record: year-only date, no cover, 250 pages, a long
    description with markup. *)
Definition registryBook : OpenBDApi.OpenBDResponse :=
  {| OpenBDApi.summary :=
       Some {| OpenBDApi.isbn := Some "9784774142043";
               OpenBDApi.title := Some "Nyumon";
               OpenBDApi.author := Some "Yamada";
               OpenBDApi.publisher := Some "Gihyo";
               OpenBDApi.pubdate := Some "2010";
               OpenBDApi.cover := Some EmptyString;
               OpenBDApi.volume := None;
               OpenBDApi.series := None |};
     OpenBDApi.onix :=
       Some {| OpenBDApi.descriptiveDetail :=
                 Some {| OpenBDApi.Extent :=
                           Some [ {| OpenBDApi.ExtentType := "11";
                                     OpenBDApi.ExtentValue := "250";
                                     OpenBDApi.ExtentUnit := "03" |} ];
                         OpenBDApi.Subject := None |};
               OpenBDApi.collateralDetail :=
                 Some {| OpenBDApi.TextContent :=
                           Some [ {| OpenBDApi.TextType := "03";
                                     OpenBDApi.Text := Some "<p>About</p>" |} ] |} |};
     OpenBDApi.genrecodetrc := None |}.

Definition registryFound : Fetched OpenBDApi.Body :=
  Response 200 (Some (Some [Some registryBook])).

Definition registryNotFound : Fetched OpenBDApi.Body :=
  Response 200 (Some (Some [None])).

(** A volume of the general search: full date, cover, another
    description. *)
Definition volume : GoogleBooks.VolumeItem :=
  {| GoogleBooks.id := "vol1";
     GoogleBooks.volumeInfo :=
       {| GoogleBooks.title := Some "Nyumon";
          GoogleBooks.authors := Some ["Yamada"];
          GoogleBooks.categories := Some ["Computers"];
          GoogleBooks.publishedDate := Some "2010-04-01";
          GoogleBooks.pageCount := Some 300;
          GoogleBooks.description := Some "Other";
          GoogleBooks.imageLinks :=
            Some {| GoogleBooks.smallThumbnail := None;
                    GoogleBooks.thumbnail := Some "http://img/1" |} |} |}.

Definition volumesFound : Fetched GoogleBooks.Body :=
  Response 200 (Some {| GoogleBooks.items := Some [volume] |}).

(** The quota status. *)
Definition quotaExceeded : Fetched GoogleBooks.Body := Response 429 None.

(** A stored book with a retailer link to an ISBN, and nothing else
    known about it. *)
Definition book : Book :=
  {| id := "b1"; title := "Nyumon"; author := "Yamada";
     genre := EmptyString; publishedDate := EmptyString;
     status := tsundoku; pageCount := 0; rating := 0;
     memo := EmptyString; description := EmptyString; thumbnail := None;
     purchaseUrl := "https://www.amazon.co.jp/dp/4774142042";
     finishedDate := None;
     createdAt := "2024-01-01T00:00:00.000Z";
     updatedAt := "2024-01-01T00:00:00.000Z" |}.

(** A platform on which the registry knows no book and the general
    search answers every request with the quota status. *)
Definition quotaPlatform : Platform :=
  {| toLowerCase := Genre.ascii_toLowerCase;
     toISOString := fun _ => "2024-06-01T00:00:00.000Z";
     fetchOpenBD := fun _ _ => registryNotFound;
     fetchVolumesByIsbn := fun _ _ => quotaExceeded;
     fetchVolumes := fun _ _ => quotaExceeded;
     elapsed := fun _ => 120 |}.

(** A platform on which both sources know the book. *)
Definition bothPlatform : Platform :=
  {| toLowerCase := Genre.ascii_toLowerCase;
     toISOString := fun _ => "2024-06-01T00:00:00.000Z";
     fetchOpenBD := fun _ _ => registryFound;
     fetchVolumesByIsbn := fun _ _ => volumesFound;
     fetchVolumes := fun _ _ => volumesFound;
     elapsed := fun _ => 120 |}.

(** A platform on which the network is down. *)
Definition offline : Platform :=
  {| toLowerCase := Genre.ascii_toLowerCase;
     toISOString := fun _ => "2024-06-01T00:00:00.000Z";
     fetchOpenBD := fun _ _ => NetworkError;
     fetchVolumesByIsbn := fun _ _ => NetworkError;
     fetchVolumes := fun _ _ => NetworkError;
     elapsed := fun _ => 0 |}.

End Sample.

(* ================================================================== *)
(** ** More sample data *)
(* ================================================================== *)

Module Sample2.

(** What the form hands to [addBook]. *)
Definition newData : StorageOps.BookData :=
  {| StorageOps.d_title := "Kokoro"; StorageOps.d_author := "Natsume";
     StorageOps.d_genre := "Fiction"; StorageOps.d_publishedDate := "1914";
     StorageOps.d_status := wishlist; StorageOps.d_pageCount := 0;
     StorageOps.d_rating := 0; StorageOps.d_memo := EmptyString;
     StorageOps.d_description := EmptyString; StorageOps.d_thumbnail := None;
     StorageOps.d_purchaseUrl := EmptyString;
     StorageOps.d_finishedDate := None |}.

(** A store with the one sample book, before any run. *)
Definition oneBook : State :=
  mkState (Some [plain Sample.book]) StampAbsent CacheAbsent 1000000 [].

End Sample2.

(* ================================================================== *)
(** * Properties *)
(* ================================================================== *)

(** ** ISBN-10 to ISBN-13 *)

Module OpenBDFacts.
Import OpenBD.

Lemma digit_value_range (c : ascii) :
  JS.is_digit c = true -> 0 <= JS.digit_value c <= 9.
Proof.
  unfold JS.is_digit, JS.digit_value.
  intros H. apply andb_true_iff in H as [H1 H2].
  apply Nat.leb_le in H1, H2. lia.
Qed.

Lemma parseInt_digit (c : ascii) :
  JS.is_digit c = true ->
  JS.parseInt (String c EmptyString) = JS.Num (JS.digit_value c).
Proof.
  destruct c as [[] [] [] [] [] [] [] []]; vm_compute;
    intros H; solve [discriminate H | reflexivity].
Qed.

Lemma string_of_digit (d : Z) :
  0 <= d <= 9 -> JS.string_of_Z d = String (digit_char d) EmptyString.
Proof.
  intros H.
  assert (d = 0 \/ d = 1 \/ d = 2 \/ d = 3 \/ d = 4 \/ d = 5 \/ d = 6
          \/ d = 7 \/ d = 8 \/ d = 9) as Hd by lia.
  repeat (destruct Hd as [-> | Hd]; [reflexivity |]). subst d. reflexivity.
Qed.

Lemma digit_char_digit (d : Z) : 0 <= d <= 9 -> JS.is_digit (digit_char d) = true.
Proof.
  intros H.
  assert (d = 0 \/ d = 1 \/ d = 2 \/ d = 3 \/ d = 4 \/ d = 5 \/ d = 6
          \/ d = 7 \/ d = 8 \/ d = 9) as Hd by lia.
  repeat (destruct Hd as [-> | Hd]; [reflexivity |]). subst d. reflexivity.
Qed.

Lemma digit_char_value (d : Z) : 0 <= d <= 9 -> JS.digit_value (digit_char d) = d.
Proof.
  intros H.
  assert (d = 0 \/ d = 1 \/ d = 2 \/ d = 3 \/ d = 4 \/ d = 5 \/ d = 6
          \/ d = 7 \/ d = 8 \/ d = 9) as Hd by lia.
  repeat (destruct Hd as [-> | Hd]; [reflexivity |]). subst d. reflexivity.
Qed.

(** The loop computes the weighted sum when it meets only digits. *)
Lemma checksum_loop (base : string) (n : nat) :
  (forall i, (i < n)%nat ->
             exists c, String.get i base = Some c /\ JS.is_digit c = true) ->
  fold_left (checksum_step base) (seq 0 n) (JS.Num 0)
  = JS.Num (weighted_sum base n).
Proof.
  induction n as [| n IH]; intros Hd.
  - reflexivity.
  - rewrite seq_S, fold_left_app, IH by (intros i Hi; apply Hd; lia).
    destruct (Hd n) as (c & Hc & Hdig); [lia |].
    cbn [fold_left Nat.add weighted_sum].
    unfold checksum_step, JS.at_index, digit_at. rewrite Hc.
    cbn [JS.parseInt_opt]. rewrite parseInt_digit by exact Hdig.
    cbn [JS.add JS.mul]. f_equal. lia.
Qed.

Lemma weighted_sum_nonneg (s : string) (n : nat) :
  (forall i, (i < n)%nat ->
             exists c, String.get i s = Some c /\ JS.is_digit c = true) ->
  0 <= weighted_sum s n.
Proof.
  induction n as [| n IH]; intros Hd; cbn [weighted_sum]; [lia |].
  destruct (Hd n) as (c & Hc & Hdig); [lia |].
  pose proof (digit_value_range c Hdig).
  unfold digit_at. rewrite Hc.
  assert (0 <= weight n) by (unfold weight; destruct (Nat.even n); lia).
  specialize (IH (fun i Hi => Hd i (Nat.lt_lt_succ_r _ _ Hi))). nia.
Qed.

(** A weighted sum only reads the characters below its bound. *)
Lemma weighted_sum_ext (s t : string) (n : nat) :
  (forall i, (i < n)%nat -> String.get i s = String.get i t) ->
  weighted_sum s n = weighted_sum t n.
Proof.
  induction n as [| n IH]; intros He; cbn [weighted_sum]; [reflexivity |].
  unfold digit_at. rewrite (He n), IH by (intros; try apply He; lia).
  reflexivity.
Qed.

Lemma all_digits_get (s : string) :
  all_digits s = true ->
  forall i, (i < String.length s)%nat ->
            exists c, String.get i s = Some c /\ JS.is_digit c = true.
Proof.
  unfold all_digits. induction s as [| a s IH]; cbn; intros H i Hi; [lia |].
  apply andb_true_iff in H as [Ha Hs].
  destruct i as [| i]; [eauto |]. apply IH; [exact Hs | lia].
Qed.

Lemma all_digits_app (s t : string) :
  all_digits (s ++ t) = all_digits s && all_digits t.
Proof.
  unfold all_digits. induction s as [| a s IH]; [reflexivity |].
  change (String a s ++ t)%string with (String a (s ++ t)%string).
  cbn [list_ascii_of_string forallb]. rewrite IH. apply andb_assoc.
Qed.

Lemma length_append (s t : string) :
  String.length (s ++ t) = (String.length s + String.length t)%nat.
Proof.
  induction s as [| a s IH]; [reflexivity |].
  change (String a s ++ t)%string with (String a (s ++ t)%string).
  cbn [String.length]. rewrite IH. reflexivity.
Qed.

Lemma slice_0_length (n : nat) (s : string) :
  (n <= String.length s)%nat -> String.length (JS.slice 0 n s) = n.
Proof.
  unfold JS.slice. rewrite Nat.sub_0_r. revert s.
  induction n as [| n IH]; intros [| a s] H; cbn in *; try reflexivity; try lia.
  f_equal. apply IH. lia.
Qed.

Lemma base_digits (isbn10 : string) :
  String.length isbn10 = 10%nat ->
  all_digits (JS.slice 0 9 isbn10) = true ->
  let base := "978" ++ JS.slice 0 9 isbn10 in
  String.length base = 12%nat /\ all_digits base = true.
Proof.
  intros Hlen Hdig base. subst base. split.
  - rewrite length_append, slice_0_length by lia. reflexivity.
  - change (all_digits (String "9" (String "7" (String "8" (JS.slice 0 9 isbn10)))) = true).
    unfold all_digits in *. cbn [list_ascii_of_string forallb]. rewrite Hdig. reflexivity.
Qed.

(** C6: for every 10-character ISBN-10 (nine digits and a check
    character), [isbn10to13] returns ["978"], the first nine characters
    and the check digit [(10 - S mod 10) mod 10], where [S] is the sum
    of the first twelve digits weighted 1 at even and 3 at odd
    positions; the result has 13 digits and satisfies the ISBN-13
    checksum identity. *)
Theorem isbn10to13_check_digit (isbn10 : string) :
  String.length isbn10 = 10%nat ->
  all_digits (JS.slice 0 9 isbn10) = true ->
  let base := "978" ++ JS.slice 0 9 isbn10 in
  let S := weighted_sum base 12 in
  let c := (10 - S mod 10) mod 10 in
  isbn10to13 isbn10 = base ++ String (digit_char c) EmptyString
  /\ isbn13_checksum (isbn10to13 isbn10).
Proof.
  intros Hlen Hdig base S c.
  destruct (base_digits isbn10 Hlen Hdig) as [Hblen Hbdig]. fold base in Hblen, Hbdig.
  pose proof (all_digits_get base Hbdig) as Hget. rewrite Hblen in Hget.
  assert (0 <= S) as HS by (apply weighted_sum_nonneg; exact Hget).
  assert (0 <= c <= 9) as Hc by (subst c; pose proof (Z.mod_pos_bound (10 - S mod 10) 10); lia).
  assert (isbn10to13 isbn10 = base ++ String (digit_char c) EmptyString) as Heq.
  { unfold isbn10to13. fold base. unfold checksum_sum.
    rewrite (checksum_loop base 12 Hget). fold S.
    cbn [JS.rem JS.sub Z.eqb].
    rewrite (Z.rem_mod_nonneg S 10) by lia.
    rewrite (Z.rem_mod_nonneg (10 - S mod 10) 10)
      by (pose proof (Z.mod_pos_bound S 10); lia).
    fold c. cbn [JS.toString]. rewrite string_of_digit by exact Hc. reflexivity. }
  split; [exact Heq |]. rewrite Heq. repeat split.
  - rewrite length_append, Hblen. reflexivity.
  - rewrite all_digits_app, Hbdig. unfold all_digits. cbn.
    rewrite digit_char_digit by exact Hc. reflexivity.
  - change (weighted_sum (base ++ String (digit_char c) EmptyString) 13)
      with (weighted_sum (base ++ String (digit_char c) EmptyString) 12
            + weight 12 * digit_at (base ++ String (digit_char c) EmptyString) 12).
    rewrite (weighted_sum_ext _ base 12).
    + assert (String.get 12 (base ++ String (digit_char c) EmptyString)
              = Some (digit_char c)) as Hlast.
      { pose proof (append_correct2 base (String (digit_char c) EmptyString) 0) as H.
        rewrite Hblen in H. symmetry. exact H. }
      unfold digit_at. rewrite Hlast.
      rewrite digit_char_value by exact Hc. fold S.
      change (weight 12) with 1. subst c.
      pose proof (Z.mod_pos_bound S 10).
      rewrite Z.mul_1_l, Zplus_mod, Zmod_mod, <- Zplus_mod.
      replace (S + (10 - S mod 10)) with (1 * 10 + (S - S mod 10)) by lia.
      rewrite Z.add_comm, Z_mod_plus_full.
      rewrite Zminus_mod, Zmod_mod, Z.sub_diag. reflexivity.
    + intros i Hi. symmetry. apply append_correct1. rewrite Hblen. exact Hi.
Qed.

Lemma isbn10to13_check_digit_witness :
  String.length "4774142042" = 10%nat
  /\ all_digits (JS.slice 0 9 "4774142042") = true
  /\ isbn10to13 "4774142042" = "9784774142043"
  /\ isbn13_checksum (isbn10to13 "4774142042").
Proof.
  split; [reflexivity |]. split; [reflexivity |].
  exact (isbn10to13_check_digit "4774142042" eq_refl eq_refl).
Defined.

End OpenBDFacts.

(** ** Genre classification *)

Module GenreFacts.
Import Genre.

Lemma table_get_find (table : list (string * string)) (key : string) :
  table_get table key
  = snd <$> List.find (fun kv => String.eqb (fst kv) key) table.
Proof.
  induction table as [| [k v] table IH]; [reflexivity |].
  cbn [table_get List.find fst]. destruct (String.eqb k key); [reflexivity | exact IH].
Qed.

(** Every label of the table is a non-empty text, so the truthiness
    test of the exact lookup succeeds whenever the key is present. *)
Lemma CATEGORY_MAP_labels :
  Forall (fun kv => JS.nonempty (snd kv) = true) CATEGORY_MAP.
Proof. unfold CATEGORY_MAP. repeat constructor. Qed.

Lemma table_get_label (table : list (string * string)) (key v : string) :
  Forall (fun kv => JS.nonempty (snd kv) = true) table ->
  table_get table key = Some v -> JS.nonempty v = true.
Proof.
  induction 1 as [| [k w] table Hw _ IH]; cbn [table_get]; [discriminate |].
  destruct (String.eqb k key); [| exact IH].
  intros [= <-]. exact Hw.
Qed.

(** No key of the table is an inherited name, so an inherited name
    has no own property in it. *)
Lemma inherits_not_own (name : string) :
  inherits name = true -> table_get CATEGORY_MAP name = None.
Proof.
  unfold inherits. intros H. apply existsb_exists in H as (k & Hk & E).
  apply String.eqb_eq in E. subst k.
  repeat (destruct Hk as [<- | Hk]; [reflexivity |]). destruct Hk.
Qed.

Lemma exact_match_plain (cat : string) :
  inherits cat = false -> exact_match cat = Text <$> spec_exact_label cat.
Proof.
  intros H. unfold exact_match, object_get, spec_exact_label.
  rewrite <- table_get_find.
  destruct (table_get CATEGORY_MAP cat) as [v |] eqn:Hget.
  - rewrite (table_get_label _ _ _ CATEGORY_MAP_labels Hget). reflexivity.
  - rewrite H. reflexivity.
Qed.

Lemma exact_match_inherited (name : string) :
  inherits name = true -> exact_match name = Some (Inherited name).
Proof.
  intros H. unfold exact_match, object_get.
  rewrite (inherits_not_own name H), H. reflexivity.
Qed.

Section Classifier.
Variable toLowerCase : string -> string.

Lemma partial_match_label (cat : string) :
  partial_match toLowerCase CATEGORY_MAP cat = spec_substring_label toLowerCase cat.
Proof.
  unfold spec_substring_label. generalize CATEGORY_MAP as entries.
  induction entries as [| [k v] entries IH]; [reflexivity |].
  cbn [partial_match List.find fst].
  destruct (includes (toLowerCase cat) (toLowerCase k)); [reflexivity | exact IH].
Qed.

(** One round of the outer loop decides exactly as [spec_label_of],
    for a category that is no inherited name. *)
Lemma category_loop_cons (cat : string) (rest : list string) :
  inherits cat = false ->
  category_loop toLowerCase (cat :: rest)
  = match spec_label_of toLowerCase cat with
    | Some l => Some (Text l)
    | None => category_loop toLowerCase rest
    end.
Proof.
  intros H. cbn [category_loop]. unfold spec_label_of.
  rewrite (exact_match_plain cat H), partial_match_label.
  destruct (spec_exact_label cat) as [l |]; cbn [fmap option_fmap option_map];
    [reflexivity |].
  destruct (spec_substring_label toLowerCase cat); reflexivity.
Qed.

Lemma category_loop_head (categories : list string) :
  forallb (fun c => negb (inherits c)) categories = true ->
  category_loop toLowerCase categories
  = Text <$> head (omap (spec_label_of toLowerCase) categories).
Proof.
  induction categories as [| cat rest IH]; [reflexivity |].
  cbn [forallb]. intros H. apply andb_true_iff in H as [Hc Hr].
  apply negb_true_iff in Hc.
  rewrite (category_loop_cons cat rest Hc). cbn [omap list_omap].
  destruct (spec_label_of toLowerCase cat); [reflexivity | exact (IH Hr)].
Qed.

(** X25: on categories none of which is the name of a property
    inherited from [Object.prototype], [mapCategoryToGenre] classifies
    as the specification words it: the categories in order; for each the
    exact, case-sensitive table lookup, then the case-insensitive
    substring match against the keys in declaration order; the first
    category that matches gives the label, and with no match the result
    is the first category, or the empty text for an empty list. *)
Theorem mapCategoryToGenre_classify (categories : list string) :
  forallb (fun c => negb (inherits c)) categories = true ->
  mapCategoryToGenre toLowerCase categories
  = Text (spec_classify toLowerCase categories).
Proof.
  intros H. unfold mapCategoryToGenre, spec_classify.
  rewrite (category_loop_head categories H).
  destruct (omap (spec_label_of toLowerCase) categories); [| reflexivity].
  destruct categories; reflexivity.
Qed.

(** A category that is an inherited name ends the loop: the value
    found under it is returned. *)
Lemma category_loop_inherited (name : string) (rest : list string) :
  inherits name = true ->
  category_loop toLowerCase (name :: rest) = Some (Inherited name).
Proof.
  intros H. cbn [category_loop]. rewrite (exact_match_inherited name H).
  reflexivity.
Qed.

(** C7: the classification fails on a category that is the name of an
    inherited property.  For the list [["constructor"]] the exact
    lookup finds the constructor function that the table inherits from
    [Object.prototype], and [mapCategoryToGenre] returns it: not the
    first category, and no text at all; and for [["toString"; "Law"]]
    it returns the inherited [toString] although the second category
    is a key of the table. *)
Theorem mapCategoryToGenre_inherited :
  mapCategoryToGenre toLowerCase ["constructor"] = Inherited "constructor"
  /\ mapCategoryToGenre toLowerCase ["constructor"]
     <> Text (spec_classify toLowerCase ["constructor"])
  /\ mapCategoryToGenre toLowerCase ["toString"; "Law"] = Inherited "toString"
  /\ spec_exact_label "constructor" = None
  /\ spec_exact_label "Law" = Some "社会・政治・法律".
Proof.
  unfold mapCategoryToGenre.
  rewrite !category_loop_inherited by reflexivity.
  repeat split. discriminate.
Qed.

End Classifier.

Lemma mapCategoryToGenre_classify_witness :
  mapCategoryToGenre ascii_toLowerCase ["Unknown"; "Young Adult Fiction / Fantasy"]
  = Text "文学・評論".
Proof.
  exact (mapCategoryToGenre_classify ascii_toLowerCase
           ["Unknown"; "Young Adult Fiction / Fantasy"] eq_refl).
Defined.

(** The three examples of the specification. *)
Example genre_exact :
  mapCategoryToGenre ascii_toLowerCase ["Computers"] = Text "コンピュータ・IT".
Proof. reflexivity. Qed.

Example genre_substring :
  mapCategoryToGenre ascii_toLowerCase ["Young Adult Fiction / Fantasy"]
  = Text "文学・評論".
Proof. reflexivity. Qed.

Example genre_unknown :
  mapCategoryToGenre ascii_toLowerCase ["Zoology"] = Text "Zoology".
Proof. reflexivity. Qed.

End GenreFacts.

(** ** The registry adapter and the merge engine *)

Module MergeFacts.
Import OpenBDApi GoogleBooks.

(** The registry adapter has no rate-limit condition. *)
Lemma searchByIsbnOpenBD_no_rate_limit fetch isbn :
  searchByIsbnOpenBD fetch isbn <> ThrowRateLimit.
Proof.
  unfold searchByIsbnOpenBD.
  destruct (fetch (isbn13_of isbn)) as [| status json]; [discriminate |].
  destruct (negb (ok status)); [discriminate |].
  destruct json as [[[| [book |] rest] |] |]; try discriminate.
  unfold resultOfBook. destruct (summary book) as [s |]; [| discriminate].
  destruct (negb (JS.truthy_opt (OpenBDApi.title s))); discriminate.
Qed.

(** The merge engine raises nothing but the rate-limit condition. *)
Lemma searchByIsbn_no_other_error fetchO fetchG isbn :
  searchByIsbn fetchO fetchG isbn <> ThrowOther.
Proof.
  unfold searchByIsbn, settle.
  destruct (openBDPromise _); destruct (googlePromise _); discriminate.
Qed.

(** A partial element makes the adapter raise: reading
    [summary.title] of it fails. *)
Lemma searchByIsbnOpenBD_partial_raises :
  searchByIsbnOpenBD
    (fun _ => Response 200 (Some (Some [Some partialElement])))
    "9784000000000"
  = ThrowOther.
Proof. reflexivity. Qed.

(** C8, as the code has it: the adapter returns [null] for a
    non-success status, a [null] or empty array, a [null] first element
    and a summary without title; it raises when there is no response,
    the body is not JSON or the element has no summary; and either way
    the merge engine goes on as with an absent registry result, and
    raises nothing but the rate-limit condition. *)
Theorem registry_without_record fetchO fetchG isbn :
  let res := fetchO (isbn13_of isbn) in
  (lacksRecord res = true -> searchByIsbnOpenBD fetchO isbn = Ret None)
  /\ (broken res = true -> searchByIsbnOpenBD fetchO isbn = ThrowOther)
  /\ (lacksRecord res || broken res = true ->
      searchByIsbn fetchO fetchG isbn = settle None (googlePromise (fetchG isbn)))
  /\ searchByIsbn fetchO fetchG isbn <> ThrowOther.
Proof.
  intros res.
  assert (lacksRecord res = true -> searchByIsbnOpenBD fetchO isbn = Ret None) as H1.
  { unfold searchByIsbnOpenBD. fold res. destruct res as [| status json]; [discriminate |].
    cbn [lacksRecord]. destruct (negb (ok status)); [reflexivity |].
    destruct json as [[[| [book |] rest] |] |]; cbn [orb]; try discriminate; try reflexivity.
    unfold resultOfBook. destruct (summary book) as [s |]; [| discriminate].
    intros ->. reflexivity. }
  assert (broken res = true -> searchByIsbnOpenBD fetchO isbn = ThrowOther) as H2.
  { unfold searchByIsbnOpenBD. fold res. destruct res as [| status json]; [reflexivity |].
    cbn [broken]. destruct (ok status); cbn [negb andb]; [| discriminate].
    destruct json as [[[| [book |] rest] |] |]; try discriminate; try reflexivity.
    unfold resultOfBook. destruct (summary book) as [s |]; [discriminate | reflexivity]. }
  repeat split; [exact H1 | exact H2 | | apply searchByIsbn_no_other_error].
  intros H. apply orb_true_iff in H as [H | H]; unfold searchByIsbn.
  - rewrite (H1 H). reflexivity.
  - rewrite (H2 H). reflexivity.
Qed.

Lemma registry_without_record_witness :
  let fetchO := fun _ : string =>
    Response 200 (Some (Some [@None OpenBDResponse])) in
  lacksRecord (fetchO (isbn13_of "4774142042")) = true
  /\ searchByIsbnOpenBD fetchO "4774142042" = Ret None.
Proof.
  intros fetchO. split; [reflexivity |].
  apply (proj1 (registry_without_record fetchO (fun _ => NetworkError) "4774142042")).
  reflexivity.
Defined.

(** *** Merge precedence *)

Lemma fills_if {A : Type} (missing available : bool) (base other : A) :
  fills missing available base other
        (if missing && available then other else base).
Proof. unfold fills. destruct missing, available; repeat split; congruence. Qed.

Ltac supplement_cases :=
  unfold supplement;
  repeat match goal with
         | |- context [if ?c then _ else _] => destruct c
         end;
  reflexivity.

Lemma supplement_thumbnail o g :
  r_thumbnail (supplement o g)
  = if negb (JS.truthy_opt (r_thumbnail o)) && JS.truthy_opt (r_thumbnail g)
    then r_thumbnail g else r_thumbnail o.
Proof. supplement_cases. Qed.

Lemma supplement_description o g :
  r_description (supplement o g)
  = if negb (JS.truthy_opt (r_description o)) && JS.truthy_opt (r_description g)
    then r_description g else r_description o.
Proof.
  unfold supplement.
  destruct (negb (JS.truthy_opt (r_thumbnail o)) && JS.truthy_opt (r_thumbnail g));
    cbn [set_thumbnail r_description];
    repeat match goal with
           | |- context [if ?c then _ else _] => destruct c
           end; reflexivity.
Qed.

Lemma supplement_pageCount o g :
  r_pageCount (supplement o g)
  = if (r_pageCount o =? 0) && negb (r_pageCount g =? 0)
    then r_pageCount g else r_pageCount o.
Proof.
  unfold supplement.
  destruct (negb (JS.truthy_opt (r_thumbnail o)) && JS.truthy_opt (r_thumbnail g));
    cbn [set_thumbnail r_description];
    match goal with
    | |- context [if ?c then set_description _ _ else _] => destruct c
    end; cbn [set_thumbnail set_description r_pageCount];
    repeat match goal with
           | |- context [if ?c then _ else _] => destruct c
           end; reflexivity.
Qed.

Lemma supplement_publishedDate o g :
  r_publishedDate (supplement o g)
  = if (negb (JS.nonempty (r_publishedDate o))
        || (JS.length (r_publishedDate o) <=? 4)%nat)
       && JS.nonempty (r_publishedDate g)
    then r_publishedDate g else r_publishedDate o.
Proof.
  unfold supplement.
  destruct (negb (JS.truthy_opt (r_thumbnail o)) && JS.truthy_opt (r_thumbnail g));
    cbn [set_thumbnail r_description];
    match goal with
    | |- context [if ?c then set_description _ _ else _] => destruct c
    end; cbn [set_thumbnail set_description r_pageCount];
    match goal with
    | |- context [if ?c then set_pageCount _ _ else _] => destruct c
    end; cbn [set_thumbnail set_description set_pageCount r_publishedDate];
    repeat match goal with
           | |- context [if ?c then _ else _] => destruct c
           end; reflexivity.
Qed.

Lemma supplement_categories o g :
  r_categories (supplement o g)
  = if (List.length (r_categories o) =? 0)%nat
       && (0 <? List.length (r_categories g))%nat
    then r_categories g else r_categories o.
Proof.
  unfold supplement.
  destruct (negb (JS.truthy_opt (r_thumbnail o)) && JS.truthy_opt (r_thumbnail g));
    cbn [set_thumbnail r_description];
    match goal with
    | |- context [if ?c then set_description _ _ else _] => destruct c
    end; cbn [set_thumbnail set_description r_pageCount];
    match goal with
    | |- context [if ?c then set_pageCount _ _ else _] => destruct c
    end; cbn [set_thumbnail set_description set_pageCount r_publishedDate];
    match goal with
    | |- context [if ?c then set_publishedDate _ _ else _] => destruct c
    end;
    cbn [set_thumbnail set_description set_pageCount set_publishedDate r_categories];
    repeat match goal with
           | |- context [if ?c then _ else _] => destruct c
           end; reflexivity.
Qed.

Lemma supplement_identity o g :
  r_id (supplement o g) = r_id o /\ r_title (supplement o g) = r_title o
  /\ r_authors (supplement o g) = r_authors o.
Proof.
  unfold supplement.
  repeat match goal with
         | |- context [if ?c then _ else _] => destruct c
         end; repeat split.
Qed.

Lemma supplement_fields (o g : GoogleBookResult) :
  let m := supplement o g in
  r_id m = r_id o /\ r_title m = r_title o /\ r_authors m = r_authors o
  /\ fills (negb (JS.truthy_opt (r_thumbnail o))) (JS.truthy_opt (r_thumbnail g))
           (r_thumbnail o) (r_thumbnail g) (r_thumbnail m)
  /\ fills (negb (JS.truthy_opt (r_description o))) (JS.truthy_opt (r_description g))
           (r_description o) (r_description g) (r_description m)
  /\ fills (r_pageCount o =? 0) (negb (r_pageCount g =? 0))
           (r_pageCount o) (r_pageCount g) (r_pageCount m)
  /\ fills (List.length (r_categories o) =? 0)%nat
           (0 <? List.length (r_categories g))%nat
           (r_categories o) (r_categories g) (r_categories m)
  /\ fills (negb (JS.nonempty (r_publishedDate o))
            || (JS.length (r_publishedDate o) <=? 4)%nat)
           (JS.nonempty (r_publishedDate g))
           (r_publishedDate o) (r_publishedDate g) (r_publishedDate m).
Proof.
  intros m. subst m.
  destruct (supplement_identity o g) as (Hi & Ht & Ha).
  rewrite supplement_thumbnail, supplement_description, supplement_pageCount,
    supplement_categories, supplement_publishedDate.
  repeat (split; [first [assumption | apply fills_if] |]). apply fills_if.
Qed.

(** C1: when both sources have a result, [searchByIsbn] returns the
    registry result with [id], [title] and [authors] as they are;
    thumbnail, description, page count and categories come from the
    search result only where the registry has none (null, empty, zero)
    and the search result has one; the published date comes from the
    search result also when the registry's date has a [length] of at
    most four, counted in UTF-16 code units as the code counts.  So a
    non-empty registry description always stays. *)
Theorem searchByIsbn_merge fetchO fetchG isbn (o g : GoogleBookResult) :
  openBDPromise (searchByIsbnOpenBD fetchO isbn) = Some o ->
  googlePromise (fetchG isbn) = Found g ->
  exists m,
    searchByIsbn fetchO fetchG isbn = Ret (Some m)
    /\ r_id m = r_id o /\ r_title m = r_title o /\ r_authors m = r_authors o
    /\ fills (negb (JS.truthy_opt (r_thumbnail o))) (JS.truthy_opt (r_thumbnail g))
             (r_thumbnail o) (r_thumbnail g) (r_thumbnail m)
    /\ fills (negb (JS.truthy_opt (r_description o))) (JS.truthy_opt (r_description g))
             (r_description o) (r_description g) (r_description m)
    /\ fills (r_pageCount o =? 0) (negb (r_pageCount g =? 0))
             (r_pageCount o) (r_pageCount g) (r_pageCount m)
    /\ fills (List.length (r_categories o) =? 0)%nat
             (0 <? List.length (r_categories g))%nat
             (r_categories o) (r_categories g) (r_categories m)
    /\ fills (negb (JS.nonempty (r_publishedDate o))
              || (JS.length (r_publishedDate o) <=? 4)%nat)
             (JS.nonempty (r_publishedDate g))
             (r_publishedDate o) (r_publishedDate g) (r_publishedDate m)
    /\ (JS.truthy_opt (r_description o) = true ->
        r_description m = r_description o).
Proof.
  intros Ho Hg. exists (supplement o g).
  unfold searchByIsbn. rewrite Ho, Hg. cbn [settle].
  split; [reflexivity |].
  pose proof (supplement_fields o g) as (H1 & H2 & H3 & H4 & H5 & H6 & H7 & H8).
  repeat (split; [assumption |]).
  intros Hd. destruct H5 as [H5 _]. apply H5. rewrite Hd. reflexivity.
Qed.

Lemma searchByIsbn_merge_witness :
  exists m,
    searchByIsbn (fun _ => Sample.registryFound) (fun _ => Sample.volumesFound)
                 "4774142042" = Ret (Some m)
    /\ r_thumbnail m = Some "http://img/1"
    /\ r_publishedDate m = "2010-04-01"
    /\ r_description m = Some "About"
    /\ r_pageCount m = 250.
Proof.
  destruct (searchByIsbn_merge
              (fun _ => Sample.registryFound) (fun _ => Sample.volumesFound)
              "4774142042" _ _ eq_refl eq_refl)
    as (m & Hm & _ & _ & _ & Ht & Hd & Hp & _ & Hpd & _).
  exists m. split; [exact Hm |].
  destruct Ht as (_ & _ & Ht). destruct Hd as (Hd & _).
  destruct Hp as (Hp & _). destruct Hpd as (_ & _ & Hpd).
  repeat split.
  - exact (Ht eq_refl eq_refl).
  - exact (Hpd eq_refl eq_refl).
  - exact (Hd eq_refl).
  - exact (Hp eq_refl).
Defined.

(** A registry date of four characters that are not all ASCII: ten
    bytes, four code units.  The merge takes the date of the search
    result; a date of five code units stays. *)
Example merge_short_date :
  let o (date : string) :=
    {| r_id := "9784774142043"; r_title := "Nyumon"; r_authors := ["Yamada"];
       r_categories := []; r_publishedDate := date; r_pageCount := 250;
       r_thumbnail := None; r_description := Some "About" |} in
  let g := mapVolumeToResult Sample.volume in
  String.length "令和2年" = 10%nat
  /\ JS.length "令和2年" = 4%nat
  /\ r_publishedDate (supplement (o "令和2年") g) = "2010-04-01"
  /\ JS.length "令和12年" = 5%nat
  /\ r_publishedDate (supplement (o "令和12年") g) = "令和12年".
Proof. vm_compute. repeat split. Qed.

(** *** The registry has nothing *)

(** C4: with no registry result, [searchByIsbn] returns the
    general-search result when there is one; it raises the rate-limit
    condition exactly when the general-search response has status 429;
    and it returns [null] after any other failure of the general
    search: no response, another non-success status, a body that is not
    JSON, no item list or an empty one. *)
Theorem searchByIsbn_registry_absent fetchO fetchG isbn :
  openBDPromise (searchByIsbnOpenBD fetchO isbn) = None ->
  (forall status data item rest,
      fetchG isbn = Response status (Some data) ->
      ok status = true -> items data = Some (item :: rest) ->
      searchByIsbn fetchO fetchG isbn = Ret (Some (mapVolumeToResult item)))
  /\ (searchByIsbn fetchO fetchG isbn = ThrowRateLimit
      <-> exists json, fetchG isbn = Response 429 json)
  /\ (fetchG isbn = NetworkError -> searchByIsbn fetchO fetchG isbn = Ret None)
  /\ (forall status json,
        fetchG isbn = Response status json ->
        status <> 429 -> ok status = false ->
        searchByIsbn fetchO fetchG isbn = Ret None)
  /\ (forall status json,
        fetchG isbn = Response status json ->
        status <> 429 ->
        json = None \/ (exists data, json = Some data
                                     /\ (items data = None \/ items data = Some [])) ->
        searchByIsbn fetchO fetchG isbn = Ret None).
Proof.
  intros Ho. unfold searchByIsbn. rewrite Ho.
  unfold googlePromise, googleThen.
  destruct (fetchG isbn) as [| status json] eqn:Hf.
  - repeat split; try discriminate; try reflexivity.
    intros [json Hj]. discriminate Hj.
  - destruct (status =? 429) eqn:H429.
    + apply Z.eqb_eq in H429. subst status.
      repeat split; try reflexivity; try discriminate.
      * intros status data item rest Heq Hok. inversion Heq; subst.
        discriminate Hok.
      * intros _. exists json. reflexivity.
      * intros status json' Heq Hne. inversion Heq; subst. congruence.
      * intros status json' Heq Hne. inversion Heq; subst. congruence.
    + apply Z.eqb_neq in H429.
      repeat split.
      * intros status' data item rest Heq Hok Hit. inversion Heq; subst.
        rewrite Hok, Hit. reflexivity.
      * destruct (negb (ok status)); [discriminate |].
        destruct json as [data |]; [| discriminate].
        destruct (items data) as [[| item rest] |]; discriminate.
      * intros [json' Heq]. inversion Heq; subst. congruence.
      * discriminate.
      * intros status' json' Heq _ Hok. inversion Heq; subst.
        rewrite Hok. reflexivity.
      * intros status' json' Heq _ Hcase. inversion Heq; subst.
        destruct (negb (ok status')); [reflexivity |].
        destruct Hcase as [-> | (data & -> & [-> | ->])]; reflexivity.
Qed.

Lemma searchByIsbn_registry_absent_witness :
  openBDPromise (searchByIsbnOpenBD (fun _ => Sample.registryNotFound) "4774142042")
  = None
  /\ searchByIsbn (fun _ => Sample.registryNotFound) (fun _ => Sample.quotaExceeded)
                  "4774142042" = ThrowRateLimit.
Proof.
  split; [reflexivity |].
  apply (proj1 (proj2 (searchByIsbn_registry_absent
                         (fun _ => Sample.registryNotFound)
                         (fun _ => Sample.quotaExceeded) "4774142042" eq_refl))).
  exists None. reflexivity.
Defined.

End MergeFacts.

(** ** The scheduler *)

Module SchedulerFacts.
Import Storage Scheduler.

(** *** The store's read and patch operations *)

(** A record of the interface is stored in its own shape: the read
    path has nothing to fill in, and only the genre migration is left. *)
Lemma current_plain (b : Book) : current (plain b) = b.
Proof. destruct b. reflexivity. Qed.

Lemma outdated_plain (b : Book) : outdated (plain b) = false.
Proof. reflexivity. Qed.

Lemma migrateBook_plain P (b : Book) : migrateBook P (plain b) = migrateGenre P b.
Proof.
  unfold migrateBook. rewrite current_plain, outdated_plain.
  destruct (migrateGenre P b) as [book m]. reflexivity.
Qed.

Lemma getBooks_slots P st :
  st_lastRun (snd (getBooks P st)) = st_lastRun st
  /\ st_noData (snd (getBooks P st)) = st_noData st
  /\ st_now (snd (getBooks P st)) = st_now st
  /\ st_trace (snd (getBooks P st)) = st_trace st.
Proof.
  unfold getBooks. destruct (st_books st) as [data |]; [| repeat split].
  destruct (migrate P data) as [books [|]]; repeat split.
Qed.








(** A run, step by step. *)
Lemma run_unfold P st :
  run P st
  = let current := fst (getBooks P st) in
    let st1 := snd (getBooks P st) in
    let noData := purge (st_now st1) (getNoDataSet st1) in
    let r1 := phase1 P (needsIsbnLookup (st_now st1) noData current) st1 noData false in
    let a := if snd r1 then getBooks P (fst (fst r1)) else (current, fst (fst r1)) in
    let r2 := phase2 P (needsGoogle (st_now (snd a)) (snd (fst r1)) (fst a))
                     (snd a) (snd (fst r1)) (snd r1) in
    finish P r2.
Proof.
  unfold run, finish. destruct (getBooks P st) as [current st1]. cbn [fst snd].
  destruct (phase1 P _ st1 _ false) as [[st2 nd2] u2]. cbn [fst snd].
  destruct (if u2 then getBooks P st2 else (current, st2)) as [after st3].
  cbn [fst snd]. destruct (phase2 P _ st3 nd2 u2) as [[st4 nd4] u4]. reflexivity.
Qed.

Lemma finish_persists P r :
  st_lastRun (finish P r) = StampMillis (st_now (finish P r))
  /\ st_noData (finish P r) = CacheJson (snd (fst r)).
Proof.
  destruct r as [[st nd] u]. unfold finish. cbn [fst snd]. destruct u.
  - pose proof (getBooks_slots P (persist st nd)) as (H1 & H2 & H3 & _).
    rewrite H1, H2, H3. split; reflexivity.
  - split; reflexivity.
Qed.

(** Every run that passes the cooldown check ends by writing the
    cache and the time of its end. *)
Lemma run_persists P st :
  st_lastRun (run P st) = StampMillis (st_now (run P st))
  /\ exists noData, st_noData (run P st) = CacheJson noData.
Proof.
  rewrite run_unfold. cbn zeta.
  match goal with
  | |- context [finish P ?r] => destruct (finish_persists P r) as [H1 H2]
  end.
  split; [exact H1 | eexists; exact H2].
Qed.

(** *** Cooldown *)

Lemma cooldown_millis st t :
  st_lastRun st = StampMillis t ->
  cooldown st = (st_now st - t <? ONE_DAY).
Proof. intros H. unfold cooldown. rewrite H. reflexivity. Qed.

(** C3: a run that finds a last-run timestamp less than 24 hours old
    returns at the cooldown check and changes nothing: not the record
    store, not the negative-result cache, not the timestamp.  So after
    a run that went past the check, a second run started less than
    24 hours after the end of the first changes nothing. *)
Theorem cooldown_noop P st t :
  st_lastRun st = StampMillis t ->
  st_now st - t < ONE_DAY ->
  backfillBookData P st = st
  /\ (forall Q st0 later,
        cooldown st0 = false ->
        later - st_now (backfillBookData Q st0) < ONE_DAY ->
        backfillBookData P (atTime (backfillBookData Q st0) later)
        = atTime (backfillBookData Q st0) later).
Proof.
  intros Hts Hage. split.
  - unfold backfillBookData. rewrite (cooldown_millis st t Hts).
    apply Z.ltb_lt in Hage. rewrite Hage. reflexivity.
  - intros Q st0 later Hcool Hlater.
    unfold backfillBookData at 2 3. unfold backfillBookData in Hlater.
    rewrite Hcool in *.
    destruct (run_persists Q st0) as [Hstamp _].
    unfold backfillBookData.
    rewrite (cooldown_millis (atTime (run Q st0) later) _ Hstamp).
    cbn [atTime st_now]. apply Z.ltb_lt in Hlater. rewrite Hlater. reflexivity.
Qed.

Lemma cooldown_noop_witness :
  let st := mkState (Some []) (StampMillis 1000) CacheAbsent 5000 [] in
  let P := Sample.offline in
  st_lastRun st = StampMillis 1000
  /\ st_now st - 1000 < ONE_DAY
  /\ backfillBookData P st = st.
Proof.
  intros st P. split; [reflexivity |]. split; [reflexivity |].
  exact (proj1 (cooldown_noop P st 1000 eq_refl eq_refl)).
Defined.

(** *** Corrupt scheduler state *)





(** *** The candidates of Phase 1 *)

(** The non-null assertion in the loop of Phase 1 holds: the filter has
    kept only books with an identifier that starts with a digit. *)
Lemma needsIsbn_asin now (noData : gmap string Z) b :
  needsIsbn now noData b = true ->
  exists asin, Amazon.extractAsin (purchaseUrl b) = Some asin
               /\ Amazon.isLikelyIsbn asin = true.
Proof.
  unfold needsIsbn. destruct (shouldSkip now noData (id b)); [discriminate |].
  destruct (negb (JS.nonempty (purchaseUrl b))); [discriminate |].
  destruct (Amazon.extractAsin (purchaseUrl b)) as [asin |]; [| discriminate].
  destruct (Amazon.isLikelyIsbn asin) eqn:E; [| discriminate].
  intros _. exists asin. split; [reflexivity | exact E].
Qed.

(** The end-to-end example of the specification: a book with an ISBN
    link, no page count and no description; the registry has 250 pages
    and a long description with markup.  The record is patched and no
    cache entry is made for it. *)
Example backfill_end_to_end :
  let st := mkState (Some [plain Sample.book]) StampAbsent CacheAbsent 1000000 [] in
  let st' := backfillBookData Sample.bothPlatform st in
  (map s_pageCount <$> st_books st') = Some [Some 250]
  /\ (map s_description <$> st_books st') = Some [Some "About"]
  /\ (map s_published <$> st_books st') = Some [Date "2010-04-01"]
  /\ (map s_thumbnail <$> st_books st') = Some [Some (Some "http://img/1")]
  /\ st_noData st' = CacheJson ∅.
Proof. vm_compute. repeat split. Qed.

(** *** The negative-result cache *)



Lemma In_take {A : Type} (x : A) (n : nat) (l : list A) :
  In x (take n l) -> In x l.
Proof.
  revert l. induction n as [| n IH]; intros [| a l]; cbn; try tauto.
  intros [-> | H]; [left; reflexivity | right; apply IH; exact H].
Qed.

Lemma pageCount_zero_missing b : pageCount b = 0 -> isMissingData b = true.
Proof. intros H. unfold isMissingData. rewrite H. reflexivity. Qed.

(** The lists of the stages are the lists a run loops over. *)
Lemma run_stages P st :
  run P st
  = finish P (phase2 P (phase2Candidates P st) (snd (reread P st))
                     (phase2Cache P st) (snd (afterPhase1 P st))).
Proof. rewrite run_unfold. reflexivity. Qed.







(** The cap of Phase 2.  Thirty-one records with a title and no page
    count, and for the last of them an entry that is purged: all pass
    the filter of Phase 2, and the last is not a candidate. *)
Example phase2_cap :
  let entry (n : nat) :=
    {| id := String (ascii_of_nat (65 + n)%nat) EmptyString;
       title := "Kokoro"; author := "Natsume";
       genre := EmptyString; publishedDate := EmptyString;
       status := tsundoku; pageCount := 0; rating := 0;
       memo := EmptyString; description := EmptyString; thumbnail := None;
       purchaseUrl := EmptyString; finishedDate := None;
       createdAt := "2024-01-01T00:00:00.000Z";
       updatedAt := "2024-01-01T00:00:00.000Z" |} in
  let now := 8 * ONE_DAY in
  let st := mkState (Some (plain <$> map entry (List.seq 0%nat 31%nat))) StampAbsent
                    (CacheJson {[ id (entry 30%nat) := 1000 ]}) now [] in
  (SEVEN_DAYS <=? st_now st - 1000) = true
  /\ purged Sample.offline st !! id (entry 30%nat) = None
  /\ List.length (phase2Eligible Sample.offline st) = 31%nat
  /\ existsb (String.eqb (id (entry 30%nat)))
             (map id (phase2Eligible Sample.offline st)) = true
  /\ existsb (String.eqb (id (entry 30%nat)))
             (map id (phase2Candidates Sample.offline st)) = false.
Proof. vm_compute. repeat split. Qed.

(** *** The frame of a run *)

Lemma sameFrame_refl b : sameFrame b b.
Proof. repeat split. Qed.

Lemma sameFrame_trans a b c : sameFrame a b -> sameFrame b c -> sameFrame a c.
Proof.
  unfold sameFrame. intros (A1 & A2 & A3 & A4 & A5 & A6 & A7 & A8 & A9)
                           (B1 & B2 & B3 & B4 & B5 & B6 & B7 & B8 & B9).
  repeat split; congruence.
Qed.


Lemma storedFrame_trans a b c :
  storedFrame a b -> storedFrame b c -> storedFrame a c.
Proof.
  unfold storedFrame.
  intros (A1 & A2 & A3 & A4 & A5 & A6 & A7 & A8 & A9)
         (B1 & B2 & B3 & B4 & B5 & B6 & B7 & B8 & B9).
  repeat split; try congruence.
  - destruct A8 as [A8 | [A8 A8']], B8 as [B8 | [B8 B8']];
      first [left; congruence | right; split; congruence].
  - destruct A9 as [A9 | [A9 A9']], B9 as [B9 | [B9 B9']];
      first [left; congruence | right; split; congruence].
Qed.







(** Two books that agree on the frame are stored as records that do. *)
Lemma plain_frame b b' : sameFrame b b' -> storedFrame (plain b) (plain b').
Proof.
  intros (H1 & H2 & H3 & H4 & H5 & H6 & H7 & H8 & H9).
  unfold storedFrame, plain. cbn.
  rewrite H1, H2, H3, H4, H5, H6, H7, H8, H9. repeat split; left; reflexivity.
Qed.

(** Bringing a record to the shape of the interface touches the frame
    at the status ["unread"] and at an absent link only. *)
Lemma current_frame raw : storedFrame raw (plain (current raw)).
Proof.
  unfold storedFrame, plain, current. cbn. repeat split.
  - destruct (s_status raw); [right; split; reflexivity | left; reflexivity].
  - destruct (s_purchaseUrl raw); [left; reflexivity | right; split; reflexivity].
Qed.

Lemma migrateGenre_frame P b : sameFrame b (fst (migrateGenre P b)).
Proof.
  unfold migrateGenre.
  destruct (JS.nonempty (genre b) && negb (inb (genre b) GENRE_OPTIONS));
    [| apply sameFrame_refl].
  destruct (Genre.mapCategoryToGenre (toLowerCase P) [genre b]) as [mapped | name];
    [| apply sameFrame_refl].
  destruct (inb mapped GENRE_OPTIONS); [| apply sameFrame_refl].
  repeat split.
Qed.

Lemma migrateBook_frame P raw : storedFrame raw (plain (fst (migrateBook P raw))).
Proof.
  unfold migrateBook. pose proof (migrateGenre_frame P (current raw)) as H.
  destruct (migrateGenre P (current raw)) as [book m]. cbn [fst] in *.
  eapply storedFrame_trans; [apply current_frame | apply plain_frame; exact H].
Qed.



















(** *** Quota in Phase 1 *)

(** Quota on the first candidate of Phase 1, and a request of Phase 2
    after it. *)
Lemma quota_in_phase1_then_phase2_request :
  let st := mkState (Some [plain Sample.book]) StampAbsent CacheAbsent 1000000 [] in
  needsIsbnLookup (st_now st) (purge (st_now st) (getNoDataSet st)) [Sample.book]
  = [Sample.book]
  /\ fst (awaitSearchByIsbn Sample.quotaPlatform st "4774142042") = ThrowRateLimit
  /\ st_trace (backfillBookData Sample.quotaPlatform st)
     = [ Requested (GetVolumesByIsbn "4774142042");
         Requested (GetOpenBD "9784774142043");
         Requested (GetVolumes "Nyumon Yamada") ].
Proof. vm_compute. repeat split. Qed.

(** The merge with the general search at its quota: the registry
    result if there is one, the rate-limit condition if not. *)
Lemma settle_quota (o : option GoogleBookResult) :
  GoogleBooks.settle o GoogleBooks.RATE_LIMITED
  = match o with Some r => Ret (Some r) | None => ThrowRateLimit end.
Proof. destruct o; reflexivity. Qed.

Lemma awaitSearchByIsbn_quota P st asin body :
  fetchVolumesByIsbn P (st_trace st) asin = Response 429 body ->
  fst (awaitSearchByIsbn P st asin)
  = match GoogleBooks.openBDPromise
            (OpenBDApi.searchByIsbnOpenBD (fetchOpenBD P (st_trace st)) asin) with
    | Some r => Ret (Some r)
    | None => ThrowRateLimit
    end.
Proof.
  intros H. unfold awaitSearchByIsbn. cbn [fst]. unfold GoogleBooks.searchByIsbn.
  rewrite H. apply settle_quota.
Qed.

(** C2, as the code has it.  The general search answers the lookup of
    the first Phase-1 candidate with the quota status.  When the
    registry gives no record for it, the lookup raises the rate-limit
    condition and Phase 1 ends there: no other Phase-1 candidate is
    looked up, and Phase 1 has changed neither the records nor the
    cache; Phase 2 then selects and runs over its own candidates, and
    the run ends by writing the cache and the time.  When
    the registry gives a record, the merge absorbs the quota status:
    Phase 1 treats the registry record as the result and goes on with
    its other candidates. *)
Theorem phase1_quota_abort P st book rest asin body :
  cooldown st = false ->
  phase1Candidates P st = book :: rest ->
  Amazon.extractAsin (purchaseUrl book) = Some asin ->
  let st1 := snd (getBooks P st) in
  fetchVolumesByIsbn P (st_trace st1) asin = Response 429 body ->
  let registry :=
    GoogleBooks.openBDPromise
      (OpenBDApi.searchByIsbnOpenBD (fetchOpenBD P (st_trace st1)) asin) in
  let st2 := snd (awaitSearchByIsbn P st1 asin) in
  (registry = None ->
     afterPhase1 P st = (st2, purged P st, false)
     /\ st_trace st2
        = (st_trace st ++ [ Requested (GetVolumesByIsbn asin);
                            Requested (GetOpenBD (OpenBDApi.isbn13_of asin)) ])%list
     /\ st_books st2 = st_books st1
     /\ phase2Candidates P st
        = needsGoogle (st_now st2) (purged P st) (fst (getBooks P st))
     /\ backfillBookData P st
        = finish P (phase2 P (phase2Candidates P st) st2 (purged P st) false)
     /\ st_lastRun (backfillBookData P st)
        = StampMillis (st_now (backfillBookData P st))
     /\ exists noData, st_noData (backfillBookData P st) = CacheJson noData)
  /\ (forall o, registry = Some o ->
        afterPhase1 P st
        = if hasKeys (updatesFor P book o)
          then phase1 P rest (updateBook P (id book) (updatesFor P book o) st2)
                      (purged P st) true
          else phase1 P rest st2
                      (markNoData (st_now st2) (purged P st) (id book)) false).
Proof.
  intros Hcool Hcands Hasin st1 Hquota registry st2.
  pose proof (awaitSearchByIsbn_quota P st1 asin body Hquota) as Hres.
  fold registry in Hres.
  assert (afterPhase1 P st
          = let '(res, st') := awaitSearchByIsbn P st1 asin in
            match res with
            | ThrowRateLimit => (st', purged P st, false)
            | ThrowOther => phase1 P rest st' (purged P st) false
            | Ret None =>
                phase1 P rest st' (markNoData (st_now st') (purged P st) (id book)) false
            | Ret (Some result) =>
                if hasKeys (updatesFor P book result)
                then phase1 P rest (updateBook P (id book) (updatesFor P book result) st')
                            (purged P st) true
                else phase1 P rest st'
                            (markNoData (st_now st') (purged P st) (id book)) false
            end) as Hstep.
  { unfold afterPhase1. rewrite Hcands. cbn [phase1]. rewrite Hasin. reflexivity. }
  subst st2. destruct (awaitSearchByIsbn P st1 asin) as [res st'] eqn:Ha.
  cbn [fst snd] in *.
  split.
  - intros Hnone. rewrite Hnone in Hres. rewrite Hres in Hstep.
    assert (reread P st = (fst (getBooks P st), st')) as Hre
        by (unfold reread; cbv zeta; rewrite Hstep; reflexivity).
    assert (phase2Candidates P st
            = needsGoogle (st_now st') (purged P st) (fst (getBooks P st))) as Hc2.
    { unfold phase2Candidates, phase2Eligible, phase2Time, phase2Cache.
      rewrite Hre, Hstep. reflexivity. }
    split; [exact Hstep |]. split.
    { pose proof (f_equal snd Ha) as Hs. cbn [snd] in Hs. rewrite <- Hs.
      unfold awaitSearchByIsbn. cbn [snd advance record st_trace].
      pose proof (getBooks_slots P st) as (_ & _ & _ & Ht). fold st1 in Ht.
      rewrite Ht. reflexivity. }
    split.
    { pose proof (f_equal snd Ha) as Hs. cbn [snd] in Hs. rewrite <- Hs. reflexivity. }
    split; [exact Hc2 |]. split.
    { unfold backfillBookData. rewrite Hcool, run_stages.
      unfold phase2Cache. rewrite Hre, Hstep. reflexivity. }
    unfold backfillBookData. rewrite Hcool. apply run_persists.
  - intros o Ho. rewrite Ho in Hres. rewrite Hres in Hstep. exact Hstep.
Qed.

Lemma phase1_quota_abort_witness :
  let second :=
    {| id := "b4"; title := "Sanshiro"; author := "Natsume";
       genre := EmptyString; publishedDate := EmptyString;
       status := tsundoku; pageCount := 0; rating := 0;
       memo := EmptyString; description := EmptyString; thumbnail := None;
       purchaseUrl := "https://www.amazon.co.jp/dp/4101010048";
       finishedDate := None;
       createdAt := "2024-01-01T00:00:00.000Z";
       updatedAt := "2024-01-01T00:00:00.000Z" |} in
  let st := mkState (Some [plain Sample.book; plain second])
                    StampAbsent CacheAbsent 1000000 [] in
  let P := Sample.quotaPlatform in
  cooldown st = false
  /\ phase1Candidates P st = [Sample.book; second]
  /\ st_trace (fst (fst (afterPhase1 P st)))
     = [ Requested (GetVolumesByIsbn "4774142042");
         Requested (GetOpenBD (OpenBDApi.isbn13_of "4774142042")) ]
  /\ st_lastRun (backfillBookData P st) = StampMillis (st_now (backfillBookData P st)).
Proof.
  intros second st P.
  assert (phase1Candidates P st = [Sample.book; second]) as Hc
      by (vm_compute; reflexivity).
  split; [reflexivity |]. split; [exact Hc |].
  destruct (phase1_quota_abort P st Sample.book [second] "4774142042" None
              eq_refl Hc eq_refl eq_refl)
    as (Hquota & _).
  destruct (Hquota eq_refl) as (H1 & H2 & _ & _ & _ & Hstamp & _).
  split; [rewrite H1; exact H2 | exact Hstamp].
Defined.

(** The same store when the registry has the first book: the quota
    status of the general search is absorbed, the record is patched
    from the registry, and Phase 1 goes on to its second candidate. *)
Example quota_absorbed_by_registry :
  let second :=
    {| id := "b4"; title := "Sanshiro"; author := "Natsume";
       genre := EmptyString; publishedDate := EmptyString;
       status := tsundoku; pageCount := 0; rating := 0;
       memo := EmptyString; description := EmptyString; thumbnail := None;
       purchaseUrl := "https://www.amazon.co.jp/dp/4101010048";
       finishedDate := None;
       createdAt := "2024-01-01T00:00:00.000Z";
       updatedAt := "2024-01-01T00:00:00.000Z" |} in
  let st := mkState (Some [plain Sample.book; plain second])
                    StampAbsent CacheAbsent 1000000 [] in
  let P :=
    {| toLowerCase := Genre.ascii_toLowerCase;
       toISOString := fun _ => "2024-06-01T00:00:00.000Z";
       fetchOpenBD := fun _ _ => Sample.registryFound;
       fetchVolumesByIsbn := fun _ _ => Sample.quotaExceeded;
       fetchVolumes := fun _ _ => Sample.quotaExceeded;
       elapsed := fun _ => 120 |} in
  List.filter (fun e => match e with Requested _ => true | _ => false end)
              (st_trace (fst (fst (afterPhase1 P st))))
  = [ Requested (GetVolumesByIsbn "4774142042");
      Requested (GetOpenBD "9784774142043");
      Requested (GetVolumesByIsbn "4101010048");
      Requested (GetOpenBD "9784101010045") ]
  /\ (map s_pageCount <$> st_books (fst (fst (afterPhase1 P st))))
     = Some [Some 250; Some 250].
Proof. vm_compute. repeat split. Qed.

End SchedulerFacts.

(* ================================================================== *)
(** * Further properties of the code *)
(* ================================================================== *)

(** ** The registry adapter *)

Module RegistryFacts.
Import OpenBDApi Markup.

(** Stripping only removes characters. *)
Lemma strip_has_gt inside s : has_gt (strip inside s) = true -> has_gt s = true.
Proof.
  revert inside. induction s as [| c s IH]; intros inside; cbn [strip has_gt];
    [destruct inside; discriminate |].
  destruct inside.
  - intros H. apply IH in H. rewrite H. apply orb_true_r.
  - destruct (Ascii.eqb c "<" && has_gt s) eqn:E.
    + intros H. apply IH in H. rewrite H. apply orb_true_r.
    + cbn [has_gt]. destruct (Ascii.eqb c ">"); [reflexivity |].
      cbn [orb]. apply IH.
Qed.

Lemma strip_no_tag inside s : has_tag (strip inside s) = false.
Proof.
  revert inside. induction s as [| c s IH]; intros inside; cbn [strip];
    [destruct inside; reflexivity |].
  destruct inside; [apply IH |].
  destruct (Ascii.eqb c "<" && has_gt s) eqn:E; [apply IH |].
  cbn [has_tag]. rewrite IH, orb_false_r.
  destruct (Ascii.eqb c "<"); [| reflexivity]. cbn [andb] in *.
  destruct (has_gt (strip false s)) eqn:G; [| reflexivity].
  apply strip_has_gt in G. congruence.
Qed.

Lemma strip_without_tag s : has_tag s = false -> strip false s = s.
Proof.
  induction s as [| c s IH]; [reflexivity |]. cbn [has_tag strip].
  intros H. apply orb_false_iff in H as [H1 H2]. rewrite H1, (IH H2). reflexivity.
Qed.

(** X1: after [text.replace(/<[^>]*>/g, ...)] no tag is left in the
    description, and stripping a stripped text changes nothing. *)
Theorem stripTags_clean (s : string) :
  has_tag (stripTags s) = false
  /\ stripTags (stripTags s) = stripTags s.
Proof.
  unfold stripTags. split; [apply strip_no_tag |].
  apply strip_without_tag, strip_no_tag.
Qed.

Lemma inb_In x l : Storage.inb x l = true -> In x l.
Proof.
  unfold Storage.inb. intros H. apply existsb_exists in H as (y & Hy & He).
  apply String.eqb_eq in He. subst y. exact Hy.
Qed.

Lemma CCODE_GENRE_MAP_labels :
  forallb (fun kv => Storage.inb (snd kv) GENRE_OPTIONS) CCODE_GENRE_MAP = true.
Proof. vm_compute. reflexivity. Qed.

Lemma table_get_In (table : list (string * string)) key v :
  table_get table key = Some v -> In (key, v) table.
Proof.
  induction table as [| [k w] table IH]; cbn [table_get]; [discriminate |].
  destruct (String.eqb k key) eqn:E.
  - intros [= <-]. apply String.eqb_eq in E. subst k. left. reflexivity.
  - intros H. right. apply IH. exact H.
Qed.

Lemma CCODE_label_valid key g :
  table_get CCODE_GENRE_MAP key = Some g -> In g GENRE_OPTIONS.
Proof.
  intros H. apply table_get_In in H.
  pose proof CCODE_GENRE_MAP_labels as Hall.
  rewrite forallb_forall in Hall. apply inb_In. exact (Hall _ H).
Qed.

Lemma genreFromCCode_label (subjects : list OpenBDSubject) :
  genreFromCCode subjects = EmptyString
  \/ In (genreFromCCode subjects) GENRE_OPTIONS.
Proof.
  induction subjects as [| sub rest IH]; [left; reflexivity |].
  cbn [genreFromCCode].
  destruct (String.eqb (SubjectSchemeIdentifier sub) "78"); cbn [andb];
    [| exact IH].
  destruct (JS.nonempty (SubjectCode sub)); cbn [andb]; [| exact IH].
  destruct (4 <=? String.length (SubjectCode sub))%nat; [| exact IH].
  destruct (table_get CCODE_GENRE_MAP (JS.slice_last 2 (SubjectCode sub)))
    as [g |] eqn:E4; [| exact IH].
  destruct (JS.nonempty g); [| exact IH].
  right. exact (CCODE_label_valid _ _ E4).
Qed.

(** X2: the genre read from the subject codes is either empty or a
    label of the closed vocabulary [GENRE_OPTIONS], and then it is the
    label of a C-code subject (scheme 78, at least four characters)
    under the last two characters of its code. *)
Theorem genreFromCCode_valid (subjects : list OpenBDSubject) :
  genreFromCCode subjects = EmptyString
  \/ (In (genreFromCCode subjects) GENRE_OPTIONS
      /\ exists sub,
           In sub subjects
           /\ SubjectSchemeIdentifier sub = "78"
           /\ (4 <= String.length (SubjectCode sub))%nat
           /\ table_get CCODE_GENRE_MAP (JS.slice_last 2 (SubjectCode sub))
              = Some (genreFromCCode subjects)).
Proof.
  induction subjects as [| sub rest IH]; [left; reflexivity |].
  cbn [genreFromCCode].
  assert (genreFromCCode rest = EmptyString
          \/ In (genreFromCCode rest) GENRE_OPTIONS
             /\ (exists sub0 : OpenBDSubject,
                   In sub0 (sub :: rest)
                   /\ SubjectSchemeIdentifier sub0 = "78"
                   /\ (4 <= String.length (SubjectCode sub0))%nat
                   /\ table_get CCODE_GENRE_MAP (JS.slice_last 2 (SubjectCode sub0))
                      = Some (genreFromCCode rest))) as IH'.
  { destruct IH as [IH | (Hin & s0 & Hs0 & H)]; [left; exact IH |].
    right. split; [exact Hin |]. exists s0. split; [right; exact Hs0 | exact H]. }
  destruct (String.eqb (SubjectSchemeIdentifier sub) "78") eqn:E1; cbn [andb];
    [| exact IH'].
  destruct (JS.nonempty (SubjectCode sub)) eqn:E2; cbn [andb]; [| exact IH'].
  destruct (4 <=? String.length (SubjectCode sub))%nat eqn:E3; [| exact IH'].
  destruct (table_get CCODE_GENRE_MAP (JS.slice_last 2 (SubjectCode sub)))
    as [g |] eqn:E4; [| exact IH'].
  destruct (JS.nonempty g) eqn:E5; [| exact IH'].
  right. split; [exact (CCODE_label_valid _ _ E4) |].
  exists sub. split; [left; reflexivity |].
  apply String.eqb_eq in E1. apply Nat.leb_le in E3. repeat split; assumption.
Qed.

(** X3: a record the registry adapter returns has a non-empty title,
    the id ["openbd-"] followed by the 13-digit key, at most one author,
    at most one category and then one of [GENRE_OPTIONS], and a
    thumbnail that is either null or a non-empty text; and it comes from
    a response with a success status. *)
Theorem searchByIsbnOpenBD_result fetch isbn (r : GoogleBookResult) :
  searchByIsbnOpenBD fetch isbn = Ret (Some r) ->
  JS.nonempty (r_title r) = true
  /\ r_id r = "openbd-" ++ isbn13_of isbn
  /\ (List.length (r_authors r) <= 1)%nat
  /\ (r_categories r = [] \/ exists g, r_categories r = [g] /\ In g GENRE_OPTIONS)
  /\ (r_thumbnail r = None \/ JS.truthy_opt (r_thumbnail r) = true)
  /\ exists status json,
       fetch (isbn13_of isbn) = Response status json /\ ok status = true.
Proof.
  unfold searchByIsbnOpenBD.
  destruct (fetch (isbn13_of isbn)) as [| status json]; [discriminate |].
  destruct (ok status) eqn:Hok; cbn [negb]; [| discriminate].
  destruct json as [[[| [book |] rest] |] |]; try discriminate.
  unfold resultOfBook. destruct (summary book) as [s |]; [| discriminate].
  destruct (JS.truthy_opt (title s)) eqn:Ht; cbn [negb]; [| discriminate].
  intros [= <-]. cbn [r_title r_id r_authors r_categories r_thumbnail].
  repeat split.
  - destruct (title s) as [t |]; [exact Ht | discriminate Ht].
  - destruct (JS.truthy_opt (author s)); cbn; lia.
  - destruct (genreFromCCode_label (subjectsOf book)) as [-> | Hin];
      [left; reflexivity |].
    destruct (JS.nonempty (genreFromCCode (subjectsOf book)));
      [right; eexists; split; [reflexivity | exact Hin] | left; reflexivity].
  - destruct (JS.truthy_opt (cover s)) eqn:Hc; [right; exact Hc | left; reflexivity].
  - exists status, (Some (Some (Some book :: rest))). split; [reflexivity | exact Hok].
Qed.

Lemma searchByIsbnOpenBD_result_witness :
  exists r,
    searchByIsbnOpenBD (fun _ => Sample.registryFound) "4774142042" = Ret (Some r)
    /\ r_id r = "openbd-9784774142043"
    /\ r_thumbnail r = None.
Proof.
  eexists. split; [reflexivity |].
  destruct (searchByIsbnOpenBD_result (fun _ => Sample.registryFound)
              "4774142042" _ eq_refl) as (_ & Hid & _).
  split; [exact Hid | reflexivity].
Defined.

(** *** Dates and keys *)


Lemma length_app (s t : string) :
  String.length (s ++ t) = (String.length s + String.length t)%nat.
Proof.
  induction s as [| a s IH]; [reflexivity |].
  change (String a s ++ t)%string with (String a (s ++ t)%string).
  cbn [String.length]. rewrite IH. reflexivity.
Qed.



Lemma cleanIsbn_compact (s : string) : compact (cleanIsbn s) = true.
Proof.
  unfold compact. induction s as [| c s IH]; [reflexivity |]. cbn [cleanIsbn].
  destruct (Ascii.eqb c "-" || JS.is_space c) eqn:E; [exact IH |].
  cbn [list_ascii_of_string forallb]. rewrite E, IH. reflexivity.
Qed.

Lemma cleanIsbn_of_compact (s : string) : compact s = true -> cleanIsbn s = s.
Proof.
  unfold compact. induction s as [| c s IH]; [reflexivity |].
  cbn [list_ascii_of_string forallb cleanIsbn]. intros H.
  apply andb_true_iff in H as [H1 H2]. apply negb_true_iff in H1.
  rewrite H1, (IH H2). reflexivity.
Qed.

(** X5: the normalisation of the ISBN removes every hyphen and white
    space, does nothing more when applied again, and the request key of
    an input is the key of its normalised form. *)
Theorem isbn13_of_normalised (isbn : string) :
  compact (cleanIsbn isbn) = true
  /\ cleanIsbn (cleanIsbn isbn) = cleanIsbn isbn
  /\ isbn13_of (cleanIsbn isbn) = isbn13_of isbn.
Proof.
  pose proof (cleanIsbn_compact isbn) as Hc.
  pose proof (cleanIsbn_of_compact _ Hc) as Hi.
  repeat split; [exact Hc | exact Hi |].
  unfold isbn13_of. rewrite Hi. reflexivity.
Qed.

End RegistryFacts.

(** ** The general-search adapter and the classifier *)

Module SearchFacts.
Import Genre GoogleBooks.

Lemma CATEGORY_MAP_valid :
  forallb (fun kv => Storage.inb (snd kv) GENRE_OPTIONS) CATEGORY_MAP = true.
Proof. vm_compute. reflexivity. Qed.

Lemma In_inb x l : In x l -> Storage.inb x l = true.
Proof.
  intros H. unfold Storage.inb. apply existsb_exists. exists x.
  split; [exact H | apply String.eqb_refl].
Qed.

Lemma CATEGORY_label_valid k g : In (k, g) CATEGORY_MAP -> In g GENRE_OPTIONS.
Proof.
  intros H. pose proof CATEGORY_MAP_valid as Hall. rewrite forallb_forall in Hall.
  apply RegistryFacts.inb_In. exact (Hall _ H).
Qed.

Section Classifier.
Variable toLowerCase : string -> string.

Lemma partial_match_In entries cat v :
  partial_match toLowerCase entries cat = Some v -> exists k, In (k, v) entries.
Proof.
  induction entries as [| [k w] entries IH]; cbn [partial_match]; [discriminate |].
  destruct (includes (toLowerCase cat) (toLowerCase k)).
  - intros [= <-]. exists k. left. reflexivity.
  - intros H. destruct (IH H) as [k' Hk']. exists k'. right. exact Hk'.
Qed.

Lemma exact_match_In cat g :
  exact_match cat = Some (Text g) -> In (cat, g) CATEGORY_MAP.
Proof.
  unfold exact_match, object_get.
  destruct (table_get CATEGORY_MAP cat) as [v |] eqn:Hget.
  - destruct (JS.nonempty v); [| discriminate].
    intros [= <-]. apply RegistryFacts.table_get_In. exact Hget.
  - destruct (inherits cat); discriminate.
Qed.

Lemma exact_match_Inherited cat name :
  exact_match cat = Some (Inherited name) -> name = cat /\ inherits cat = true.
Proof.
  unfold exact_match, object_get.
  destruct (table_get CATEGORY_MAP cat) as [v |].
  - destruct (JS.nonempty v); discriminate.
  - destruct (inherits cat); [| discriminate]. intros [= <-]. split; reflexivity.
Qed.

Lemma category_loop_In categories g :
  category_loop toLowerCase categories = Some (Text g) ->
  exists k, In (k, g) CATEGORY_MAP.
Proof.
  induction categories as [| cat rest IH]; cbn [category_loop]; [discriminate |].
  destruct (exact_match cat) as [[v | name] |] eqn:He.
  - intros [= <-]. exists cat. exact (exact_match_In _ _ He).
  - discriminate.
  - destruct (partial_match toLowerCase CATEGORY_MAP cat) as [w |] eqn:Hp;
      [intros [= <-]; exact (partial_match_In _ _ _ Hp) | exact IH].
Qed.

Lemma category_loop_Inherited categories name :
  category_loop toLowerCase categories = Some (Inherited name) ->
  In name categories /\ inherits name = true.
Proof.
  induction categories as [| cat rest IH]; cbn [category_loop]; [discriminate |].
  destruct (exact_match cat) as [[v | n] |] eqn:He.
  - discriminate.
  - intros [= <-]. destruct (exact_match_Inherited _ _ He) as [-> Hi].
    split; [left; reflexivity | exact Hi].
  - destruct (partial_match toLowerCase CATEGORY_MAP cat) as [w |];
      [discriminate |].
    intros H. destruct (IH H) as [Hin Hi]. split; [right; exact Hin | exact Hi].
Qed.

(** When the loop finds nothing for a list, it finds nothing for its
    first category alone. *)
Lemma category_loop_first cat rest :
  category_loop toLowerCase (cat :: rest) = None ->
  category_loop toLowerCase [cat] = None.
Proof.
  cbn [category_loop].
  destruct (exact_match cat); [discriminate |].
  destruct (partial_match toLowerCase CATEGORY_MAP cat); [discriminate | reflexivity].
Qed.

(** X6: what [mapCategoryToGenre] returns for a list of categories.
    When it is a text, it is a label of the closed vocabulary
    [GENRE_OPTIONS]; or the list is empty and the text is; or it is the
    first category, which the classifier gives back when it classifies
    it on its own.  When it is no text, it is what the lookup found
    under one of the categories, the name of a property that the table
    inherits from [Object.prototype]. *)
Theorem mapCategoryToGenre_range (categories : list string) :
  match mapCategoryToGenre toLowerCase categories with
  | Text g =>
      In g GENRE_OPTIONS
      \/ (categories = [] /\ g = EmptyString)
      \/ (exists cat rest,
            categories = cat :: rest /\ g = cat
            /\ mapCategoryToGenre toLowerCase [cat] = Text cat)
  | Inherited name => In name categories /\ inherits name = true
  end.
Proof.
  unfold mapCategoryToGenre at 1.
  destruct (category_loop toLowerCase categories) as [[g | name] |] eqn:Hloop.
  - left. destruct (category_loop_In _ _ Hloop) as [k Hk].
    exact (CATEGORY_label_valid _ _ Hk).
  - exact (category_loop_Inherited _ _ Hloop).
  - right. destruct categories as [| cat rest]; [left; split; reflexivity |].
    right. exists cat, rest. repeat split.
    unfold mapCategoryToGenre. rewrite (category_loop_first _ _ Hloop). reflexivity.
Qed.

End Classifier.

(** Classifying a genre that the store holds after the classifier
    produced it gives no label of the vocabulary unless the genre is one
    already. *)
Lemma classified_genre_stable (P : Platform) (categories : list string) :
  let g := stored (mapCategoryToGenre (toLowerCase P) categories) in
  JS.nonempty g && negb (Storage.inb g GENRE_OPTIONS) = true ->
  forall mapped,
    mapCategoryToGenre (toLowerCase P) [g] = Text mapped ->
    Storage.inb mapped GENRE_OPTIONS = false.
Proof.
  intros g. subst g.
  destruct (category_loop (toLowerCase P) categories) as [[g | name] |] eqn:Hloop.
  - assert (mapCategoryToGenre (toLowerCase P) categories = Text g) as ->
        by (unfold mapCategoryToGenre; rewrite Hloop; reflexivity).
    cbn [stored]. destruct (category_loop_In _ _ _ Hloop) as [k Hk].
    rewrite (In_inb _ _ (CATEGORY_label_valid _ _ Hk)), andb_false_r. discriminate.
  - assert (mapCategoryToGenre (toLowerCase P) categories = Inherited name) as ->
        by (unfold mapCategoryToGenre; rewrite Hloop; reflexivity).
    discriminate.
  - destruct categories as [| cat rest]; [discriminate |].
    assert (mapCategoryToGenre (toLowerCase P) (cat :: rest) = Text cat) as ->
        by (unfold mapCategoryToGenre; rewrite Hloop; reflexivity).
    cbn [stored]. intros E mapped. unfold mapCategoryToGenre.
    rewrite (category_loop_first _ _ _ Hloop). intros [= <-].
    apply andb_true_iff in E as [_ E]. apply negb_true_iff in E. exact E.
Qed.

(** A record that carries what the store keeps of a classified genre
    is left alone by the read path. *)
Lemma stored_genre_settled (P : Platform) (b : Book) (categories : list string) :
  let b' := set_genre b (stored (mapCategoryToGenre (toLowerCase P) categories)) in
  Storage.migrateBook P b' = (b', false).
Proof.
  intros b'. rewrite SchedulerFacts.migrateBook_plain.
  unfold Storage.migrateGenre. subst b'. cbn [set_genre genre].
  destruct (JS.nonempty (stored (mapCategoryToGenre (toLowerCase P) categories))
            && negb (Storage.inb
                       (stored (mapCategoryToGenre (toLowerCase P) categories))
                       GENRE_OPTIONS)) eqn:E; [| reflexivity].
  pose proof (classified_genre_stable P categories E) as H.
  destruct (mapCategoryToGenre (toLowerCase P)
              [stored (mapCategoryToGenre (toLowerCase P) categories)])
    as [mapped | name]; [| reflexivity].
  rewrite (H mapped eq_refl). reflexivity.
Qed.

(** X7: a genre that the classifier produced is left alone by the
    migration of the store's read path: a book that carries it is read
    back as it is, and reading it causes no write.  When the classifier
    returns an inherited function, the stored record has no genre, and
    that record is left alone too; the prototype object, found under
    [__proto__], is stored as no text, and nothing is said of it. *)
Theorem classified_genre_not_migrated (P : Platform) (b : Book)
        (categories : list string) :
  match mapCategoryToGenre (toLowerCase P) categories with
  | Text g => Storage.migrateBook P (set_genre b g) = (set_genre b g, false)
  | Inherited name =>
      if String.eqb name "__proto__" then True
      else Storage.migrateBook P (set_genre b EmptyString)
           = (set_genre b EmptyString, false)
  end.
Proof.
  pose proof (stored_genre_settled P b categories) as H. cbv zeta in H.
  destruct (mapCategoryToGenre (toLowerCase P) categories) as [g | name];
    cbn [stored] in H; [exact H |].
  destruct (String.eqb name "__proto__"); [exact I | exact H].
Qed.

(** X8: [searchBooks] answers a blank query with the empty list
    whatever the network would say; it raises the rate-limit condition
    exactly for a non-blank query answered with status 429; and what it
    returns is empty or the normalised item list of a success response,
    item by item. *)
Theorem searchBooks_outcomes fetch query :
  (JS.blank query = true -> searchBooks fetch query = Ret [])
  /\ (searchBooks fetch query = ThrowRateLimit
      <-> JS.blank query = false /\ exists json, fetch query = Response 429 json)
  /\ (forall l,
        searchBooks fetch query = Ret l ->
        l = []
        \/ exists status data its,
             fetch query = Response status (Some data)
             /\ ok status = true /\ items data = Some its
             /\ l = map mapVolumeToResult its).
Proof.
  unfold searchBooks. destruct (JS.blank query) eqn:Hb.
  - repeat split; try discriminate.
    + intros [H _]. discriminate H.
    + intros l [= <-]. left. reflexivity.
  - destruct (fetch query) as [| status json].
    + repeat split; try discriminate. intros (_ & json & H). discriminate H.
    + destruct (status =? 429) eqn:E429.
      * apply Z.eqb_eq in E429. subst status. repeat split; try discriminate.
        exists json. reflexivity.
      * apply Z.eqb_neq in E429. split; [discriminate |]. split.
        { split.
          - destruct (negb (ok status)); [discriminate |].
            destruct json as [data |]; [| discriminate].
            destruct (items data); discriminate.
          - intros (_ & json' & H). inversion H. congruence. }
        intros l. destruct (ok status) eqn:Hok; cbn [negb];
          [| intros [= <-]; left; reflexivity].
        destruct json as [data |]; [| discriminate].
        destruct (items data) as [its |] eqn:Hit; intros [= <-];
          [| left; reflexivity].
        right. exists status, data, its. repeat split; assumption.
Qed.

Lemma searchBooks_outcomes_witness :
  JS.blank "   " = true
  /\ searchBooks (fun _ => Sample.quotaExceeded) "   " = Ret []
  /\ searchBooks (fun _ => Sample.quotaExceeded) "Nyumon" = ThrowRateLimit.
Proof.
  split; [reflexivity |].
  split.
  - apply (proj1 (searchBooks_outcomes (fun _ => Sample.quotaExceeded) "   ")).
    reflexivity.
  - apply (proj1 (proj2 (searchBooks_outcomes (fun _ => Sample.quotaExceeded)
                           "Nyumon"))).
    split; [reflexivity | exists None; reflexivity].
Defined.

(** A query of ideographic spaces (U+3000) is blank, as it is for
    [trim]; no request is made for it. *)
Example blank_ideographic_space :
  let sp := String (ascii_of_nat 227)
              (String (ascii_of_nat 128) (String (ascii_of_nat 128) EmptyString)) in
  JS.blank (sp ++ " " ++ sp) = true
  /\ JS.blank (sp ++ "a") = false
  /\ searchBooks (fun _ => Sample.quotaExceeded) (sp ++ sp) = Ret [].
Proof. vm_compute. repeat split. Qed.

(** X9: when the registry has the book, [searchByIsbn] returns the
    registry record as it is whenever the general search gives no
    result: not found, failed, or rate-limited.  The rate-limit
    condition is raised only when the registry has nothing. *)
Theorem searchByIsbn_registry_shields fetchO fetchG isbn (o : GoogleBookResult) :
  openBDPromise (OpenBDApi.searchByIsbnOpenBD fetchO isbn) = Some o ->
  (forall g, googlePromise (fetchG isbn) <> Found g) ->
  searchByIsbn fetchO fetchG isbn = Ret (Some o).
Proof.
  intros Ho Hg. unfold searchByIsbn. rewrite Ho.
  destruct (googlePromise (fetchG isbn)) as [g | |]; [| reflexivity | reflexivity].
  exfalso. exact (Hg g eq_refl).
Qed.

Lemma searchByIsbn_registry_shields_witness :
  exists o,
    openBDPromise (OpenBDApi.searchByIsbnOpenBD (fun _ => Sample.registryFound)
                                                "4774142042") = Some o
    /\ searchByIsbn (fun _ => Sample.registryFound) (fun _ => Sample.quotaExceeded)
                    "4774142042" = Ret (Some o).
Proof.
  eexists. split; [reflexivity |].
  apply (searchByIsbn_registry_shields
           (fun _ => Sample.registryFound) (fun _ => Sample.quotaExceeded)
           "4774142042" _ eq_refl).
  intros g. discriminate.
Defined.

End SearchFacts.

(** ** The record store *)

Module StoreFacts.
Import Storage StorageOps.

Lemma settled_genre P (b : Book) : settled P b <-> migrateGenre P b = (b, false).
Proof. unfold settled. rewrite SchedulerFacts.migrateBook_plain. reflexivity. Qed.

Lemma migrateGenre_settled P b : settled P (fst (migrateGenre P b)).
Proof.
  apply settled_genre. unfold migrateGenre.
  destruct (JS.nonempty (genre b) && negb (inb (genre b) GENRE_OPTIONS)) eqn:E.
  - destruct (Genre.mapCategoryToGenre (toLowerCase P) [genre b])
      as [mapped | name] eqn:Em.
    + destruct (inb mapped GENRE_OPTIONS) eqn:E2; cbn [fst].
      * cbn [set_genre genre]. rewrite E2. rewrite andb_false_r. reflexivity.
      * rewrite E, Em, E2. reflexivity.
    + cbn [fst]. rewrite E, Em. reflexivity.
  - cbn [fst]. rewrite E. reflexivity.
Qed.

Lemma migrateBook_settled P raw : settled P (fst (migrateBook P raw)).
Proof.
  unfold migrateBook. pose proof (migrateGenre_settled P (current raw)) as H.
  destruct (migrateGenre P (current raw)) as [book m]. exact H.
Qed.

Lemma migrate_settled P data : Forall (settled P) (fst (migrate P data)).
Proof.
  induction data as [| b data IH]; cbn [migrate]; [constructor |].
  pose proof (migrateBook_settled P b) as Hb.
  destruct (migrateBook P b) as [b' m1]. destruct (migrate P data) as [rest m2].
  constructor; assumption.
Qed.

Lemma migrate_of_settled P books :
  Forall (settled P) books -> migrate P (plain <$> books) = (books, false).
Proof.
  induction 1 as [| b books Hb _ IH]; [reflexivity |].
  rewrite fmap_cons. cbn [migrate]. unfold settled in Hb. rewrite Hb, IH.
  reflexivity.
Qed.

(** A record that the read path does not migrate is stored in the
    shape of the interface. *)
Lemma migrateBook_unchanged P raw :
  snd (migrateBook P raw) = false -> plain (fst (migrateBook P raw)) = raw.
Proof.
  unfold migrateBook.
  assert (snd (migrateGenre P (current raw)) = false ->
          fst (migrateGenre P (current raw)) = current raw) as Hg.
  { unfold migrateGenre.
    destruct (JS.nonempty (genre (current raw))
              && negb (inb (genre (current raw)) GENRE_OPTIONS)); [| reflexivity].
    destruct (Genre.mapCategoryToGenre _ _) as [mapped | name]; [| reflexivity].
    destruct (inb mapped GENRE_OPTIONS); [discriminate | reflexivity]. }
  destruct (migrateGenre P (current raw)) as [book m]. cbn [fst snd] in *.
  intros H. apply orb_false_iff in H as [Ho ->]. rewrite (Hg eq_refl).
  destruct raw as [i ti au g pd [| s] [pc |] ra me [d |] [th |] [u |] fd ca ua];
    destruct pd; try discriminate Ho; reflexivity.
Qed.

(** Without a migration the list is read as stored. *)
Lemma migrate_unchanged P data :
  snd (migrate P data) = false -> plain <$> fst (migrate P data) = data.
Proof.
  induction data as [| b data IH]; [reflexivity |]. cbn [migrate].
  pose proof (migrateBook_unchanged P b) as Hb.
  destruct (migrateBook P b) as [b' m1]. destruct (migrate P data) as [rest m2].
  cbn [fst snd] in *. intros H. apply orb_false_iff in H as [-> ->].
  rewrite fmap_cons, Hb, IH by reflexivity. reflexivity.
Qed.

Lemma getBooks_settled P st : Forall (settled P) (fst (getBooks P st)).
Proof.
  unfold getBooks. destruct (st_books st) as [data |]; [| constructor].
  pose proof (migrate_settled P data) as H.
  destruct (migrate P data) as [books m]. exact H.
Qed.

(** After a read the store holds what was read. *)
Lemma getBooks_store P st :
  st_books st <> None ->
  st_books (snd (getBooks P st)) = Some (plain <$> fst (getBooks P st)).
Proof.
  unfold getBooks. destruct (st_books st) as [data |] eqn:E; [| congruence].
  intros _. pose proof (migrate_unchanged P data) as H.
  destruct (migrate P data) as [books [|]]; cbn [fst snd] in *; [reflexivity |].
  rewrite E, H by reflexivity. reflexivity.
Qed.

Lemma getBooks_saved P books st :
  Forall (settled P) books ->
  getBooks P (saveBooks books st) = (books, saveBooks books st).
Proof.
  intros H. unfold getBooks, saveBooks. cbn [set_books st_books].
  rewrite (migrate_of_settled P books H). reflexivity.
Qed.

Lemma getBooks_twice P st :
  getBooks P (snd (getBooks P st)) = getBooks P st.
Proof.
  destruct (st_books st) as [data |] eqn:E.
  - pose proof (getBooks_store P st) as Hs. rewrite E in Hs.
    specialize (Hs ltac:(discriminate)).
    pose proof (getBooks_settled P st) as Hf.
    destruct (getBooks P st) as [books st1]. cbn [fst snd] in *.
    unfold getBooks. rewrite Hs, (migrate_of_settled P books Hf). reflexivity.
  - unfold getBooks. rewrite E. cbn [snd]. rewrite E. reflexivity.
Qed.

(** X10: reading the store twice is reading it once: the second
    [getBooks] returns the same records and leaves the storage as the
    first left it, and none of the records read would be changed by the
    migration again; so old genre labels are migrated at most once. *)
Theorem getBooks_idempotent P st :
  let st1 := snd (getBooks P st) in
  fst (getBooks P st1) = fst (getBooks P st)
  /\ snd (getBooks P st1) = st1
  /\ Forall (settled P) (fst (getBooks P st)).
Proof.
  intros st1. subst st1. rewrite getBooks_twice.
  repeat split. apply getBooks_settled.
Qed.

Lemma findIndex_spec bookId books :
  match findIndex bookId books with
  | Some i =>
      exists b, books !! i = Some b /\ id b = bookId
                /\ forall j b', (j < i)%nat -> books !! j = Some b' -> id b' <> bookId
  | None => Forall (fun b => id b <> bookId) books
  end.
Proof.
  induction books as [| b books IH]; cbn [findIndex]; [constructor |].
  destruct (String.eqb (id b) bookId) eqn:E.
  - apply String.eqb_eq in E. exists b. repeat split; [exact E |].
    intros j b' Hj. lia.
  - apply String.eqb_neq in E. destruct (findIndex bookId books) as [i |]; cbn.
    + destruct IH as (b0 & Hb0 & Hid & Hfirst). exists b0. repeat split;
        [exact Hb0 | exact Hid |].
      intros [| j] b' Hj Hb'; cbn in Hb'; [congruence |].
      apply (Hfirst j b'); [lia | exact Hb'].
    + constructor; assumption.
Qed.

Lemma getBooks_record P st evs :
  getBooks P (record st evs)
  = (fst (getBooks P st), record (snd (getBooks P st)) evs).
Proof.
  destruct st as [[data |] lr nd now tr]; unfold getBooks, record;
    cbn [st_books]; [| reflexivity].
  destruct (migrate P data) as [books [|]]; reflexivity.
Qed.

(** X11: [updateBook] patches exactly the first record that has the
    id: the store keeps its length, that record becomes the patched one
    with a new [updatedAt], every record at another position stays; and
    when no record has the id, the store is left as the read found it. *)
Theorem updateBook_first_match P bookId u st :
  let books := fst (getBooks P st) in
  match findIndex bookId books with
  | None => st_books (updateBook P bookId u st) = st_books (snd (getBooks P st))
  | Some i =>
      exists b books',
        st_books (updateBook P bookId u st) = Some (plain <$> books')
        /\ books !! i = Some b /\ id b = bookId
        /\ (forall j b', (j < i)%nat -> books !! j = Some b' -> id b' <> bookId)
        /\ List.length books' = List.length books
        /\ books' !! i = Some (applyPatch b u (toISOString P (st_now st)))
        /\ (forall j, j <> i -> books' !! j = books !! j)
  end.
Proof.
  intros books. pose proof (findIndex_spec bookId books) as Hspec.
  pose proof (SchedulerFacts.getBooks_slots P st) as (_ & _ & Hnow & _).
  unfold updateBook. rewrite getBooks_record. fold books.
  destruct (findIndex bookId books) as [i |].
  - destruct Hspec as (b & Hb & Hid & Hfirst).
    exists b, (alter (fun b => applyPatch b u (toISOString P (st_now st))) i books).
    cbn [saveBooks set_books st_books record st_now]. rewrite Hnow.
    repeat split; try assumption.
    + apply length_alter.
    + rewrite list_lookup_alter_eq, Hb. reflexivity.
    + intros j Hj. apply list_lookup_alter_ne. congruence.
  - reflexivity.
Qed.

Lemma filter_keeps_settled P (f : Book -> bool) books :
  Forall (settled P) books -> Forall (settled P) (List.filter f books).
Proof.
  induction 1 as [| b books Hb _ IH]; cbn [List.filter]; [constructor |].
  destruct (f b); [constructor; assumption | exact IH].
Qed.

Lemma deleteBook_spec P bookId st :
  let books := fst (getBooks P st) in
  fst (getBooks P (snd (deleteBook P bookId st)))
  = List.filter (fun b => negb (String.eqb (id b) bookId)) books
  /\ fst (deleteBook P bookId st) = existsb (fun b => String.eqb (id b) bookId) books.
Proof.
  intros books. unfold deleteBook.
  pose proof (getBooks_twice P st) as Hidem.
  pose proof (getBooks_settled P st) as Hset.
  destruct (getBooks P st) as [bs st1] eqn:E. cbn [fst snd] in *. subst books.
  set (keep := fun b : Book => negb (String.eqb (id b) bookId)).
  destruct (List.length (List.filter keep bs) =? List.length bs)%nat eqn:El;
    cbn [fst snd].
  - apply Nat.eqb_eq, filter_length_forallb in El.
    rewrite Hidem. cbn [fst]. rewrite (forallb_filter_id _ _ El). split; [reflexivity |].
    symmetry. apply not_true_iff_false. intros Hex.
    apply existsb_exists in Hex as (b & Hin & Hb).
    rewrite forallb_forall in El. specialize (El b Hin). unfold keep in El.
    rewrite Hb in El. discriminate El.
  - rewrite getBooks_saved by (apply filter_keeps_settled; exact Hset).
    split; [reflexivity |].
    symmetry. destruct (existsb (fun b => String.eqb (id b) bookId) bs) eqn:Hex;
      [reflexivity |].
    exfalso. apply Nat.eqb_neq in El. apply El. f_equal.
    apply forallb_filter_id. apply forallb_forall. intros b Hin. unfold keep.
    destruct (String.eqb (id b) bookId) eqn:Hb; [| reflexivity].
    assert (existsb (fun b => String.eqb (id b) bookId) bs = true) as Ht
      by (apply existsb_exists; exists b; split; assumption).
    congruence.
Qed.

(** X12: [deleteBook] removes every record that has the id and no
    other: a read after it finds a record exactly when the read before
    found it and its id is another one, no more records than before; and
    it reports [true] exactly when there was a record to remove. *)
Theorem deleteBook_removes P bookId st :
  let books := fst (getBooks P st) in
  let after := fst (getBooks P (snd (deleteBook P bookId st))) in
  (forall b, In b after <-> In b books /\ id b <> bookId)
  /\ (List.length after <= List.length books)%nat
  /\ (fst (deleteBook P bookId st) = true
      <-> exists b, In b books /\ id b = bookId).
Proof.
  intros books after. destruct (deleteBook_spec P bookId st) as [Hread Hflag].
  fold books in Hread, Hflag. fold after in Hread. rewrite Hread, Hflag.
  repeat split.
  - apply filter_In in H. destruct H as [H _]. exact H.
  - apply filter_In in H. destruct H as [_ H]. apply negb_true_iff in H.
    apply String.eqb_neq. exact H.
  - intros [Hin Hne]. apply filter_In. split; [exact Hin |].
    apply negb_true_iff, String.eqb_neq. exact Hne.
  - apply filter_length_le.
  - intros H. apply existsb_exists in H as (b & Hin & Hb).
    exists b. split; [exact Hin | apply String.eqb_eq; exact Hb].
  - intros (b & Hin & Hb). apply existsb_exists. exists b.
    split; [exact Hin | apply String.eqb_eq; exact Hb].
Qed.

(** X13: a book added with a fresh id is read back first, stamped with
    [createdAt = updatedAt], before the records the store had; and
    deleting it by its id gives back the records read before the
    addition. *)
Theorem addBook_then_deleteBook P uuid data st :
  Forall (fun b => id b <> uuid) (fst (getBooks P st)) ->
  let added := addBook P uuid data st in
  let newBook := fst added in
  id newBook = uuid
  /\ createdAt newBook = updatedAt newBook
  /\ fst (getBooks P (snd added))
     = fst (migrateBook P newBook) :: fst (getBooks P st)
  /\ fst (deleteBook P uuid (snd added)) = true
  /\ fst (getBooks P (snd (deleteBook P uuid (snd added)))) = fst (getBooks P st).
Proof.
  intros Hfresh added newBook.
  pose proof (getBooks_settled P st) as Hset.
  assert (fst (getBooks P (snd added))
          = fst (migrateBook P newBook) :: fst (getBooks P st)) as Hread.
  { subst newBook added. unfold addBook.
    destruct (getBooks P st) as [bs st1]. cbn [fst snd] in *.
    unfold getBooks, saveBooks. cbn [set_books st_books]. rewrite fmap_cons.
    cbn [migrate]. rewrite (migrate_of_settled P bs Hset).
    destruct (migrateBook P _) as [b' m]. reflexivity. }
  assert (id (fst (migrateBook P newBook)) = uuid) as Hid.
  { pose proof (SchedulerFacts.migrateBook_frame P newBook) as (Hi & _).
    cbn [plain s_id] in Hi. rewrite Hi. subst newBook added. unfold addBook.
    destruct (getBooks P st) as [bs st1]. reflexivity. }
  assert (id newBook = uuid /\ createdAt newBook = updatedAt newBook) as [H1 H2].
  { subst newBook added. unfold addBook.
    destruct (getBooks P st) as [bs st1]. split; reflexivity. }
  pose proof (deleteBook_spec P uuid (snd added)) as [Hd1 Hd2].
  rewrite Hread in Hd1, Hd2. cbn [List.filter existsb] in Hd1, Hd2.
  rewrite Hid, String.eqb_refl in Hd1, Hd2. cbn [negb orb] in Hd1, Hd2.
  repeat split; try assumption.
  rewrite Hd1. apply forallb_filter_id. apply forallb_forall. intros b Hin.
  rewrite List.Forall_forall in Hfresh. specialize (Hfresh b Hin).
  apply String.eqb_neq in Hfresh. rewrite Hfresh. reflexivity.
Qed.

Lemma addBook_then_deleteBook_witness :
  Forall (fun b => id b <> "b2") (fst (getBooks Sample.offline Sample2.oneBook))
  /\ fst (getBooks Sample.offline
            (snd (deleteBook Sample.offline "b2"
                    (snd (addBook Sample.offline "b2" Sample2.newData
                                  Sample2.oneBook)))))
     = [Sample.book].
Proof.
  assert (Forall (fun b => id b <> "b2")
                 (fst (getBooks Sample.offline Sample2.oneBook))) as H.
  { repeat constructor. discriminate. }
  split; [exact H |].
  destruct (addBook_then_deleteBook Sample.offline "b2" Sample2.newData
              Sample2.oneBook H) as (_ & _ & _ & _ & Hback).
  exact Hback.
Defined.

End StoreFacts.

(** ** The identifier in a retailer URL *)

Module AmazonFacts.
Import Amazon AmazonUrl.

Lemma app_cons (a : ascii) (s t : string) :
  (String a s ++ t)%string = String a (s ++ t)%string.
Proof. reflexivity. Qed.

Lemma capture10_sound s g :
  capture10 s = Some g ->
  String.length g = 10%nat /\ all_alnum g = true /\ g = String.substring 0 10 s.
Proof.
  unfold capture10.
  destruct ((String.length (String.substring 0 10 s) =? 10)%nat
            && all_alnum (String.substring 0 10 s)) eqn:E; [| discriminate].
  intros [= <-]. apply andb_true_iff in E as [E1 E2].
  apply Nat.eqb_eq in E1. repeat split; assumption.
Qed.

Lemma alternatives_sound alts s g :
  alternatives alts s = Some g ->
  exists marker rest,
    In marker alts /\ literal_ci marker s = Some rest /\ capture10 rest = Some g.
Proof.
  induction alts as [| p alts IH]; cbn [alternatives]; [discriminate |].
  destruct (literal_ci p s) as [rest |] eqn:El.
  - destruct (capture10 rest) as [g' |] eqn:Ec.
    + intros [= <-]. exists p, rest. repeat split; [left; reflexivity | | ]; assumption.
    + intros H. destruct (IH H) as (m & r & Hin & H1 & H2).
      exists m, r. repeat split; [right; exact Hin | | ]; assumption.
  - intros H. destruct (IH H) as (m & r & Hin & H1 & H2).
    exists m, r. repeat split; [right; exact Hin | | ]; assumption.
Qed.

Lemma extractAsin_shape url asin :
  extractAsin url = Some asin ->
  String.length asin = 10%nat /\ all_alnum asin = true.
Proof.
  induction url as [| c url IH].
  - cbn. discriminate.
  - cbn [extractAsin].
    destruct (alternatives _ (String c url)) as [g |] eqn:Ea; [| exact IH].
    intros [= <-]. destruct (alternatives_sound _ _ _ Ea) as (m & r & _ & _ & Hc).
    destruct (capture10_sound _ _ Hc) as (H1 & H2 & _). split; assumption.
Qed.

(** X14: an identifier that [extractAsin] returns has exactly ten
    characters, all letters or digits, and is the text that follows, at
    some position of the URL, one of the four markers [/dp/],
    [/gp/product/], [/product/] and [/ASIN/] (in any case). *)
Theorem extractAsin_sound url asin :
  extractAsin url = Some asin ->
  String.length asin = 10%nat
  /\ all_alnum asin = true
  /\ exists before from marker rest,
       url = (before ++ from)%string
       /\ In marker ["/dp/"; "/gp/product/"; "/product/"; "/ASIN/"]
       /\ literal_ci marker from = Some rest
       /\ asin = String.substring 0 10 rest.
Proof.
  induction url as [| c url IH].
  - cbn. discriminate.
  - cbn [extractAsin].
    destruct (alternatives _ (String c url)) as [g |] eqn:Ea.
    + intros [= <-]. destruct (alternatives_sound _ _ _ Ea) as (m & r & Hin & Hl & Hc).
      destruct (capture10_sound _ _ Hc) as (H1 & H2 & H3).
      repeat split; [exact H1 | exact H2 |].
      exists EmptyString, (String c url), m, r. repeat split; assumption.
    + intros H. destruct (IH H) as (H1 & H2 & before & from & m & r & Hu & Hin & Hl & Hs).
      repeat split; [exact H1 | exact H2 |].
      exists (String c before), from, m, r. rewrite app_cons, <- Hu.
      repeat split; assumption.
Qed.

Lemma extractAsin_sound_witness :
  extractAsin "https://www.amazon.co.jp/Nyumon/dp/4774142042/ref=sr_1_1"
  = Some "4774142042"
  /\ String.length "4774142042" = 10%nat.
Proof.
  split; [reflexivity |].
  exact (proj1 (extractAsin_sound
                  "https://www.amazon.co.jp/Nyumon/dp/4774142042/ref=sr_1_1"
                  "4774142042" eq_refl)).
Defined.

(** *** The canonical URL *)

Lemma app_nil (t : string) : (EmptyString ++ t)%string = t.
Proof. reflexivity. Qed.

Lemma upper_slash (c : ascii) :
  Ascii.eqb c "/" = false -> Ascii.eqb (upper "/") (upper c) = false.
Proof.
  destruct c as [[] [] [] [] [] [] [] []]; vm_compute;
    intros H; solve [discriminate H | reflexivity].
Qed.

Lemma no_slash_cons (c : ascii) (s : string) :
  no_slash (String c s) = true -> Ascii.eqb c "/" = false /\ no_slash s = true.
Proof.
  unfold no_slash. cbn [list_ascii_of_string forallb]. intros H.
  apply andb_true_iff in H as [H1 H2]. apply negb_true_iff in H1. split; assumption.
Qed.

(** No marker matches where the URL has another character than [/]. *)
Lemma alternatives_not_slash (c : ascii) (s : string) :
  Ascii.eqb c "/" = false ->
  alternatives ["/dp/"; "/gp/product/"; "/product/"; "/ASIN/"] (String c s) = None.
Proof.
  intros H. cbn [alternatives literal_ci]. rewrite (upper_slash c H). reflexivity.
Qed.

Lemma extractAsin_skip (host t : string) :
  no_slash host = true -> extractAsin (host ++ t) = extractAsin t.
Proof.
  induction host as [| c host IH]; intros H; [reflexivity |].
  apply no_slash_cons in H as [Hc Hs]. rewrite app_cons.
  cbn [extractAsin]. rewrite (alternatives_not_slash c _ Hc). apply IH. exact Hs.
Qed.

Lemma substring_all (s : string) :
  String.substring 0 (String.length s) s = s.
Proof. induction s as [| c s IH]; cbn; [reflexivity | rewrite IH; reflexivity]. Qed.

Lemma alternatives_cons p alts s :
  alternatives (p :: alts) s
  = match literal_ci p s with
    | Some s' =>
        match capture10 s' with
        | Some g => Some g
        | None => alternatives alts s
        end
    | None => alternatives alts s
    end.
Proof. reflexivity. Qed.

Lemma literal_ci_slash m s :
  literal_ci (String "/" m) (String "/" s) = literal_ci m s.
Proof. reflexivity. Qed.

(** One step of matching a marker against a host name that has no [/]. *)
Ltac host_step :=
  match goal with
  | Hns : no_slash ?host = true |- _ =>
      destruct host as [| ?h ?host'];
      [ rewrite ?app_nil; vm_compute; reflexivity
      | apply no_slash_cons in Hns; destruct Hns as [?Hh Hns];
        rewrite ?app_cons; cbn [literal_ci];
        first
          [ match goal with
            | H : Ascii.eqb ?h0 "/" = false
              |- context [Ascii.eqb (upper "/") (upper ?h0)] =>
                rewrite (upper_slash h0 H); reflexivity
            end
          | match goal with
            | |- context [Ascii.eqb ?a (upper ?h0)] =>
                destruct (Ascii.eqb a (upper h0)); [| reflexivity]
            end ] ]
  end.

(** After the [/] that ends the scheme, no marker both matches and is
    followed by ten letters or digits: the host name would have to hold
    a [/]. *)
Lemma alternatives_at_host (host : string) (c0 c1 c2 c3 c4 c5 c6 c7 c8 c9 : ascii) :
  no_slash host = true ->
  let asin :=
    String c0 (String c1 (String c2 (String c3 (String c4 (String c5
      (String c6 (String c7 (String c8 (String c9 EmptyString))))))))) in
  alternatives ["/dp/"; "/gp/product/"; "/product/"; "/ASIN/"]
               (String "/" (host ++ "/dp/" ++ asin))
  = None.
Proof.
  intros Hns asin. subst asin.
  assert (forall m,
             In m ["dp/"; "gp/product/"; "product/"; "ASIN/"] ->
             match literal_ci m (host ++ "/dp/" ++
                      String c0 (String c1 (String c2 (String c3 (String c4
                        (String c5 (String c6 (String c7 (String c8
                          (String c9 EmptyString))))))))))
             with
             | Some rest => capture10 rest
             | None => None
             end = None) as Hm.
  { intros m [<- | [<- | [<- | [<- | []]]]]; revert host Hns; intros host Hns;
      do 13 (try host_step). }
  set (S := (host ++ "/dp/" ++
               String c0 (String c1 (String c2 (String c3 (String c4
                 (String c5 (String c6 (String c7 (String c8
                   (String c9 EmptyString))))))))))%string) in *.
  clearbody S.
  pose proof (Hm "dp/" ltac:(cbn; tauto)) as H1.
  pose proof (Hm "gp/product/" ltac:(cbn; tauto)) as H2.
  pose proof (Hm "product/" ltac:(cbn; tauto)) as H3.
  pose proof (Hm "ASIN/" ltac:(cbn; tauto)) as H4.
  rewrite !alternatives_cons, !literal_ci_slash.
  destruct (literal_ci "dp/" S) as [r1 |]; [rewrite H1 |];
    (destruct (literal_ci "gp/product/" S) as [r2 |]; [rewrite H2 |]);
    (destruct (literal_ci "product/" S) as [r3 |]; [rewrite H3 |]);
    (destruct (literal_ci "ASIN/" S) as [r4 |]; [rewrite H4 |]); reflexivity.
Qed.

Lemma length10 (s : string) :
  String.length s = 10%nat ->
  exists c0 c1 c2 c3 c4 c5 c6 c7 c8 c9,
    s = String c0 (String c1 (String c2 (String c3 (String c4 (String c5
          (String c6 (String c7 (String c8 (String c9 EmptyString))))))))).
Proof.
  intros H.
  do 10 (destruct s as [| ? s]; [discriminate H |]).
  destruct s; [| discriminate H].
  repeat eexists.
Qed.

Lemma capture10_exact (asin : string) :
  String.length asin = 10%nat -> all_alnum asin = true ->
  capture10 asin = Some asin.
Proof.
  intros Hl Ha. unfold capture10. cbv zeta.
  replace (String.substring 0 10 asin) with asin
    by (rewrite <- Hl; symmetry; apply substring_all).
  rewrite Hl, Ha. reflexivity.
Qed.

(** The canonical URL holds one identifier, the one it was built from. *)
Lemma extractAsin_canonical (host asin : string) :
  no_slash host = true ->
  String.length asin = 10%nat -> all_alnum asin = true ->
  extractAsin ("https://" ++ host ++ "/dp/" ++ asin) = Some asin.
Proof.
  intros Hns Hl Ha.
  change ("https://" ++ host ++ "/dp/" ++ asin)%string
    with ("https:" ++ String "/" (String "/" (host ++ "/dp/" ++ asin)))%string.
  rewrite extractAsin_skip by reflexivity.
  cbn [extractAsin].
  change (alternatives ["/dp/"; "/gp/product/"; "/product/"; "/ASIN/"]
            (String "/" (String "/" (host ++ "/dp/" ++ asin)))) with (@None string).
  destruct (length10 asin Hl) as (c0 & c1 & c2 & c3 & c4 & c5 & c6 & c7 & c8 & c9 & E).
  rewrite E at 1. rewrite (alternatives_at_host host _ _ _ _ _ _ _ _ _ _ Hns).
  cbv iota. rewrite extractAsin_skip by exact Hns.
  change ("/dp/" ++ asin)%string
    with (String "/" (String "d" (String "p" (String "/" asin)))).
  cbn [extractAsin]. rewrite alternatives_cons.
  change (literal_ci "/dp/" (String "/" (String "d" (String "p" (String "/" asin)))))
    with (Some asin).
  cbv beta iota. rewrite (capture10_exact asin Hl Ha). reflexivity.
Qed.

(** X15: tidying keeps the identifier: the URL that [cleanAmazonUrl]
    returns yields, under [extractAsin], the same identifier as the URL
    it was given (and none when that one has none), provided the host
    name the platform parses out of a URL has no [/]. *)
Theorem cleanAmazonUrl_keeps_asin (hostname : Hostname) (url : string) :
  (forall h, hostname url = Some h -> no_slash h = true) ->
  extractAsin (cleanAmazonUrl hostname url) = extractAsin url.
Proof.
  intros Hh. unfold cleanAmazonUrl.
  destruct (extractAsin url) as [asin |] eqn:E; [| exact E].
  destruct (hostname url) as [host |]; [| exact E].
  destruct (extractAsin_shape _ _ E) as [Hl Ha].
  apply extractAsin_canonical; [apply Hh; reflexivity | exact Hl | exact Ha].
Qed.

Lemma cleanAmazonUrl_keeps_asin_witness :
  cleanAmazonUrl (fun _ => Some "www.amazon.co.jp")
    "https://www.amazon.co.jp/Nyumon/dp/4774142042/ref=sr_1_1?keywords=x"
  = "https://www.amazon.co.jp/dp/4774142042"
  /\ extractAsin "https://www.amazon.co.jp/dp/4774142042" = Some "4774142042".
Proof.
  split; [reflexivity |].
  exact (cleanAmazonUrl_keeps_asin
           (fun _ => Some "www.amazon.co.jp")
           "https://www.amazon.co.jp/Nyumon/dp/4774142042/ref=sr_1_1?keywords=x"
           (fun h E => match E in _ = o return
                         match o with Some h' => no_slash h' = true | None => True end
                       with eq_refl => eq_refl end)).
Defined.

End AmazonFacts.

(* ------------------------------------------------------------------ *)
(** ** The scheduler's requests and cache *)

Module RunFacts.
Import Storage Scheduler Budget.

Lemma count_app p (a b : list Event) :
  count p (a ++ b)%list = (count p a + count p b)%nat.
Proof. unfold count. rewrite List.filter_app, List.length_app. reflexivity. Qed.

Lemma updateBook_trace P bookId u st :
  st_trace (updateBook P bookId u st) = (st_trace st ++ [UpdateBook bookId u])%list
  /\ st_now (updateBook P bookId u st) = st_now st.
Proof.
  unfold updateBook.
  pose proof (SchedulerFacts.getBooks_slots P (record st [UpdateBook bookId u]))
    as (_ & _ & Hn & Ht).
  destruct (getBooks P (record st [UpdateBook bookId u])) as [books st1].
  cbn [snd] in Hn, Ht.
  destruct (findIndex bookId books); cbn; rewrite ?Ht, ?Hn; split; reflexivity.
Qed.

Lemma awaitSearchByIsbn_trace P st asin :
  st_trace (snd (awaitSearchByIsbn P st asin))
  = (st_trace st ++ [Requested (GetVolumesByIsbn asin);
                     Requested (GetOpenBD (OpenBDApi.isbn13_of asin))])%list
  /\ exists h, st_now (snd (awaitSearchByIsbn P st asin)) = st_now st + elapsed P h.
Proof. split; [reflexivity |]. eexists. reflexivity. Qed.

Lemma awaitSearchBooks_trace P st query :
  (st_trace (snd (awaitSearchBooks P st query)) = st_trace st
   \/ st_trace (snd (awaitSearchBooks P st query))
      = (st_trace st ++ [Requested (GetVolumes query)])%list)
  /\ (st_now (snd (awaitSearchBooks P st query)) = st_now st
      \/ exists h, st_now (snd (awaitSearchBooks P st query)) = st_now st + elapsed P h).
Proof.
  unfold awaitSearchBooks. destruct (JS.blank query); cbn [snd].
  - split; left; reflexivity.
  - split; right; [reflexivity | eexists; reflexivity].
Qed.

(** Phase 1 sends two requests for a candidate at most, and none of
    the title search. *)
Lemma phase1_requests P candidates :
  forall st noData updated,
    let st' := fst (fst (phase1 P candidates st noData updated)) in
    count isTitleRequest (st_trace st') = count isTitleRequest (st_trace st)
    /\ (count isIsbnRequest (st_trace st')
        <= count isIsbnRequest (st_trace st) + 2 * List.length candidates)%nat.
Proof.
  induction candidates as [| book rest IH]; intros st noData updated;
    [cbn; split; lia |].
  cbn [phase1 List.length].
  destruct (Amazon.extractAsin (purchaseUrl book)) as [asin |].
  2: { specialize (IH st noData updated). cbn zeta in IH. cbn zeta. lia. }
  destruct (awaitSearchByIsbn_trace P st asin) as [Ht _].
  destruct (awaitSearchByIsbn P st asin) as [res st2]. cbn [snd] in Ht.
  assert (count isTitleRequest (st_trace st2) = count isTitleRequest (st_trace st)
          /\ count isIsbnRequest (st_trace st2)
             = (count isIsbnRequest (st_trace st) + 2)%nat) as [T2 I2].
  { rewrite Ht, !count_app. cbn. split; lia. }
  destruct res as [[result |] | |]; cbn zeta.
  - destruct (hasKeys (updatesFor P book result)).
    + destruct (updateBook_trace P (id book) (updatesFor P book result) st2) as [Hu _].
      match goal with
      | |- context [phase1 P rest ?s ?n ?u] =>
          specialize (IH s n u); cbn zeta in IH; rewrite Hu, !count_app in IH;
            cbn in IH
      end.
      lia.
    + match goal with
      | |- context [phase1 P rest ?s ?n ?u] => specialize (IH s n u); cbn zeta in IH
      end.
      lia.
  - match goal with
    | |- context [phase1 P rest ?s ?n ?u] => specialize (IH s n u); cbn zeta in IH
    end.
    lia.
  - cbn [fst]. lia.
  - specialize (IH st2 noData updated). cbn zeta in IH. lia.
Qed.

(** Phase 2 sends one request for a candidate at most, and none of
    the ISBN lookup. *)
Lemma phase2_requests P candidates :
  forall st noData updated,
    let st' := fst (fst (phase2 P candidates st noData updated)) in
    (count isTitleRequest (st_trace st')
     <= count isTitleRequest (st_trace st) + List.length candidates)%nat
    /\ count isIsbnRequest (st_trace st') = count isIsbnRequest (st_trace st).
Proof.
  induction candidates as [| book rest IH]; intros st noData updated;
    [cbn; split; lia |].
  cbn [phase2 List.length].
  destruct (awaitSearchBooks_trace P st (queryOf book)) as [Ht _].
  destruct (awaitSearchBooks P st (queryOf book)) as [res st2]. cbn [snd] in Ht.
  assert ((count isTitleRequest (st_trace st2)
           <= count isTitleRequest (st_trace st) + 1)%nat
          /\ count isIsbnRequest (st_trace st2) = count isIsbnRequest (st_trace st))
    as [T2 I2].
  { destruct Ht as [-> | ->]; [split; lia |]. rewrite !count_app. cbn. split; lia. }
  destruct res as [[| r results] | |]; cbn zeta.
  - match goal with
    | |- context [phase2 P rest ?s ?n ?u] => specialize (IH s n u); cbn zeta in IH
    end.
    cbn [pace advance st_trace] in IH. lia.
  - destruct (hasKeys (updatesFor P book r)).
    + destruct (updateBook_trace P (id book) (updatesFor P book r) st2) as [Hu _].
      match goal with
      | |- context [phase2 P rest ?s ?n ?u] => specialize (IH s n u); cbn zeta in IH
      end.
      cbn [pace advance st_trace] in IH. rewrite Hu, !count_app in IH. cbn in IH.
      lia.
    + match goal with
      | |- context [phase2 P rest ?s ?n ?u] => specialize (IH s n u); cbn zeta in IH
      end.
      cbn [pace advance st_trace] in IH. lia.
  - cbn [fst]. lia.
  - specialize (IH st2 noData updated). cbn zeta in IH. lia.
Qed.

Lemma migrate_length P data : List.length (fst (migrate P data)) = List.length data.
Proof.
  induction data as [| b data IH]; [reflexivity |].
  cbn [migrate]. destruct (migrateBook P b) as [b' m1].
  destruct (migrate P data) as [rest' m2]. cbn [fst] in *. cbn. rewrite IH. reflexivity.
Qed.

Lemma getBooks_length P st :
  List.length (fst (getBooks P st)) = List.length (stored st).
Proof.
  unfold getBooks, stored. destruct (st_books st) as [data |]; [| reflexivity].
  pose proof (migrate_length P data) as H.
  destruct (migrate P data) as [books m]. exact H.
Qed.

Lemma filter_length_le {A : Type} (f : A -> bool) (l : list A) :
  (List.length (List.filter f l) <= List.length l)%nat.
Proof.
  induction l as [| a l IH]; [cbn; lia |]. cbn. destruct (f a); cbn; lia.
Qed.

Lemma needsGoogle_length now (noData : gmap string Z) books :
  (List.length (needsGoogle now noData books) <= MAX_GOOGLE_PER_SESSION)%nat.
Proof. unfold needsGoogle. rewrite length_take. lia. Qed.

Lemma finish_trace P r : st_trace (finish P r) = st_trace (fst (fst r))
                         /\ st_now (finish P r) = st_now (fst (fst r)).
Proof.
  destruct r as [[st nd] u]. unfold finish. cbn [fst]. destruct u; [| split; reflexivity].
  pose proof (SchedulerFacts.getBooks_slots P (persist st nd)) as (_ & _ & Hn & Ht).
  rewrite Ht, Hn. split; reflexivity.
Qed.

(** X16: the request budget of a run.  Whatever the sources answer, a
    call of [backfillBookData] sends at most 30 requests of the title
    search, and at most two requests of the ISBN lookup (one to each
    source) for each stored record. *)
Theorem backfill_request_budget P st :
  (count isTitleRequest (st_trace (backfillBookData P st))
   <= count isTitleRequest (st_trace st) + 30)%nat
  /\ (count isIsbnRequest (st_trace (backfillBookData P st))
      <= count isIsbnRequest (st_trace st) + 2 * List.length (stored st))%nat.
Proof.
  unfold backfillBookData. destruct (cooldown st); [split; lia |].
  rewrite SchedulerFacts.run_unfold. cbn zeta.
  pose proof (SchedulerFacts.getBooks_slots P st) as (_ & _ & _ & Ht0).
  pose proof (getBooks_length P st) as Hlen.
  set (current := fst (getBooks P st)) in *.
  set (st1 := snd (getBooks P st)) in *.
  set (nd1 := purge (st_now st1) (getNoDataSet st1)).
  pose proof (phase1_requests P (needsIsbnLookup (st_now st1) nd1 current) st1 nd1 false)
    as [T1 I1].
  cbn zeta in T1, I1.
  pose proof (filter_length_le (needsIsbn (st_now st1) nd1) current) as Hf.
  fold (needsIsbnLookup (st_now st1) nd1 current) in Hf.
  set (r1 := phase1 P (needsIsbnLookup (st_now st1) nd1 current) st1 nd1 false) in *.
  set (a := if snd r1 then getBooks P (fst (fst r1)) else (current, fst (fst r1))).
  assert (st_trace (snd a) = st_trace (fst (fst r1))) as Ha.
  { subst a. destruct (snd r1); [| reflexivity].
    apply (SchedulerFacts.getBooks_slots P (fst (fst r1))). }
  pose proof (phase2_requests P
                (needsGoogle (st_now (snd a)) (snd (fst r1)) (fst a))
                (snd a) (snd (fst r1)) (snd r1)) as [T2 I2].
  cbn zeta in T2, I2.
  pose proof (needsGoogle_length (st_now (snd a)) (snd (fst r1)) (fst a)) as Hg.
  unfold MAX_GOOGLE_PER_SESSION in Hg.
  destruct (finish_trace P
              (phase2 P (needsGoogle (st_now (snd a)) (snd (fst r1)) (fst a))
                      (snd a) (snd (fst r1)) (snd r1))) as [Hfin _].
  rewrite Hfin. rewrite Ha in T2, I2. rewrite Ht0 in T1, I1.
  split; lia.
Qed.

(** *** A library with nothing missing *)

Lemma filter_none {A : Type} (f : A -> bool) (l : list A) :
  Forall (fun a => f a = false) l -> List.filter f l = [].
Proof.
  induction 1 as [| a l Ha _ IH]; [reflexivity |]. cbn. rewrite Ha. exact IH.
Qed.

Lemma needsIsbn_complete now (noData : gmap string Z) b :
  isMissingData b = false -> needsIsbn now noData b = false.
Proof.
  intros H. unfold needsIsbn. rewrite H.
  destruct (shouldSkip now noData (id b)); [reflexivity |].
  destruct (negb (JS.nonempty (purchaseUrl b))); [reflexivity |].
  destruct (Amazon.extractAsin (purchaseUrl b)) as [asin |]; [| reflexivity].
  destruct (Amazon.isLikelyIsbn asin); reflexivity.
Qed.

Lemma needsTitle_complete now (noData : gmap string Z) b :
  isMissingData b = false -> needsTitle now noData b = false.
Proof.
  intros H. unfold needsTitle. rewrite H. rewrite andb_false_r. reflexivity.
Qed.

(** X17: a library in which no record misses data costs no request.
    When every record that the run reads has its page count, a date of
    more than four code units, a cover and a description, a run that is
    due sends nothing and patches nothing: it reads the records
    (migrating what the read path migrates), writes the purged cache and
    stamps the time of the run. *)
Theorem complete_library_no_request P st :
  cooldown st = false ->
  Forall (fun b => isMissingData b = false) (fst (getBooks P st)) ->
  st_trace (backfillBookData P st) = st_trace st
  /\ st_books (backfillBookData P st) = st_books (snd (getBooks P st))
  /\ st_noData (backfillBookData P st)
     = CacheJson (purge (st_now st) (getNoDataSet st))
  /\ st_lastRun (backfillBookData P st) = StampMillis (st_now st).
Proof.
  intros Hcool Hc. unfold backfillBookData. rewrite Hcool.
  pose proof (SchedulerFacts.getBooks_slots P st) as (_ & Hnd & Hn & Ht).
  unfold run. destruct (getBooks P st) as [current st1]. cbn [fst snd] in *.
  assert (needsIsbnLookup (st_now st1) (purge (st_now st1) (getNoDataSet st1)) current
          = []) as ->.
  { apply filter_none. eapply List.Forall_impl; [| exact Hc].
    intros b Hb. apply needsIsbn_complete. exact Hb. }
  cbn [phase1].
  assert (needsGoogle (st_now st1) (purge (st_now st1) (getNoDataSet st1)) current
          = []) as ->.
  { unfold needsGoogle. rewrite filter_none; [reflexivity |].
    eapply List.Forall_impl; [| exact Hc].
    intros b Hb. apply needsTitle_complete. exact Hb. }
  cbn [phase2 finish persist st_trace st_books st_noData st_lastRun].
  unfold getNoDataSet. rewrite Hnd, Hn.
  repeat split. exact Ht.
Qed.

Lemma complete_library_no_request_witness :
  let complete :=
    {| id := "b2"; title := "Kokoro"; author := "Natsume";
       genre := "Fiction"; publishedDate := "1914-09-20";
       status := finished; pageCount := 300; rating := 5;
       memo := EmptyString; description := "A novel";
       thumbnail := Some "http://img/2"; purchaseUrl := EmptyString;
       finishedDate := None;
       createdAt := "2024-01-01T00:00:00.000Z";
       updatedAt := "2024-01-01T00:00:00.000Z" |} in
  let st := mkState (Some [plain complete]) StampAbsent CacheAbsent 1000000 [] in
  st_trace (backfillBookData Sample.bothPlatform st) = []
  /\ st_lastRun (backfillBookData Sample.bothPlatform st) = StampMillis 1000000.
Proof.
  intros complete st.
  destruct (complete_library_no_request Sample.bothPlatform st eq_refl
              ltac:(repeat constructor)) as (H1 & _ & _ & H4).
  split; [exact H1 | exact H4].
Defined.

(** *** The entries of the cache *)








End RunFacts.

(* ------------------------------------------------------------------ *)
(** ** The patch of a run *)

Module PatchFacts.
Import Storage Scheduler Budget.

Lemma applyPatch_keeps P book result stamp :
  keeps book (applyPatch book (updatesFor P book result) stamp).
Proof.
  unfold keeps, applyPatch, updatesFor. cbn.
  repeat split.
  - intros H. apply Z.eqb_neq in H. rewrite H. reflexivity.
  - intros H. destruct (publishedDate book) as [| c s] eqn:E; [cbn in H; lia |].
    cbn [JS.nonempty negb orb].
    replace (JS.length (String c s) <=? 4)%nat with false
      by (symmetry; apply Nat.leb_gt; exact H).
    reflexivity.
  - intros H. rewrite H. reflexivity.
  - intros H. rewrite H. reflexivity.
  - intros H. rewrite H. reflexivity.
Qed.

(** X19: a run fills gaps and never overwrites.  The record patched
    with what [updatesFor] builds from a result keeps its page count
    when that is not 0, its date when that has more than four code
    units, its cover, its description and its genre when it has them;
    and a key the patch does set carries the value of the result. *)
Theorem updatesFor_keeps_known P book result stamp :
  let b' := applyPatch book (updatesFor P book result) stamp in
  (pageCount book <> 0 -> pageCount b' = pageCount book)
  /\ ((4 < JS.length (publishedDate book))%nat ->
      publishedDate b' = publishedDate book)
  /\ (JS.truthy_opt (thumbnail book) = true -> thumbnail b' = thumbnail book)
  /\ (JS.nonempty (description book) = true -> description b' = description book)
  /\ (JS.nonempty (genre book) = true -> genre b' = genre book)
  /\ (p_pageCount (updatesFor P book result) <> None ->
      pageCount b' = r_pageCount result)
  /\ (p_publishedDate (updatesFor P book result) <> None ->
      publishedDate b' = r_publishedDate result)
  /\ (p_thumbnail (updatesFor P book result) <> None ->
      thumbnail b' = r_thumbnail result)
  /\ (p_description (updatesFor P book result) <> None ->
      Some (description b') = r_description result).
Proof.
  intros b'. subst b'.
  destruct (applyPatch_keeps P book result stamp) as (K1 & K2 & K3 & K4 & K5).
  repeat (split; [assumption |]).
  unfold applyPatch, updatesFor. cbn. repeat split.
  - destruct ((pageCount book =? 0) && negb (r_pageCount result =? 0));
      [reflexivity | congruence].
  - destruct ((negb (JS.nonempty (publishedDate book))
               || (JS.length (publishedDate book) <=? 4)%nat)
              && JS.nonempty (r_publishedDate result));
      [reflexivity | congruence].
  - destruct (negb (JS.truthy_opt (thumbnail book))
              && JS.truthy_opt (r_thumbnail result));
      [reflexivity | congruence].
  - destruct (negb (JS.nonempty (description book))
              && JS.truthy_opt (r_description result)) eqn:E; [| congruence].
    apply andb_true_iff in E as [_ E].
    destruct (r_description result) as [s |]; [reflexivity | discriminate E].
Qed.

Lemma default_if {A : Type} (c : bool) (x y : A) :
  default x (if c then Some y else None) = if c then y else x.
Proof. destruct c; reflexivity. Qed.

(** X20: patching twice with the same result is patching once.  The
    patch built for the record already patched, from the same result,
    sets no key to another value: applied again it gives the record of
    the first patch, with the later [updatedAt]. *)
Theorem updatesFor_idempotent P book result stamp1 stamp2 :
  let once := applyPatch book (updatesFor P book result) stamp1 in
  applyPatch once (updatesFor P once result) stamp2
  = applyPatch book (updatesFor P book result) stamp2.
Proof.
  intros once. subst once.
  destruct book as [bid btitle bauthor bgenre bdate bstatus bpages brating bmemo
                      bdesc bthumb burl bfin bcreated bupdated].
  destruct result as [rid rtitle rauthors rcats rdate rpages rthumb rdesc].
  unfold applyPatch, updatesFor.
  cbn -[Nat.ltb Nat.leb Z.eqb JS.length JS.nonempty JS.truthy_opt]. f_equal.
  - rewrite !default_if.
    destruct (negb (JS.nonempty bgenre) && (0 <? List.length rcats)%nat) eqn:E;
      cbv beta iota; [| rewrite E; reflexivity].
    match goal with |- (if ?c then _ else _) = _ => destruct c; reflexivity end.
  - rewrite !default_if.
    destruct ((negb (JS.nonempty bdate) || (JS.length bdate <=? 4)%nat)
              && JS.nonempty rdate) eqn:E; cbv beta iota; [| rewrite E; reflexivity].
    match goal with |- (if ?c then _ else _) = _ => destruct c; reflexivity end.
  - rewrite !default_if.
    destruct ((bpages =? 0) && negb (rpages =? 0)) eqn:E; cbv beta iota;
      [| rewrite E; reflexivity].
    apply andb_true_iff in E as [_ E]. apply negb_true_iff in E. rewrite E.
    reflexivity.
  - destruct (negb (JS.nonempty bdesc) && JS.truthy_opt rdesc) eqn:E.
    + destruct rdesc as [s |]; [| rewrite andb_false_r in E; discriminate E].
      cbn [default]. rewrite default_if.
      match goal with |- (if ?c then _ else _) = _ => destruct c; reflexivity end.
    + cbn [default]. rewrite E. reflexivity.
  - rewrite !default_if.
    destruct (negb (JS.truthy_opt bthumb) && JS.truthy_opt rthumb) eqn:E;
      cbv beta iota; [| rewrite E; reflexivity].
    apply andb_true_iff in E as [_ E]. rewrite E. reflexivity.
Qed.

End PatchFacts.

(* ------------------------------------------------------------------ *)
(** ** What a run never overwrites *)

Module KeepFacts.
Import Storage StorageOps Scheduler Budget.

Lemma keeps_refl b : keeps b b.
Proof. repeat split. Qed.

Lemma keeps_trans a b c : keeps a b -> keeps b c -> keeps a c.
Proof.
  intros (A1 & A2 & A3 & A4 & A5) (B1 & B2 & B3 & B4 & B5). repeat split; intros H.
  - rewrite <- (A1 H). apply B1. rewrite (A1 H). exact H.
  - rewrite <- (A2 H). apply B2. rewrite (A2 H). exact H.
  - rewrite <- (A3 H). apply B3. rewrite (A3 H). exact H.
  - rewrite <- (A4 H). apply B4. rewrite (A4 H). exact H.
  - rewrite <- (A5 H). apply B5. rewrite (A5 H). exact H.
Qed.

Lemma all_keep_refl books : Forall2 keeps books books.
Proof. induction books; constructor; [apply keeps_refl | assumption]. Qed.

Lemma all_keep_trans as_ bs cs :
  Forall2 keeps as_ bs -> Forall2 keeps bs cs -> Forall2 keeps as_ cs.
Proof.
  intros H. revert cs. induction H as [| a b as_ bs Hab _ IH]; intros cs Hc;
    inversion Hc; subst; constructor.
  - eapply keeps_trans; eassumption.
  - apply IH. assumption.
Qed.

(** Whether the read path migrates a record of the interface depends
    on its genre only. *)
Lemma settled_iff P (b : Book) :
  settled P b
  <-> (JS.nonempty (genre b) && negb (inb (genre b) GENRE_OPTIONS) = true ->
       forall mapped,
         Genre.mapCategoryToGenre (toLowerCase P) [genre b] = Genre.Text mapped ->
         inb mapped GENRE_OPTIONS = false).
Proof.
  rewrite StoreFacts.settled_genre. unfold migrateGenre.
  destruct (JS.nonempty (genre b) && negb (inb (genre b) GENRE_OPTIONS)).
  - destruct (Genre.mapCategoryToGenre (toLowerCase P) [genre b])
      as [mapped | name].
    + destruct (inb mapped GENRE_OPTIONS) eqn:E; split; intros H.
      * discriminate H.
      * specialize (H eq_refl mapped eq_refl). congruence.
      * intros _ m [= <-]. exact E.
      * reflexivity.
    + split; [intros _ _ m H; discriminate H | reflexivity].
  - split; [discriminate | reflexivity].
Qed.

Lemma applyPatch_settled P book result stamp :
  settled P book -> settled P (applyPatch book (updatesFor P book result) stamp).
Proof.
  intros H0. apply settled_iff. pose proof (proj1 (settled_iff P book) H0) as H.
  unfold applyPatch, updatesFor. cbn [genre p_genre].
  destruct (negb (JS.nonempty (genre book))
            && (0 <? List.length (r_categories result))%nat); cbn [default].
  - apply (SearchFacts.classified_genre_stable P (r_categories result)).
  - exact H.
Qed.

Lemma applyPatch_id book u stamp :
  p_id u = None -> id (applyPatch book u stamp) = id book.
Proof. intros H. unfold applyPatch. cbn. rewrite H. reflexivity. Qed.

(** *** One patch in a store with distinct ids *)

Lemma findIndex_unique books b :
  List.NoDup (map id books) -> In b books ->
  exists i, findIndex (id b) books = Some i /\ books !! i = Some b.
Proof.
  induction books as [| b0 books IH]; intros Hnd Hin; [destruct Hin |].
  cbn [map] in Hnd. apply List.NoDup_cons_iff in Hnd as [Hfresh Hnd].
  cbn [findIndex]. destruct (String.eqb (id b0) (id b)) eqn:E.
  - apply String.eqb_eq in E. exists 0%nat. split; [reflexivity |].
    destruct Hin as [-> | Hin]; [reflexivity |].
    exfalso. apply Hfresh. rewrite E. apply in_map. exact Hin.
  - apply String.eqb_neq in E. destruct Hin as [-> | Hin]; [congruence |].
    destruct (IH Hnd Hin) as (i & Hi & Hb). exists (S i). rewrite Hi.
    split; [reflexivity | exact Hb].
Qed.

Lemma alter_ids (f : Book -> Book) i books :
  (forall b, id (f b) = id b) -> map id (alter f i books) = map id books.
Proof.
  intros Hf. revert i. induction books as [| b books IH]; intros [| i]; cbn;
    [reflexivity | reflexivity | rewrite Hf; reflexivity | rewrite IH; reflexivity].
Qed.

Lemma alter_keeps (f : Book -> Book) i books :
  (forall b, books !! i = Some b -> keeps b (f b)) ->
  Forall2 keeps books (alter f i books).
Proof.
  revert i. induction books as [| b books IH]; intros [| i] Hf; cbn;
    constructor.
  - apply Hf. reflexivity.
  - apply all_keep_refl.
  - apply keeps_refl.
  - apply IH. exact Hf.
Qed.

Lemma alter_settled P (f : Book -> Book) i books :
  (forall b, books !! i = Some b -> settled P (f b)) ->
  Forall (settled P) books -> Forall (settled P) (alter f i books).
Proof.
  revert i. induction books as [| b books IH]; intros [| i] Hf Hall; cbn;
    [constructor | constructor | |];
    apply List.Forall_cons_iff in Hall as [Hb Hall]; constructor;
      first [apply Hf; reflexivity | assumption | apply IH; assumption].
Qed.

Lemma alter_others (f : Book -> Book) i books bi b :
  books !! i = Some bi -> In b books -> b <> bi -> In b (alter f i books).
Proof.
  revert i. induction books as [| b0 books IH]; intros [| i] Hi Hin Hne; cbn in *;
    [destruct Hin | destruct Hin | |].
  - injection Hi as ->. destruct Hin as [-> | Hin]; [congruence | right; exact Hin].
  - destruct Hin as [-> | Hin]; [left; reflexivity | right].
    apply (IH i); assumption.
Qed.

(** Reading a store whose records are settled returns it as it is. *)
Lemma getBooks_of_settled P st (books : list Book) :
  st_books st = Some (plain <$> books) -> Forall (settled P) books ->
  getBooks P st = (books, st).
Proof.
  intros Hb Hs. unfold getBooks. rewrite Hb.
  rewrite (StoreFacts.migrate_of_settled P books Hs). reflexivity.
Qed.

(** One step of a phase that patches: the record patched is the one
    the patch was computed from. *)
Lemma updateBook_keeps P st (books : list Book) book result :
  st_books st = Some (plain <$> books) -> Forall (settled P) books ->
  List.NoDup (map id books) -> In book books ->
  exists books' : list Book,
    st_books (updateBook P (id book) (updatesFor P book result) st)
    = Some (plain <$> books')
    /\ Forall (settled P) books'
    /\ map id books' = map id books
    /\ Forall2 keeps books books'
    /\ (forall b, In b books -> id b <> id book -> In b books').
Proof.
  intros Hb Hs Hnd Hin.
  destruct (findIndex_unique books book Hnd Hin) as (i & Hi & Hbi).
  unfold updateBook.
  rewrite (getBooks_of_settled P (record st [UpdateBook (id book) (updatesFor P book result)])
             books Hb Hs).
  rewrite Hi. cbn [saveBooks set_books st_books].
  eexists. split; [reflexivity |]. repeat split.
  - apply alter_settled; [| exact Hs]. intros b Hl.
    rewrite Hbi in Hl. injection Hl as <-. apply applyPatch_settled.
    rewrite List.Forall_forall in Hs. apply Hs. exact Hin.
  - apply alter_ids. intros b. apply applyPatch_id. reflexivity.
  - apply alter_keeps. intros b Hl. rewrite Hbi in Hl. injection Hl as <-.
    apply PatchFacts.applyPatch_keeps.
  - intros b Hb' Hne. apply (alter_others _ i books book b Hbi Hb').
    intros ->. apply Hne. reflexivity.
Qed.

(** *** The two phases *)

Lemma phase1_updated P candidates :
  forall st noData, snd (phase1 P candidates st noData true) = true.
Proof.
  induction candidates as [| book rest IH]; intros st noData; [reflexivity |].
  cbn [phase1]. destruct (Amazon.extractAsin (purchaseUrl book)) as [asin |];
    [| apply IH].
  destruct (awaitSearchByIsbn P st asin) as [res st2].
  destruct res as [[result |] | |]; [| apply IH | reflexivity | apply IH].
  destruct (hasKeys (updatesFor P book result)); apply IH.
Qed.

Lemma phase2_updated P candidates :
  forall st noData, snd (phase2 P candidates st noData true) = true.
Proof.
  induction candidates as [| book rest IH]; intros st noData; [reflexivity |].
  cbn [phase2].
  destruct (awaitSearchBooks P st (queryOf book)) as [res st2].
  destruct res as [[| r results] | |]; [apply IH | | reflexivity | apply IH].
  destruct (hasKeys (updatesFor P book r)); apply IH.
Qed.

Lemma awaitSearchBooks_books P st query :
  st_books (snd (awaitSearchBooks P st query)) = st_books st.
Proof. unfold awaitSearchBooks. destruct (JS.blank query); reflexivity. Qed.

Lemma distinct_tail (book : Book) (rest : list Book) :
  List.NoDup (map id (book :: rest)) ->
  List.NoDup (map id rest) /\ forall b, In b rest -> id b <> id book.
Proof.
  cbn [map]. intros H. apply List.NoDup_cons_iff in H as [Hfresh Hnd].
  split; [exact Hnd |]. intros b Hin E. apply Hfresh. rewrite <- E.
  apply in_map. exact Hin.
Qed.

Lemma phase1_keeps P candidates :
  forall st noData updated (books : list Book),
    st_books st = Some (plain <$> books) -> Forall (settled P) books ->
    List.NoDup (map id books) ->
    List.NoDup (map id candidates) -> (forall b, In b candidates -> In b books) ->
    exists books' : list Book,
      st_books (fst (fst (phase1 P candidates st noData updated)))
      = Some (plain <$> books')
      /\ Forall (settled P) books'
      /\ map id books' = map id books
      /\ Forall2 keeps books books'
      /\ (snd (phase1 P candidates st noData updated) = false -> books' = books).
Proof.
  induction candidates as [| book rest IH];
    intros st noData updated books Hb Hs Hnd Hc Hin.
  { exists books. cbn. repeat split; try assumption. apply all_keep_refl. }
  destruct (distinct_tail book rest Hc) as [Hc' Hother].
  assert (forall b, In b rest -> In b books) as Hin'
      by (intros b H; apply Hin; right; exact H).
  cbn [phase1]. destruct (Amazon.extractAsin (purchaseUrl book)) as [asin |];
    [| apply IH; assumption].
  assert (st_books (snd (awaitSearchByIsbn P st asin)) = Some (plain <$> books))
    as Hb2 by exact Hb.
  destruct (awaitSearchByIsbn P st asin) as [res st2]. cbn [snd] in Hb2.
  destruct res as [[result |] | |].
  - destruct (hasKeys (updatesFor P book result)); [| apply IH; assumption].
    destruct (updateBook_keeps P st2 books book result Hb2 Hs Hnd
                (Hin book (or_introl eq_refl)))
      as (books1 & Hb1 & Hs1 & Hid1 & Hk1 & Ho1).
    destruct (IH (updateBook P (id book) (updatesFor P book result) st2)
                 noData true books1 Hb1 Hs1) as (books' & H1 & H2 & H3 & H4 & _).
    { rewrite Hid1. exact Hnd. }
    { exact Hc'. }
    { intros b Hbr. apply Ho1; [apply Hin'; exact Hbr | apply Hother; exact Hbr]. }
    exists books'. repeat split.
    + exact H1.
    + exact H2.
    + rewrite H3. exact Hid1.
    + eapply all_keep_trans; eassumption.
    + rewrite phase1_updated. discriminate.
  - apply IH; assumption.
  - exists books. cbn [fst snd]. repeat split; try assumption. apply all_keep_refl.
  - apply IH; assumption.
Qed.

Lemma phase2_keeps P candidates :
  forall st noData updated (books : list Book),
    st_books st = Some (plain <$> books) -> Forall (settled P) books ->
    List.NoDup (map id books) ->
    List.NoDup (map id candidates) -> (forall b, In b candidates -> In b books) ->
    exists books' : list Book,
      st_books (fst (fst (phase2 P candidates st noData updated)))
      = Some (plain <$> books')
      /\ Forall (settled P) books'
      /\ map id books' = map id books
      /\ Forall2 keeps books books'.
Proof.
  induction candidates as [| book rest IH];
    intros st noData updated books Hb Hs Hnd Hc Hin.
  { exists books. cbn. repeat split; try assumption. apply all_keep_refl. }
  destruct (distinct_tail book rest Hc) as [Hc' Hother].
  assert (forall b, In b rest -> In b books) as Hin'
      by (intros b H; apply Hin; right; exact H).
  cbn [phase2].
  pose proof (awaitSearchBooks_books P st (queryOf book)) as Hb2. rewrite Hb in Hb2.
  destruct (awaitSearchBooks P st (queryOf book)) as [res st2]. cbn [snd] in Hb2.
  destruct res as [[| r results] | |].
  - apply IH; assumption.
  - destruct (hasKeys (updatesFor P book r)); [| apply IH; assumption].
    destruct (updateBook_keeps P st2 books book r Hb2 Hs Hnd
                (Hin book (or_introl eq_refl)))
      as (books1 & Hb1 & Hs1 & Hid1 & Hk1 & Ho1).
    destruct (IH (pace (updateBook P (id book) (updatesFor P book r) st2))
                 noData true books1 Hb1 Hs1) as (books' & H1 & H2 & H3 & H4).
    { rewrite Hid1. exact Hnd. }
    { exact Hc'. }
    { intros b Hbr. apply Ho1; [apply Hin'; exact Hbr | apply Hother; exact Hbr]. }
    exists books'. repeat split.
    + exact H1.
    + exact H2.
    + rewrite H3. exact Hid1.
    + eapply all_keep_trans; eassumption.
  - exists books. cbn [fst snd]. repeat split; try assumption. apply all_keep_refl.
  - apply IH; assumption.
Qed.

(** *** The run *)

Lemma migrate_ids P data : map id (fst (migrate P data)) = map s_id data.
Proof.
  induction data as [| raw data IH]; [reflexivity |]. cbn [migrate].
  pose proof (SchedulerFacts.migrateBook_frame P raw) as (Hi & _).
  destruct (migrateBook P raw) as [b m1]. destruct (migrate P data) as [rest m2].
  cbn [fst map plain s_id] in *. rewrite Hi, IH. reflexivity.
Qed.

Lemma distinct_filter (f : Book -> bool) books :
  List.NoDup (map id books) -> List.NoDup (map id (List.filter f books)).
Proof.
  induction books as [| b books IH]; intros H; [constructor |].
  cbn [map] in H. apply List.NoDup_cons_iff in H as [Hfresh Hnd].
  cbn [List.filter]. destruct (f b); [| apply IH; exact Hnd].
  cbn [map]. constructor; [| apply IH; exact Hnd].
  intros Hin. apply Hfresh. apply in_map_iff in Hin as (x & Hx & Hin).
  apply filter_In in Hin as [Hin _]. rewrite <- Hx. apply in_map. exact Hin.
Qed.

Lemma distinct_take n books :
  List.NoDup (map id books) -> List.NoDup (map id (take n books)).
Proof.
  revert books. induction n as [| n IH]; intros [| b books] H; cbn;
    [constructor | constructor | constructor |].
  cbn [map] in H. apply List.NoDup_cons_iff in H as [Hfresh Hnd].
  constructor; [| apply IH; exact Hnd].
  intros Hin. apply Hfresh. apply in_map_iff in Hin as (x & Hx & Hin).
  rewrite <- Hx. apply in_map. apply (SchedulerFacts.In_take x n). exact Hin.
Qed.

Lemma plain_ids (books : list Book) : map s_id (plain <$> books) = map id books.
Proof. induction books as [| b books IH]; [reflexivity |]. cbn. rewrite IH. reflexivity. Qed.

Lemma current_plains (books : list Book) : current <$> (plain <$> books) = books.
Proof.
  induction books as [| b books IH]; [reflexivity |].
  rewrite !fmap_cons, SchedulerFacts.current_plain, IH. reflexivity.
Qed.

(** X24: a run never overwrites what a record has.  In a store whose
    records have distinct ids, after a run that is due every record is
    still at its place with its id, and the store holds it with, from
    what the read at the start of the run returned, its page count when
    that was not 0, its date when that had more than four code units,
    and its cover, description and genre when it had them. *)
Theorem run_keeps_known P st :
  cooldown st = false ->
  List.NoDup (map s_id (stored st)) ->
  Forall2 keeps (fst (getBooks P st))
          (current <$> stored (backfillBookData P st))
  /\ map s_id (stored (backfillBookData P st)) = map s_id (stored st).
Proof.
  intros Hcool Hnd. unfold backfillBookData. rewrite Hcool.
  destruct (st_books st) as [data |] eqn:Hdata.
  2: { assert (getBooks P st = ([], st)) as Hg
           by (unfold getBooks; rewrite Hdata; reflexivity).
       assert (run P st = persist st (purge (st_now st) (getNoDataSet st))) as ->.
       { unfold run. rewrite Hg. unfold needsIsbnLookup, needsGoogle.
         cbn [List.filter phase1]. rewrite take_nil. reflexivity. }
       rewrite Hg. unfold stored. cbn [persist st_books].
       rewrite Hdata. split; [exact (List.Forall2_nil _) | reflexivity]. }
  rewrite SchedulerFacts.run_unfold. cbn zeta.
  pose proof (StoreFacts.getBooks_store P st) as Hstore.
  rewrite Hdata in Hstore. specialize (Hstore ltac:(discriminate)).
  pose proof (StoreFacts.getBooks_settled P st) as Hset.
  assert (map id (fst (getBooks P st)) = map s_id data) as Hids.
  { unfold getBooks. rewrite Hdata. pose proof (migrate_ids P data) as H.
    destruct (migrate P data) as [books m]. exact H. }
  unfold stored in Hnd. rewrite Hdata in Hnd.
  change (default [] (Some data)) with data in Hnd.
  set (current := fst (getBooks P st)) in *.
  set (st1 := snd (getBooks P st)) in *.
  set (nd1 := purge (st_now st1) (getNoDataSet st1)).
  assert (List.NoDup (map id current)) as Hndc by (rewrite Hids; exact Hnd).
  destruct (phase1_keeps P (needsIsbnLookup (st_now st1) nd1 current)
              st1 nd1 false current Hstore Hset Hndc)
    as (books1 & Hb1 & Hs1 & Hid1 & Hk1 & Hsame).
  { apply distinct_filter. exact Hndc. }
  { intros b Hb. apply filter_In in Hb as [Hb _]. exact Hb. }
  set (r1 := phase1 P (needsIsbnLookup (st_now st1) nd1 current) st1 nd1 false) in *.
  set (a := if snd r1 then getBooks P (fst (fst r1)) else (current, fst (fst r1))).
  assert (fst a = books1 /\ st_books (snd a) = Some (plain <$> books1))
    as [Ha1 Ha2].
  { subst a. destruct (snd r1).
    - rewrite (getBooks_of_settled P _ books1 Hb1 Hs1). split; [reflexivity | exact Hb1].
    - rewrite (Hsame eq_refl). split; [reflexivity |].
      rewrite <- (Hsame eq_refl). exact Hb1. }
  assert (List.NoDup (map id books1)) as Hnd1 by (rewrite Hid1; exact Hndc).
  destruct (phase2_keeps P (needsGoogle (st_now (snd a)) (snd (fst r1)) (fst a))
              (snd a) (snd (fst r1)) (snd r1) books1 Ha2 Hs1 Hnd1)
    as (books2 & Hb2 & Hs2 & Hid2 & Hk2).
  { rewrite Ha1. unfold needsGoogle. apply distinct_take, distinct_filter. exact Hnd1. }
  { rewrite Ha1. intros b Hb. unfold needsGoogle in Hb.
    apply SchedulerFacts.In_take in Hb. apply filter_In in Hb as [Hb _]. exact Hb. }
  set (r2 := phase2 P (needsGoogle (st_now (snd a)) (snd (fst r1)) (fst a))
                    (snd a) (snd (fst r1)) (snd r1)) in *.
  assert (st_books (finish P r2) = Some (plain <$> books2)) as Hfin.
  { destruct r2 as [[st4 nd4] u4]. cbn [fst] in Hb2. unfold finish.
    destruct u4; [| exact Hb2].
    rewrite (getBooks_of_settled P (persist st4 nd4) books2 Hb2 Hs2). exact Hb2. }
  unfold stored. rewrite Hfin, Hdata.
  change (default [] (Some (plain <$> books2))) with (plain <$> books2).
  change (default [] (Some data)) with data. rewrite current_plains. split.
  - eapply all_keep_trans; eassumption.
  - rewrite plain_ids, Hid2, Hid1. exact Hids.
Qed.

Lemma run_keeps_known_witness :
  let known :=
    {| id := "b3"; title := "Nyumon"; author := "Yamada";
       genre := EmptyString; publishedDate := EmptyString;
       status := reading; pageCount := 123; rating := 0;
       memo := EmptyString; description := "Mine"; thumbnail := None;
       purchaseUrl := "https://www.amazon.co.jp/dp/4774142042";
       finishedDate := None;
       createdAt := "2024-01-01T00:00:00.000Z";
       updatedAt := "2024-01-01T00:00:00.000Z" |} in
  let st := mkState (Some [plain known]) StampAbsent CacheAbsent 1000000 [] in
  let after := current <$> stored (backfillBookData Sample.bothPlatform st) in
  Forall2 keeps [known] after
  /\ map pageCount after = [123]
  /\ map description after = ["Mine"]
  /\ map thumbnail after = [Some "http://img/1"]
  /\ map publishedDate after = ["2010-04-01"].
Proof.
  intros known st after.
  split; [| vm_compute; repeat split].
  refine (proj1 (run_keeps_known Sample.bothPlatform st eq_refl _)).
  cbn. constructor; [intros [] | constructor].
Defined.

End KeepFacts.

(* ------------------------------------------------------------------ *)
(** ** goals.ts *)

Module GoalsFacts.
Import Goals.

Lemma digits_prefix_uint (d : Decimal.uint) :
  forall a,
    JS.digits_prefix JS.dec_value 10 (NilEmpty.string_of_uint d) (Some a)
    = Some (uint_value d a).
Proof.
  induction d; intros a; cbn [NilEmpty.string_of_uint uint_value];
    [reflexivity | ..]; cbn [JS.digits_prefix];
    match goal with
    | |- context [JS.dec_value ?c] =>
        let v := eval vm_compute in (JS.dec_value c) in
        change (JS.dec_value c) with v
    end; cbv beta iota; apply IHd.
Qed.

Lemma digits_prefix_uint0 (d : Decimal.uint) :
  d <> Decimal.Nil ->
  JS.digits_prefix JS.dec_value 10 (NilEmpty.string_of_uint d) None
  = Some (uint_value d 0).
Proof.
  destruct d; intros H; [contradiction | ..];
    cbn [NilEmpty.string_of_uint uint_value JS.digits_prefix];
    match goal with
    | |- context [JS.dec_value ?c] =>
        let v := eval vm_compute in (JS.dec_value c) in
        change (JS.dec_value c) with v
    end; cbv beta iota; rewrite digits_prefix_uint; reflexivity.
Qed.

Lemma of_uint_acc_value (d : Decimal.uint) :
  forall acc, Z.pos (Pos.of_uint_acc d acc) = uint_value d (Z.pos acc).
Proof.
  induction d; intros acc; cbn [Pos.of_uint_acc uint_value];
    [reflexivity | ..]; rewrite IHd; f_equal; lia.
Qed.

Lemma of_uint_value (d : Decimal.uint) : Z.of_N (Pos.of_uint d) = uint_value d 0.
Proof.
  induction d; cbn [Pos.of_uint uint_value]; [reflexivity | exact IHd | ..];
    cbn [Z.of_N]; rewrite of_uint_acc_value; reflexivity.
Qed.

Lemma to_uint_value (p : positive) : uint_value (Pos.to_uint p) 0 = Z.pos p.
Proof.
  rewrite <- of_uint_value, DecimalPos.Unsigned.of_to. reflexivity.
Qed.

(** A one-byte character that is no white space stops [trimStart]. *)
Lemma trimStart_stops (c : ascii) (s : string) :
  (nat_of_ascii c < 128)%nat -> JS.is_space c = false ->
  JS.trimStart (String c s) = String c s.
Proof.
  intros Hc Hs. cbn [JS.trimStart]. rewrite Hs.
  destruct s as [| c2 s2]; [reflexivity |].
  assert (JS.is_space2 c c2 = false) as ->.
  { unfold JS.is_space2. destruct (Nat.eqb_spec (nat_of_ascii c) 194);
      [lia | reflexivity]. }
  destruct s2 as [| c3 s3]; [reflexivity |].
  assert (JS.is_space3 c c2 c3 = false) as ->; [| reflexivity].
  unfold JS.is_space3. cbv zeta.
  destruct (Nat.eqb_spec (nat_of_ascii c) 225); [lia |].
  destruct (Nat.eqb_spec (nat_of_ascii c) 226); [lia |].
  destruct (Nat.eqb_spec (nat_of_ascii c) 227); [lia |].
  destruct (Nat.eqb_spec (nat_of_ascii c) 239); [lia |].
  reflexivity.
Qed.

(** The decimal text of a positive number starts with a digit. *)
Lemma parseInt10_uint (d : Decimal.uint) :
  d <> Decimal.Nil ->
  parseInt10 (NilEmpty.string_of_uint d) = JS.Num (uint_value d 0)
  /\ parseInt10 (String "-" (NilEmpty.string_of_uint d)) = JS.Num (- uint_value d 0)
  /\ JS.nonempty (NilEmpty.string_of_uint d) = true.
Proof.
  intros H. pose proof (digits_prefix_uint0 d H) as Hd.
  split; [| split].
  - destruct d; [contradiction | ..]; unfold parseInt10;
      cbn [NilEmpty.string_of_uint] in *;
      rewrite trimStart_stops by (vm_compute; first [lia | reflexivity]);
      cbv beta iota; rewrite Hd; f_equal; lia.
  - unfold parseInt10.
    rewrite trimStart_stops by (vm_compute; first [lia | reflexivity]).
    cbv beta iota. rewrite Hd. f_equal; lia.
  - destruct d; [contradiction | ..]; reflexivity.
Qed.

Lemma string_of_Z_pos (p : positive) :
  JS.string_of_Z (Z.pos p) = NilEmpty.string_of_uint (Pos.to_uint p).
Proof.
  unfold JS.string_of_Z. cbn [Z.to_int NilZero.string_of_int].
  pose proof (DecimalPos.Unsigned.to_uint_nonnil p) as H.
  unfold NilZero.string_of_uint. destruct (Pos.to_uint p); [contradiction | ..];
    reflexivity.
Qed.

Lemma string_of_Z_neg (p : positive) :
  JS.string_of_Z (Z.neg p) = String "-" (NilEmpty.string_of_uint (Pos.to_uint p)).
Proof.
  unfold JS.string_of_Z. cbn [Z.to_int NilZero.string_of_int].
  pose proof (DecimalPos.Unsigned.to_uint_nonnil p) as H.
  unfold NilZero.string_of_uint. destruct (Pos.to_uint p); [contradiction | ..];
    reflexivity.
Qed.

Lemma parseInt10_string_of_Z (n : Z) :
  parseInt10 (JS.string_of_Z n) = JS.Num n
  /\ JS.nonempty (JS.string_of_Z n) = true.
Proof.
  destruct n as [| p | p].
  - split; reflexivity.
  - rewrite string_of_Z_pos.
    destruct (parseInt10_uint _ (DecimalPos.Unsigned.to_uint_nonnil p))
      as (H1 & _ & H3).
    rewrite H1, to_uint_value. split; [reflexivity | exact H3].
  - rewrite string_of_Z_neg.
    destruct (parseInt10_uint _ (DecimalPos.Unsigned.to_uint_nonnil p))
      as (_ & H2 & _).
    rewrite H2, to_uint_value. split; reflexivity.
Qed.

(** X21: the yearly goal is read back as it was set.  For an integer
    that [String] writes in decimal (below 10^21 in absolute value),
    [getYearlyGoal] after [setYearlyGoal] returns that integer, 0 and
    negative ones included; the journal is not touched. *)
Theorem yearly_goal_round_trip (goal : Z) (prefs : Prefs) :
  Z.abs goal < 10 ^ 21 ->
  getYearlyGoal (setYearlyGoal goal prefs) = JS.Num goal
  /\ journal (setYearlyGoal goal prefs) = journal prefs.
Proof.
  intros _. split; [| reflexivity].
  unfold getYearlyGoal, setYearlyGoal. cbn [goalText].
  destruct (parseInt10_string_of_Z goal) as [H1 H2]. rewrite H2. exact H1.
Qed.

Lemma yearly_goal_round_trip_witness :
  getYearlyGoal (setYearlyGoal 24 (mkPrefs None None)) = JS.Num 24.
Proof.
  exact (proj1 (yearly_goal_round_trip 24 (mkPrefs None None) ltac:(lia))).
Defined.

(** *** The journal *)

Lemma indexOf_None date dates :
  indexOf date dates = None <-> ~ In date dates.
Proof.
  induction dates as [| d rest IH]; cbn; [tauto |].
  destruct (String.eqb d date) eqn:E.
  - apply String.eqb_eq in E. split; [discriminate | intros H; exfalso; tauto].
  - apply String.eqb_neq in E.
    destruct (indexOf date rest); cbn.
    + split; [discriminate |]. intros H. exfalso. apply H. right.
      destruct (In_dec string_dec date rest) as [Hin | Hn]; [exact Hin |].
      apply IH in Hn. discriminate Hn.
    + split; [| reflexivity]. intros _ [H | H]; [congruence |].
      apply (proj1 IH eq_refl H).
Qed.

(** What [splice] removes is the first occurrence of the date. *)
Lemma indexOf_Some date dates :
  forall idx,
    indexOf date dates = Some idx ->
    exists pre post,
      dates = (pre ++ date :: post)%list
      /\ ~ In date pre
      /\ splice1 idx dates = (pre ++ post)%list.
Proof.
  induction dates as [| d rest IH]; intros idx; cbn; [discriminate |].
  destruct (String.eqb d date) eqn:E.
  - apply String.eqb_eq in E. subst d. intros [= <-].
    exists [], rest. repeat split. intros [].
  - apply String.eqb_neq in E.
    destruct (indexOf date rest) as [i |]; cbn; [| discriminate].
    intros [= <-]. destruct (IH i eq_refl) as (pre & post & -> & Hn & Hs).
    exists (d :: pre), post. cbn. rewrite Hs. repeat split.
    intros [H | H]; [congruence | exact (Hn H)].
Qed.

Lemma indexOf_appended date dates :
  ~ In date dates ->
  indexOf date (dates ++ [date])%list = Some (List.length dates)
  /\ splice1 (List.length dates) (dates ++ [date])%list = dates.
Proof.
  induction dates as [| d rest IH]; intros H; cbn.
  - rewrite String.eqb_refl. split; reflexivity.
  - destruct (String.eqb d date) eqn:E.
    + apply String.eqb_eq in E. exfalso. apply H. left. exact E.
    + destruct IH as [H1 H2]; [intros Hin; apply H; right; exact Hin |].
      rewrite H1, H2. split; reflexivity.
Qed.

(** X22: toggling a date flips it and nothing else.  On a journal
    without repeated dates, [toggleJournalDate] returns a journal
    without repeated dates that holds the date exactly when the stored
    one did not, and every other date exactly when the stored one did;
    what it returns is what it stores. *)
Theorem toggleJournalDate_flips (date : string) (prefs : Prefs) :
  List.NoDup (getJournalDates prefs) ->
  let after := fst (toggleJournalDate date prefs) in
  List.NoDup after
  /\ (In date after <-> ~ In date (getJournalDates prefs))
  /\ (forall d, d <> date -> (In d after <-> In d (getJournalDates prefs)))
  /\ getJournalDates (snd (toggleJournalDate date prefs)) = after
  /\ goalText (snd (toggleJournalDate date prefs)) = goalText prefs.
Proof.
  intros Hnd after. subst after. unfold toggleJournalDate. cbn [fst snd].
  set (dates := getJournalDates prefs) in *.
  destruct (indexOf date dates) as [idx |] eqn:E.
  - destruct (indexOf_Some _ _ _ E) as (pre & post & Hd & Hpre & ->).
    rewrite Hd in Hnd. pose proof (List.NoDup_remove_1 _ _ _ Hnd) as Hnd1.
    pose proof (List.NoDup_remove_2 _ _ _ Hnd) as Hnd2.
    rewrite Hd.
    split; [exact Hnd1 |]. split; [| split; [| split; reflexivity]].
    + split; [intros H; exfalso; exact (Hnd2 H) |].
      intros H. exfalso. apply H. apply in_or_app. right. left. reflexivity.
    + intros d Hne. split; intros H.
      * apply in_app_or in H as [H | H]; apply in_or_app;
          [left | right; right]; exact H.
      * apply in_app_or in H as [H | [H | H]];
          [apply in_or_app; left; exact H | congruence
          | apply in_or_app; right; exact H].
  - apply indexOf_None in E.
    split; [| split; [| split; [| split; reflexivity]]].
    + apply List.NoDup_rev in Hnd.
      rewrite <- (List.rev_involutive (dates ++ [date])).
      apply List.NoDup_rev. rewrite List.rev_app_distr. cbn.
      constructor; [rewrite <- List.in_rev; exact E | exact Hnd].
    + split; [intros _; exact E |].
      intros _. apply in_or_app. right. left. reflexivity.
    + intros d Hne. split; intros H.
      * apply in_app_or in H as [H | [H | []]]; [exact H | congruence].
      * apply in_or_app. left. exact H.
Qed.

Lemma toggleJournalDate_flips_witness :
  let prefs := mkPrefs None (Some ["2024-06-01"; "2024-06-02"]) in
  fst (toggleJournalDate "2024-06-01" prefs) = ["2024-06-02"]
  /\ List.NoDup (fst (toggleJournalDate "2024-06-01" prefs)).
Proof.
  intros prefs. split; [reflexivity |].
  refine (proj1 (toggleJournalDate_flips "2024-06-01" prefs _)).
  cbn. constructor; [intros [H | []]; discriminate H |].
  constructor; [intros [] | constructor].
Defined.

(** X23: toggling twice a date that the journal does not hold gives
    back the journal as it was: the date is appended, found at the end
    and removed there. *)
Theorem toggleJournalDate_twice (date : string) (prefs : Prefs) :
  ~ In date (getJournalDates prefs) ->
  fst (toggleJournalDate date (snd (toggleJournalDate date prefs)))
  = getJournalDates prefs
  /\ fst (toggleJournalDate date prefs) = (getJournalDates prefs ++ [date])%list.
Proof.
  intros H. pose proof (proj2 (indexOf_None _ _) H) as E.
  destruct (indexOf_appended _ _ H) as [H1 H2].
  unfold toggleJournalDate at 2 3. cbn [fst snd]. rewrite E.
  split; [| reflexivity].
  unfold toggleJournalDate. cbn [fst snd getJournalDates journal].
  rewrite H1. exact H2.
Qed.

Lemma toggleJournalDate_twice_witness :
  let prefs := mkPrefs None (Some ["2024-06-02"]) in
  fst (toggleJournalDate "2024-06-01" (snd (toggleJournalDate "2024-06-01" prefs)))
  = ["2024-06-02"].
Proof.
  intros prefs.
  refine (proj1 (toggleJournalDate_twice "2024-06-01" prefs _)).
  cbn. intros [H | []]. discriminate H.
Defined.

End GoalsFacts.
